(** * AI Interview Trainer: answer scoring, session report and history store

    A shallow embedding of [js/aiService.js] (class [AIService]), of the
    storage service (class [StorageService]) and of the two persisting
    methods of the interview engine (class [InterviewEngine]).

    Conventions of the embedding.

    - A JavaScript string is a [string] whose characters are the code units
      below 256; [toLowerCase], [trim] and the class [\s] are those of the
      language restricted to that range.  Pictographs of display texts are
      kept as the bytes of their UTF-8 encoding; the program never inspects
      them.
    - A JavaScript number is an exact rational ([Q]), or one of the three
      non-finite values where a division can produce them ([JS.number]).
      Where a result of the program depends on the rounding of binary
      floating point (the trend of the statistics, the formatting of a
      duration) the arithmetic is that of the module [Double]: IEEE 754
      double precision, every operation rounded to the nearest double,
      ties to even, with the two zeros, the infinities and not-a-number.
    - An exception is the [None] of an [option]; [try]/[catch] is a [match].
    - [Math.random], [Date] and the identifier generators are inputs.
    - Console logging and the [storage-update] event change none of the
      values followed here and are left out. *)

From Stdlib Require Import List String Ascii Bool Arith ZArith QArith Qround
  Qminmax Qabs Qpower Lia Lqa DecimalString Permutation.
From Stdlib Require DecimalZ DecimalPos.
Import ListNotations.

Set Warnings "-register-all".

Open Scope string_scope.

(* ================================================================== *)
(** ** Language primitives used by the program *)

Module JS.

(** *** Strings *)

Definition code (c : ascii) : nat := nat_of_ascii c.

Definition in_range (lo hi : nat) (c : ascii) : bool :=
  (lo <=? code c)%nat && (code c <=? hi)%nat.

(** [String.prototype.toLowerCase], one code unit at a time. *)
Definition lower_char (c : ascii) : ascii :=
  if in_range 65 90 c || (in_range 192 222 c && negb (code c =? 215)%nat)
  then ascii_of_nat (code c + 32) else c.

(** The upper-casing that the callbacks of [cleanTranscript] apply to a
    character already known to match [[a-z]]. *)
Definition upper_char (c : ascii) : ascii :=
  if in_range 97 122 c then ascii_of_nat (code c - 32) else c.

Fixpoint toLowerCase (s : string) : string :=
  match s with
  | EmptyString => EmptyString
  | String c r => String (lower_char c) (toLowerCase r)
  end.

(** [s.includes(t)]: [t] occurs in [s] as a contiguous substring. *)
Fixpoint includes (s t : string) : bool :=
  String.prefix t s ||
  match s with
  | EmptyString => false
  | String _ r => includes r t
  end.

(** White space as [trim] and the regular-expression class [\s] see it. *)
Definition is_space (c : ascii) : bool :=
  in_range 9 13 c || (code c =? 32)%nat || (code c =? 160)%nat.

Fixpoint trimStart (s : string) : string :=
  match s with
  | EmptyString => EmptyString
  | String c r => if is_space c then trimStart r else s
  end.

Fixpoint trimEnd (s : string) : string :=
  match s with
  | EmptyString => EmptyString
  | String c r =>
      match trimEnd r with
      | EmptyString => if is_space c then EmptyString else String c EmptyString
      | r' => String c r'
      end
  end.

Definition trim (s : string) : string := trimEnd (trimStart s).

(** [s.split(/\s+/)]: the pieces between the maximal runs of white space.
    [piece] is the piece being read and [in_run] tells that the previous
    character was white space.  A leading or trailing run leaves an empty
    piece, and the empty string splits into one empty piece. *)
Fixpoint split_ws_from (piece : string) (in_run : bool) (s : string)
  : list string :=
  match s with
  | EmptyString => [piece]
  | String c r =>
      if is_space c
      then if in_run then split_ws_from piece true r
           else piece :: split_ws_from EmptyString true r
      else split_ws_from (piece ++ String c EmptyString) false r
  end.

Definition split_ws (s : string) : list string :=
  split_ws_from EmptyString false s.

Definition join (sep : string) (l : list string) : string :=
  String.concat sep l.

(** [l.slice(a, b)] for [0 <= a <= b]. *)
Definition slice {A} (a b : nat) (l : list A) : list A :=
  firstn (b - a) (skipn a l).

(** Truthiness of a string: only the empty string is falsy. *)
Definition truthy_string (s : string) : bool :=
  negb (String.eqb s EmptyString).

(** [a || b] on strings that may be absent. *)
Definition or_string (a : option string) (b : string) : string :=
  match a with
  | Some s => if truthy_string s then s else b
  | None => b
  end.

(** Decimal rendering of an integer inside a template literal. *)
Definition string_of_Z (z : Z) : string :=
  NilZero.string_of_int (Z.to_int z).

Definition string_of_nat (n : nat) : string :=
  string_of_Z (Z.of_nat n).

(** *** Numbers *)

(** A length or a count as a number. *)
Definition Qnat (n : nat) : Q := inject_Z (Z.of_nat n).

(** [Math.round] on a finite number: the nearest integer, halves going
    up. *)
Definition Math_round (q : Q) : Z := Qfloor (q + (1 # 2)).

(** The values of a computation that divides. *)
Inductive number : Type :=
| Fin (q : Q)
| PosInf
| NegInf
| NaN.

Definition div (a b : number) : number :=
  match a, b with
  | Fin x, Fin y =>
      if Qeq_bool y 0
      then if Qeq_bool x 0 then NaN
           else if Qle_bool 0 x then PosInf else NegInf
      else Fin (x / y)
  | Fin _, (PosInf | NegInf) => Fin 0
  | PosInf, Fin y => if Qle_bool 0 y then PosInf else NegInf
  | NegInf, Fin y => if Qle_bool 0 y then NegInf else PosInf
  | _, _ => NaN
  end.

Definition sub (a b : number) : number :=
  match a, b with
  | Fin x, Fin y => Fin (x - y)
  | Fin _, PosInf => NegInf
  | Fin _, NegInf => PosInf
  | PosInf, (Fin _ | NegInf) => PosInf
  | NegInf, (Fin _ | PosInf) => NegInf
  | _, _ => NaN
  end.

Definition add (a b : number) : number :=
  match a, b with
  | Fin x, Fin y => Fin (x + y)
  | PosInf, NegInf | NegInf, PosInf => NaN
  | NaN, _ | _, NaN => NaN
  | PosInf, _ | _, PosInf => PosInf
  | NegInf, _ | _, NegInf => NegInf
  end.

(** [Math.min(a, b)] *)
Definition min (a b : number) : number :=
  match a, b with
  | NaN, _ | _, NaN => NaN
  | NegInf, _ | _, NegInf => NegInf
  | PosInf, other | other, PosInf => other
  | Fin x, Fin y => Fin (Qmin x y)
  end.

(** An infinity of the given sign times a finite factor. *)
Definition scale_inf (positive : bool) (y : Q) : number :=
  if Qeq_bool y 0 then NaN
  else if Bool.eqb positive (Qle_bool 0 y) then PosInf else NegInf.

Definition mul (a b : number) : number :=
  match a, b with
  | Fin x, Fin y => Fin (x * y)
  | PosInf, Fin y | Fin y, PosInf => scale_inf true y
  | NegInf, Fin y | Fin y, NegInf => scale_inf false y
  | PosInf, PosInf | NegInf, NegInf => PosInf
  | PosInf, NegInf | NegInf, PosInf => NegInf
  | _, _ => NaN
  end.

(** [Math.round] on any number. *)
Definition round (a : number) : number :=
  match a with
  | Fin x => Fin (inject_Z (Math_round x))
  | other => other
  end.

(** [a >= k] and [a > k] against a finite constant; every comparison with
    [NaN] is false. *)
Definition geb (a : number) (k : Q) : bool :=
  match a with
  | Fin x => Qle_bool k x
  | PosInf => true
  | NegInf | NaN => false
  end.

Definition gtb (a : number) (k : Q) : bool :=
  match a with
  | Fin x => negb (Qle_bool x k)
  | PosInf => true
  | NegInf | NaN => false
  end.

(** A number inside a template literal, for the integers and the
    non-finite values an average of integers can round to. *)
Definition string_of_number (a : number) : string :=
  match a with
  | Fin x => string_of_Z (Qfloor x)
  | PosInf => "Infinity"
  | NegInf => "-Infinity"
  | NaN => "NaN"
  end.

(** *** JSON values *)

(** What [JSON.parse] returns.  The fields of an object are keyed
    uniquely, in insertion order. *)
Inductive json : Type :=
| JNull
| JBool (b : bool)
| JNum (q : Q)
| JStr (s : string)
| JArr (items : list json)
| JObj (fields : list (string * json)).

Fixpoint assoc {A} (k : string) (l : list (string * A)) : option A :=
  match l with
  | [] => None
  | (k', v) :: r => if String.eqb k k' then Some v else assoc k r
  end.

(** What [JSON.stringify] leaves of a number: the non-finite ones become
    [null]. *)
Definition json_of_number (a : number) : json :=
  match a with
  | Fin q => JNum q
  | _ => JNull
  end.

(** Truthiness of a value, [undefined] being [None]. *)
Definition truthy (v : option json) : bool :=
  match v with
  | None | Some JNull => false
  | Some (JBool b) => b
  | Some (JNum q) => negb (Qeq_bool q 0)
  | Some (JStr s) => truthy_string s
  | Some (JArr _) | Some (JObj _) => true
  end.

(** [a || b] on values. *)
Definition or_value (a : option json) (b : json) : json :=
  match a with
  | Some v => if truthy a then v else b
  | None => b
  end.

(** [v.k] for a key [k] that no prototype defines: [None] when reading
    the property throws (on [null]), [Some None] when it is [undefined]. *)
Definition get (k : string) (v : json) : option (option json) :=
  match v with
  | JNull => None
  | JObj fields => Some (assoc k fields)
  | _ => Some None
  end.

(** [obj.k = v] on the list of fields: an existing key keeps its place, a
    new key goes last. *)
Fixpoint set (k : string) (v : json) (fields : list (string * json))
  : list (string * json) :=
  match fields with
  | [] => [(k, v)]
  | (k', v') :: r =>
      if String.eqb k k' then (k, v) :: r else (k', v') :: set k v r
  end.

End JS.

(* ================================================================== *)
(** ** Double precision arithmetic *)

(** The numbers of the language are the doubles of IEEE 754: 53 binary
    digits, exponents from -1074 to 971 for the last digit, results rounded
    to the nearest double with ties going to the even one.  A double is
    represented by the rational it denotes. *)

Module Double.

Import JS.

(** *** Rounding a rational *)

(** [2^e] *)
Definition pow2 (e : Z) : Q :=
  if (e <? 0)%Z then / inject_Z (Z.shiftl 1 (- e))
  else inject_Z (Z.shiftl 1 e).

(** The integer nearest to [q], a tie going to the even one. *)
Definition nearestEven (q : Q) : Z :=
  let f := Qfloor q in
  match Qcompare (q - inject_Z f) (1 # 2) with
  | Lt => f
  | Gt => (f + 1)%Z
  | Eq => if Z.even f then f else (f + 1)%Z
  end.

(** [floor (log2 q)] for [q > 0]: the quotient of a numerator of [a + 1]
    binary digits by a denominator of [b + 1] lies between [2^(a - b - 1)]
    and [2^(a - b + 1)]. *)
Definition ilog2 (q : Q) : Z :=
  let l := (Z.log2 (Qnum q) - Z.log2 (Zpos (Qden q)))%Z in
  if Qle_bool (pow2 l) q then l else (l - 1)%Z.

(** The exponent of the last binary digit that a double near [q] keeps:
    53 digits from the leading one, and none below [2^-1074]. *)
Definition lastDigit (q : Q) : Z :=
  Z.max (-1074) (ilog2 (Qabs q) - 52).

(** The double nearest to [q], were there no largest double: the nearest
    multiple of [2 ^ lastDigit q]. *)
Definition nearest (q : Q) : Q :=
  if Qeq_bool q 0 then 0
  else
    let e := lastDigit q in
    Qred (inject_Z (nearestEven (q / pow2 e)) * pow2 e).

(** *** The values *)

(** [Finite q] is the double of value [q], the positive zero for
    [q == 0]. *)
Inductive double : Type :=
| Finite (q : Q)
| NegZero
| Infinite (negative : bool)
| NotANumber.

Definition isNegative (x : double) : bool :=
  match x with
  | Finite q => negb (Qle_bool 0 q)
  | NegZero => true
  | Infinite negative => negative
  | NotANumber => false
  end.

Definition isZero (x : double) : bool :=
  match x with
  | Finite q => Qeq_bool q 0
  | NegZero => true
  | _ => false
  end.

Definition zero (negative : bool) : double :=
  if negative then NegZero else Finite 0.

(** The value of a finite double. *)
Definition value (x : double) : Q :=
  match x with
  | Finite q => q
  | _ => 0
  end.

(** The double for the exact result [q] of an operation, [q] other than
    0: a zero of the sign of [q] when [q] is too small, an infinity when
    the nearest value reaches [2^1024]. *)
Definition rounded (q : Q) : double :=
  let r := nearest q in
  if Qeq_bool r 0 then zero (negb (Qle_bool 0 q))
  else if (1024 <=? ilog2 (Qabs r))%Z then Infinite (negb (Qle_bool 0 q))
  else Finite r.

(** The double that a numeral or an integer of the program denotes. *)
Definition of_Q (q : Q) : double :=
  if Qeq_bool q 0 then Finite 0 else rounded q.

Definition of_nat (n : nat) : double := of_Q (Qnat n).

(** *** The operations *)

(** [- x] *)
Definition opp (x : double) : double :=
  match x with
  | Finite q => if Qeq_bool q 0 then NegZero else Finite (- q)
  | NegZero => Finite 0
  | Infinite negative => Infinite (negb negative)
  | NotANumber => NotANumber
  end.

(** [x + y]: an exact sum of 0 is the positive zero, unless both terms are
    the negative zero. *)
Definition add (x y : double) : double :=
  match x, y with
  | NotANumber, _ | _, NotANumber => NotANumber
  | Infinite s, Infinite t => if Bool.eqb s t then x else NotANumber
  | Infinite _, _ => x
  | _, Infinite _ => y
  | NegZero, other | other, NegZero => other
  | Finite p, Finite q =>
      if Qeq_bool (p + q) 0 then Finite 0 else rounded (p + q)
  end.

(** [x - y] *)
Definition sub (x y : double) : double := add x (opp y).

(** [x * y] *)
Definition mul (x y : double) : double :=
  let negative := xorb (isNegative x) (isNegative y) in
  match x, y with
  | NotANumber, _ | _, NotANumber => NotANumber
  | Infinite _, other | other, Infinite _ =>
      if isZero other then NotANumber else Infinite negative
  | _, _ =>
      if isZero x || isZero y then zero negative
      else rounded (value x * value y)
  end.

(** [x / y] *)
Definition div (x y : double) : double :=
  let negative := xorb (isNegative x) (isNegative y) in
  match x, y with
  | NotANumber, _ | _, NotANumber => NotANumber
  | Infinite _, Infinite _ => NotANumber
  | Infinite _, _ => Infinite negative
  | _, Infinite _ => zero negative
  | _, _ =>
      if isZero y
      then if isZero x then NotANumber else Infinite negative
      else if isZero x then zero negative
           else rounded (value x / value y)
  end.

(** [Math.round(x)]: the nearest integer, halves going up; a result of 0
    keeps the sign of [x]. *)
Definition round (x : double) : double :=
  match x with
  | Finite q =>
      if Qeq_bool q 0 then x
      else
        let z := Math_round q in
        if (z =? 0)%Z then zero (isNegative x) else Finite (inject_Z z)
  | other => other
  end.

(** [l.reduce((a, b) => a + b, 0)] *)
Definition sum (l : list Q) : double :=
  fold_left (fun a b => add a (of_Q b)) l (Finite 0).




(** A double as a [JS.number], where the sign of zero no longer
    matters. *)
Definition to_number (x : double) : number :=
  match x with
  | Finite q => Fin q
  | NegZero => Fin 0
  | Infinite false => PosInf
  | Infinite true => NegInf
  | NotANumber => NaN
  end.

End Double.

(* ================================================================== *)
(** ** js/aiService.js: class AIService *)

Module AIService.

Import JS.

(** *** The knowledge base *)

Record RoleBase : Type := mkRoleBase {
  keywords : list string;
  concepts : list string;
  explanations : list (string * string)
}.

Definition dataScientistBase : RoleBase := mkRoleBase
  ["python"; "pandas"; "numpy"; "scikit-learn"; "tensorflow"; "statistics";
   "visualization"]
  ["data cleaning"; "feature engineering"; "model evaluation";
   "cross-validation"; "hypothesis testing"]
  [("statistics",
    "Statistical understanding is crucial for data interpretation and model validation.");
   ("machine learning",
    "Understanding ML algorithms and their trade-offs is fundamental.");
   ("python",
    "Python is the primary language for data science with rich ecosystem.")].

Definition frontendBase : RoleBase := mkRoleBase
  ["html"; "css"; "javascript"; "react"; "components"; "state"; "props"]
  ["virtual dom"; "rendering"; "performance"; "accessibility";
   "responsive design"]
  [("javascript",
    "JavaScript is the core language for frontend interactivity.");
   ("react", "React components should be reusable and maintainable.");
   ("css",
    "CSS requires understanding of layout, specificity, and responsive design.")].

Definition backendBase : RoleBase := mkRoleBase
  ["api"; "database"; "server"; "node.js"; "python"; "java"; "sql"]
  ["rest"; "graphql"; "orm"; "scalability"; "caching"; "security"]
  [("api", "APIs should be RESTful, versioned, and properly documented.");
   ("database",
    "Database choice depends on data structure and access patterns.");
   ("scalability",
    "Systems should scale horizontally with load balancing.")].

Definition productManagerBase : RoleBase := mkRoleBase
  ["product"; "user"; "market"; "roadmap"; "stakeholder"; "metrics"]
  ["prioritization"; "user research"; "agile"; "product strategy";
   "go-to-market"]
  [("prioritization",
    "Features should be prioritized based on value vs effort.");
   ("user research", "Understanding user needs drives product success.");
   ("metrics", "Success should be measured with actionable metrics.")].

(** [initializeKnowledgeBase] *)
Definition knowledgeBase : list (string * RoleBase) :=
  [("Data Scientist", dataScientistBase);
   ("Frontend Developer", frontendBase);
   ("Backend Developer", backendBase);
   ("Product Manager", productManagerBase)].

(** The property names every object literal inherits.  Reading one of them
    from a table gives a truthy value that is none of the table's entries. *)
Definition inherited_names : list string :=
  ["constructor"; "__proto__"; "hasOwnProperty"; "isPrototypeOf";
   "propertyIsEnumerable"; "toLocaleString"; "toString"; "valueOf";
   "__defineGetter__"; "__defineSetter__"; "__lookupGetter__";
   "__lookupSetter__"].

Definition inherited (k : string) : bool :=
  existsb (String.eqb k) inherited_names.

(** [this.knowledgeBase[role] || this.knowledgeBase['Data Scientist']].
    [None] stands for an inherited member, which has neither [keywords] nor
    [explanations]. *)
Definition roleBaseOf (role : string) : option RoleBase :=
  match assoc role knowledgeBase with
  | Some rb => Some rb
  | None => if inherited role then None else Some dataScientistBase
  end.

(** *** Depth indicators *)

Definition containsExamples (answer : string) : bool :=
  let indicators :=
    ["for example"; "such as"; "like when"; "instance"; "case study";
     "in practice"] in
  existsb (fun i => includes (toLowerCase answer) i) indicators.

Definition hasStructure (answer : string) : bool :=
  let indicators :=
    ["first"; "second"; "finally"; "in conclusion"; "1."; "2."; "firstly";
     "secondly"] in
  existsb (fun i => includes (toLowerCase answer) i) indicators.

Definition hasTechnicalTerms (answer role : string) : bool :=
  let roleBase := roleBaseOf role in
  let keywords := match roleBase with Some rb => keywords rb | None => [] end in
  let answerLower := toLowerCase answer in
  existsb (fun k => includes answerLower (toLowerCase k)) keywords.

(** [getConceptExplanation].  The table is read at its own keys; a concept
    that lower-cases to [constructor] or [__proto__] reads a member of the
    prototype whose text is left to the engine, and is outside this
    model. *)
Definition getConceptExplanation (concept role : string) : string :=
  let fallback :=
    concept ++ " is an important concept for " ++ role
            ++ " role. Review fundamentals." in
  match roleBaseOf role with
  | Some rb =>
      match assoc (toLowerCase concept) (explanations rb) with
      | Some e => if truthy_string e then e else fallback
      | None => fallback
      end
  | None => fallback
  end.

(** *** Scoring one answer *)

Inductive Correctness : Type := correct | partial | incorrect.

Record Evaluation : Type := mkEvaluation {
  result_score : Z;
  result_correctness : Correctness;
  result_strengths : list string;
  result_weaknesses : list string;
  result_missingConcepts : list string;
  result_conceptCorrections : list string;
  result_scoreReason : string
}.

Definition mentions (answerLower concept : string) : bool :=
  includes answerLower (toLowerCase concept).

(** [coveredConcepts] and [result.missingConcepts] as the [forEach] over
    the expected concepts fills them. *)
Definition coveredConcepts (answer : string) (expectedConcepts : list string)
  : list string :=
  filter (mentions (toLowerCase answer)) expectedConcepts.

Definition missingOf (answer : string) (expectedConcepts : list string)
  : list string :=
  filter (fun c => negb (mentions (toLowerCase answer) c)) expectedConcepts.

Definition conceptsCovered (answer : string) (expectedConcepts : list string)
  : nat :=
  List.length (coveredConcepts answer expectedConcepts).

Definition wordCount (answer : string) : nat :=
  List.length (split_ws answer).

Definition conceptScore (answer : string) (expectedConcepts : list string)
  : Q :=
  if (0 <? List.length expectedConcepts)%nat
  then (Qnat (conceptsCovered answer expectedConcepts)
        / Qnat (List.length expectedConcepts)) * 40
  else 30.

Definition depthScore (answer : string) : Q :=
  Qmin 20 ((Qnat (wordCount answer) / 15) * 10).

Definition examplesScore (answer : string) : Q :=
  if containsExamples answer then 15 else 0.

Definition structureScore (answer : string) : Q :=
  if hasStructure answer then 10 else 0.

Definition technicalScore (answer role : string) : Q :=
  if hasTechnicalTerms answer role then 15 else 0.

Definition rawScore (answer : string) (expectedConcepts : list string)
  (role : string) : Q :=
  conceptScore answer expectedConcepts + depthScore answer
  + examplesScore answer + structureScore answer
  + technicalScore answer role.

Definition scoreOf (answer : string) (expectedConcepts : list string)
  (role : string) : Z :=
  Z.min 100 (Math_round (rawScore answer expectedConcepts role)).

Definition scoreReasons (answer : string) (expectedConcepts : list string)
  : list string :=
  let covered := conceptsCovered answer expectedConcepts in
  [if (0 <? covered)%nat
   then "Covered " ++ string_of_nat covered ++ "/"
        ++ string_of_nat (List.length expectedConcepts) ++ " key concepts"
   else "Missed all key concepts"]
  ++ [if containsExamples answer then "Good use of examples"
      else "Missing concrete examples"]
  ++ (if (wordCount answer <? 30)%nat then ["Answer too brief"]
      else if (100 <? wordCount answer)%nat then ["Comprehensive detail"]
      else []).

Definition evaluateAnswerIntelligently (question answer : string)
  (expectedConcepts : list string) (role : string) : Evaluation :=
  let covered := coveredConcepts answer expectedConcepts in
  let missing := missingOf answer expectedConcepts in
  let hasExamples := containsExamples answer in
  let score := scoreOf answer expectedConcepts role in
  let scoreReason :=
    "Score: " ++ string_of_Z score ++ "% - "
    ++ join ", " (scoreReasons answer expectedConcepts) in
  if (80 <=? score)%Z then
    mkEvaluation score correct
      (["Strong understanding demonstrated";
        "Covered key concepts: " ++ join ", " (slice 0 3 covered)]
       ++ (if hasExamples then ["Excellent use of examples"] else [])
       ++ (if hasStructure answer then ["Well-structured response"] else []))
      [] missing [] scoreReason
  else if (50 <=? score)%Z then
    mkEvaluation score partial []
      (["Partial understanding - needs more depth"]
       ++ (if (0 <? List.length missing)%nat
           then ["Missing: " ++ join ", " (slice 0 3 missing)] else [])
       ++ (if hasExamples then [] else ["Add concrete examples"])
       ++ (if (wordCount answer <? 50)%nat then ["Elaborate more"] else []))
      missing [] scoreReason
  else
    mkEvaluation score incorrect []
      ["Significant gaps in understanding"]
      missing
      (map (fun concept =>
              "Missing: " ++ concept ++ " - "
              ++ getConceptExplanation concept role) missing)
      scoreReason.

(** *** cleanTranscript *)

(** The class [\w]. *)
Definition is_word (c : ascii) : bool :=
  in_range 48 57 c || in_range 65 90 c || in_range 97 122 c
  || (code c =? 95)%nat.

Definition fillers : list string :=
  ["um"; "uh"; "ah"; "er"; "like"; "you know"; "sort of"; "kind of";
   "actually"; "basically"].

(** [f] read at the head of [s] without regard to case; the rest of [s]. *)
Fixpoint match_ci (f s : string) : option string :=
  match f, s with
  | EmptyString, _ => Some s
  | String p f', String c s' =>
      if Ascii.eqb (lower_char c) p then match_ci f' s' else None
  | String _ _, EmptyString => None
  end.

(** The [\b] that closes a filler: the input ends or goes on with a
    character outside [\w]. *)
Definition ends_word (rest : string) : bool :=
  match rest with
  | EmptyString => true
  | String c _ => negb (is_word c)
  end.

(** Length of the filler that [/\b(um|uh|...)\b/i] matches at the head of
    [s], [prev_word] telling whether the character before is in [\w]. *)
Definition filler_at (prev_word : bool) (s : string) : option nat :=
  if prev_word then None
  else
    match find (fun f => match match_ci f s with
                         | Some rest => ends_word rest
                         | None => false
                         end) fillers with
    | Some f => Some (String.length f)
    | None => None
    end.

(** [.replace(/\b(um|uh|...)\b/gi, '')]; [skip] counts the characters of
    the current match still to be dropped. *)
Fixpoint removeFillers (prev_word : bool) (skip : nat) (s : string) : string :=
  match s with
  | EmptyString => EmptyString
  | String c r =>
      match skip with
      | S k => removeFillers (is_word c) k r
      | O =>
          match filler_at prev_word s with
          | Some n => removeFillers (is_word c) (n - 1) r
          | None => String c (removeFillers (is_word c) 0 r)
          end
      end
  end.

(** [.replace(/\s+/g, ' ')] *)
Fixpoint collapseSpaces (in_run : bool) (s : string) : string :=
  match s with
  | EmptyString => EmptyString
  | String c r =>
      if is_space c
      then if in_run then collapseSpaces true r
           else String " " (collapseSpaces true r)
      else String c (collapseSpaces false r)
  end.

Definition head_is (p : ascii -> bool) (s : string) : bool :=
  match s with
  | EmptyString => false
  | String c _ => p c
  end.

Definition is_punct (c : ascii) : bool :=
  existsb (Ascii.eqb c) ["."; ","; "!"; "?"]%char.

Definition is_sentence_end (c : ascii) : bool :=
  existsb (Ascii.eqb c) ["."; "!"; "?"]%char.

(** [.replace(/\s+([.,!?])/g, '$1')]: a run of white space goes when a
    punctuation mark follows it. *)
Fixpoint dropSpaceBeforePunct (s : string) : string :=
  match s with
  | EmptyString => EmptyString
  | String c r =>
      if is_space c && head_is is_punct (trimStart r)
      then dropSpaceBeforePunct r
      else String c (dropSpaceBeforePunct r)
  end.

(** Number of white-space characters at the head of [s]. *)
Fixpoint leadingSpaces (s : string) : nat :=
  match s with
  | EmptyString => O
  | String c r => if is_space c then S (leadingSpaces r) else O
  end.

(** [.replace(/([.!?])\s*([a-z])/g, (m, p1, p2) => p1 + ' ' + p2.toUpperCase())] *)
Fixpoint capitalizeSentences (skip : nat) (s : string) : string :=
  match s with
  | EmptyString => EmptyString
  | String c r =>
      match skip with
      | S k => capitalizeSentences k r
      | O =>
          if is_sentence_end c
          then match trimStart r with
               | String l _ =>
                   if in_range 97 122 l
                   then String c (String " " (String (upper_char l)
                          (capitalizeSentences (S (leadingSpaces r)) r)))
                   else String c (capitalizeSentences 0 r)
               | EmptyString => String c (capitalizeSentences 0 r)
               end
          else String c (capitalizeSentences 0 r)
      end
  end.

(** [.replace(/^[a-z]/, c => c.toUpperCase())] *)
Definition capitalizeFirst (s : string) : string :=
  match s with
  | String c r => if in_range 97 122 c then String (upper_char c) r else s
  | EmptyString => EmptyString
  end.

Fixpoint lastChar (s : string) : option ascii :=
  match s with
  | EmptyString => None
  | String c EmptyString => Some c
  | String _ r => lastChar r
  end.

Definition cleanTranscript (rawText : string) : string :=
  if negb (truthy_string rawText) then EmptyString
  else
    let cleaned :=
      trim (capitalizeFirst (capitalizeSentences 0 (dropSpaceBeforePunct
        (collapseSpaces false (removeFillers false 0 rawText))))) in
    match lastChar cleaned with
    | Some c => if is_sentence_end c then cleaned else cleaned ++ "."
    | None => cleaned
    end.

(** *** Analysing the answers of a session *)

(** A question of the session as [evaluateInterview] receives it; an absent
    or [null] property is [None]. *)
Record SessionQuestion : Type := mkSessionQuestion {
  sq_question : option string;
  sq_expectedConcepts : option (list string);
  sq_userAnswer : option string;
  sq_cleanedAnswer : option string
}.

Record SessionData : Type := mkSessionData {
  sd_role : option string;
  sd_questions : option (list SessionQuestion)
}.

Record Analysis : Type := mkAnalysis {
  questionIndex : nat;
  question : string;
  originalAnswer : string;
  cleanedAnswer : string;
  score : Z;
  correctness : Correctness;
  strengths : list string;
  weaknesses : list string;
  missingConcepts : list string;
  conceptCorrections : list string;
  feedback : string;
  scoreReason : string
}.

(** [`${l[0]}`] *)
Definition first_text (l : list string) : string := nth 0 l "undefined".

Definition generateDetailedFeedback (c : Correctness)
  (strengths weaknesses missingConcepts : list string) : string :=
  match c with
  | correct =>
      "✅ Excellent answer! " ++ first_text strengths ++ ". "
      ++ (if (1 <? List.length strengths)%nat
          then "Particularly strong: " ++ join ", " (slice 1 3 strengths) ++ "."
          else "")
  | partial =>
      "⚠️ Good attempt. " ++ first_text weaknesses ++ ". "
      ++ (if (0 <? List.length missingConcepts)%nat
          then "Focus on: " ++ join ", " (slice 0 3 missingConcepts) ++ "."
          else "")
  | incorrect =>
      "❌ Needs significant improvement. " ++ first_text weaknesses
      ++ "." ++ String "010" (String "010" "")
      ++ "Key concepts to review:" ++ String "010" ""
      ++ String.concat ""
           (map (fun concept => "• " ++ concept ++ String "010" "")
                (slice 0 3 missingConcepts))
  end.

(** [q.cleanedAnswer || q.userAnswer || ''] *)
Definition answerOf (q : SessionQuestion) : string :=
  or_string (sq_cleanedAnswer q) (or_string (sq_userAnswer q) "").

Definition analyzeSingleAnswerIntelligently (q : SessionQuestion)
  (role : string) (index : nat) : Analysis :=
  let question := or_string (sq_question q) "" in
  let answer := answerOf q in
  let expectedConcepts :=
    match sq_expectedConcepts q with Some l => l | None => [] end in
  let originalAnswer := or_string (sq_userAnswer q) "" in
  if negb (truthy_string answer) || (String.length (trim answer) =? 0)%nat
  then
    mkAnalysis index question originalAnswer answer 0 incorrect
      [] ["No answer provided"] [] []
      "Please provide an answer to receive feedback."
      "No answer given - score 0%"
  else
    let result :=
      evaluateAnswerIntelligently question answer expectedConcepts role in
    mkAnalysis index question originalAnswer answer
      (result_score result) (result_correctness result)
      (result_strengths result) (result_weaknesses result)
      (result_missingConcepts result) (result_conceptCorrections result)
      (generateDetailedFeedback (result_correctness result)
         (result_strengths result) (result_weaknesses result)
         (result_missingConcepts result))
      (result_scoreReason result).

(** The loop of [analyzeAllAnswers], [i] being the index of the head. *)
Fixpoint analyzeFrom (role : string) (i : nat) (qs : list SessionQuestion)
  : list Analysis :=
  match qs with
  | [] => []
  | q :: r =>
      analyzeSingleAnswerIntelligently q role i :: analyzeFrom role (S i) r
  end.

Definition analyzeAllAnswers (role : option string)
  (questions : list SessionQuestion) : list Analysis :=
  analyzeFrom (or_string role "Data Scientist") 0 questions.

(** *** The session report *)

Record Stats : Type := mkStats {
  stat_correct : nat;
  stat_partial : nat;
  stat_incorrect : nat
}.

Record Report : Type := mkReport {
  overallScore : number;
  scoreExplanation : string;
  report_strengths : list string;
  report_weaknesses : list string;
  report_missingConcepts : list string;
  suggestions : list string;
  knowledgeLevel : string;
  questionAnalyses : list Analysis;
  stats : Stats
}.

Definition correctness_eqb (a b : Correctness) : bool :=
  match a, b with
  | correct, correct | partial, partial | incorrect, incorrect => true
  | _, _ => false
  end.

Definition countTier (c : Correctness) (analyses : list Analysis) : nat :=
  List.length (filter (fun a => correctness_eqb (correctness a) c) analyses).

(** [[...new Set(arr)]]: the first occurrence of every element, in order. *)
Fixpoint dedupFrom (seen : list string) (arr : list string) : list string :=
  match arr with
  | [] => []
  | x :: r =>
      if existsb (String.eqb x) seen then dedupFrom seen r
      else x :: dedupFrom (x :: seen) r
  end.

Definition deduplicateArray (arr : list string) : list string :=
  dedupFrom [] arr.

Definition sumZ (l : list Z) : Z := fold_left Z.add l 0%Z.

Definition determineKnowledgeLevel (overallScore : number)
  (analyses : list Analysis) : string :=
  let total :=
    fold_left (fun sum a => (sum + String.length (cleanedAnswer a))%nat)
              analyses 0%nat in
  let avgDepth := div (Fin (Qnat total)) (Fin (Qnat (List.length analyses))) in
  if geb overallScore 85 && gtb avgDepth 150 then "Expert"
  else if geb overallScore 70 && gtb avgDepth 100 then "Advanced"
  else if geb overallScore 50 && gtb avgDepth 60 then "Intermediate"
  else "Beginner".

Definition newline : string := String "010" "".

Definition generateIntelligentReport (analyses : list Analysis) : Report :=
  let totalScore := sumZ (map score analyses) in
  let overallScore :=
    round (div (Fin (inject_Z totalScore))
               (Fin (Qnat (List.length analyses)))) in
  let correctCount := countTier correct analyses in
  let partialCount := countTier partial analyses in
  let incorrectCount := countTier incorrect analyses in
  let allStrengths := flat_map strengths analyses in
  let allWeaknesses := flat_map weaknesses analyses in
  let allMissingConcepts :=
    deduplicateArray (flat_map missingConcepts analyses) in
  let scoreExplanation :=
    "Overall Score: " ++ string_of_number overallScore ++ "%"
    ++ newline ++ newline
    ++ "Breakdown:" ++ newline
    ++ "✅ Correct answers: " ++ string_of_nat correctCount ++ newline
    ++ "⚠️ Partially correct: " ++ string_of_nat partialCount ++ newline
    ++ "❌ Needs improvement: " ++ string_of_nat incorrectCount
    ++ newline ++ newline
    ++ (if geb overallScore 80
        then "Strong performance! You demonstrated good understanding of most concepts."
        else if geb overallScore 60
        then "Solid foundation but needs reinforcement in key areas."
        else "Significant gaps identified. Focus on fundamentals.")
    ++ (if (0 <? List.length allMissingConcepts)%nat
        then newline ++ newline ++ "Priority concepts to review:" ++ newline
             ++ String.concat ""
                  (map (fun c => "• " ++ c ++ newline)
                       (slice 0 5 allMissingConcepts))
        else "") in
  let suggestions1 : list string :=
    ((if (0 <? incorrectCount)%nat
      then [("Review fundamentals: "
              ++ join ", " (slice 0 3 allMissingConcepts))%string]
      else [])
     ++ (if existsb (fun a => negb (containsExamples (cleanedAnswer a)))
                    analyses
         then ["Include concrete examples in your answers"] else [])
     ++ (if existsb (fun a => (String.length (cleanedAnswer a) <? 50)%nat)
                    analyses
         then ["Provide more detailed, elaborated responses"] else []))%list in
  let suggestions2 : list string :=
    if (List.length suggestions1 <? 3)%nat
    then (suggestions1 ++ ["Practice with timed mock interviews";
                           "Study role-specific case studies"])%list
    else suggestions1 in
  mkReport overallScore scoreExplanation
    (slice 0 5 (deduplicateArray allStrengths))
    (slice 0 5 (deduplicateArray allWeaknesses))
    (slice 0 5 allMissingConcepts)
    (slice 0 5 suggestions2)
    (determineKnowledgeLevel overallScore analyses)
    analyses
    (mkStats correctCount partialCount incorrectCount).

Definition getEmptyEvaluation : Report :=
  mkReport (Fin 0) "No answers provided for evaluation"
    ["Complete an interview first"] ["No data available"] []
    ["Start a new interview session"] "Not assessed" []
    (mkStats 0 0 0).

(** [evaluateInterview].  With the questions typed as above no step of the
    [try] block throws, so its [catch], which reports through
    [getFallbackEvaluation], is never entered. *)
Definition evaluateInterview (sessionData : option SessionData) : Report :=
  match sessionData with
  | None => getEmptyEvaluation
  | Some sd =>
      match sd_questions sd with
      | None | Some [] => getEmptyEvaluation
      | Some questions =>
          let cleanedQuestions :=
            map (fun q =>
                   mkSessionQuestion (sq_question q) (sq_expectedConcepts q)
                     (sq_userAnswer q)
                     (Some (cleanTranscript (or_string (sq_userAnswer q) ""))))
                questions in
          generateIntelligentReport
            (analyzeAllAnswers (sd_role sd) cleanedQuestions)
      end
  end.

(** *** Questions: the static set and the parsed remote answer *)

Record Question : Type := mkQuestion {
  q_question : string;
  q_expectedConcepts : list string;
  q_difficulty : json
}.

(** The table [mockQuestions] of [generateMockQuestions]. *)
Definition mockQuestions (difficulty : json) : list (string * list Question) :=
  [("Data Scientist",
    [mkQuestion
       "Explain the bias-variance tradeoff and how it affects model performance."
       ["bias"; "variance"; "overfitting"; "underfitting"; "model complexity"]
       difficulty;
     mkQuestion
       "How would you handle imbalanced classes in a classification problem?"
       ["resampling"; "SMOTE"; "class weights"; "evaluation metrics";
        "cost-sensitive learning"]
       difficulty;
     mkQuestion
       "Explain the difference between L1 and L2 regularization."
       ["lasso"; "ridge"; "feature selection"; "sparsity";
        "overfitting prevention"]
       difficulty;
     mkQuestion
       "Describe a project where you used cross-validation and why it was important."
       ["k-fold"; "validation"; "overfitting"; "model selection";
        "bias reduction"]
       difficulty]);
   ("Frontend Developer",
    [mkQuestion
       "Explain React's virtual DOM and how it improves performance."
       ["virtual DOM"; "diffing"; "reconciliation"; "batching";
        "performance optimization"]
       difficulty;
     mkQuestion
       "How would you optimize a slow-loading React application?"
       ["code splitting"; "lazy loading"; "memoization";
        "bundle optimization"; "caching"]
       difficulty;
     mkQuestion
       "Explain CSS specificity and how it affects styling."
       ["selectors"; "cascade"; "inheritance"; "importance"; "inline styles"]
       difficulty]);
   ("Product Manager",
    [mkQuestion
       "How do you prioritize features when stakeholders have conflicting requirements?"
       ["value vs effort"; "stakeholder management"; "data-driven decisions";
        "user impact"; "strategic alignment"]
       difficulty;
     mkQuestion
       "Describe your process for validating a new product idea."
       ["user research"; "MVP"; "prototyping"; "feedback loops";
        "market analysis"]
       difficulty])].

Definition followUp (q : Question) : Question :=
  mkQuestion (q_question q ++ " (follow-up)") (q_expectedConcepts q)
    (q_difficulty q).

Definition noQuestion : Question := mkQuestion "" [] JNull.

(** The [while (selected.length < count)] loop, [remaining] being
    [count - selected.length]. *)
Fixpoint fillFollowUps (roleQuestions selected : list Question)
  (remaining : nat) : list Question :=
  match remaining with
  | O => selected
  | S k =>
      let baseQuestion :=
        nth (List.length selected mod List.length roleQuestions)
            roleQuestions noQuestion in
      fillFollowUps roleQuestions (selected ++ [followUp baseQuestion]) k
  end.

Section Questions.

(** [[...roleQuestions].sort(() => 0.5 - Math.random())]: the order the
    engine's sort leaves under a random comparator. *)
Variable shuffle : list Question -> list Question.

(** [JSON.parse], [None] when it throws. *)
Variable JSON_parse : string -> option json.

(** [String(n)] for a number [n]. *)
Variable Number_toString : Q -> string.

(** [generateMockQuestions]; [domainKeywords] is not read.  A [role] that
    names an inherited member makes the spread [[...roleQuestions]]
    throw. *)
Definition generateMockQuestions (role : string) (difficulty : json)
  (count : nat) (domainKeywords : list string) : option (list Question) :=
  let table := mockQuestions difficulty in
  let roleQuestions :=
    match assoc role table with
    | Some qs => Some qs
    | None => if inherited role then None else assoc "Data Scientist" table
    end in
  match roleQuestions with
  | None => None
  | Some roleQuestions =>
      let shuffled := shuffle roleQuestions in
      let selected :=
        firstn (Nat.min count (List.length shuffled)) shuffled in
      Some (fillFollowUps roleQuestions selected
              (count - List.length selected))
  end.

(** The match of [/\[[\s\S]*\]/]: from the first opening bracket to the
    last closing bracket after it. *)
Fixpoint fromFirstOpen (s : string) : option string :=
  match s with
  | EmptyString => None
  | String c r => if Ascii.eqb c "[" then Some s else fromFirstOpen r
  end.

Fixpoint uptoLastClose (s : string) : option string :=
  match s with
  | EmptyString => None
  | String c r =>
      match uptoLastClose r with
      | Some p => Some (String c p)
      | None => if Ascii.eqb c "]" then Some (String c EmptyString) else None
      end
  end.

Definition bracketed (response : string) : option string :=
  match fromFirstOpen response with
  | Some s => uptoLastClose s
  | None => None
  end.

Fixpoint has_gt (s : string) : bool :=
  match s with
  | EmptyString => false
  | String c r => Ascii.eqb c ">" || has_gt r
  end.

(** [.replace(/<[^>]*>/g, '')]; [in_tag] tells that a match is open. *)
Fixpoint stripTagsFrom (in_tag : bool) (s : string) : string :=
  match s with
  | EmptyString => EmptyString
  | String c r =>
      if in_tag
      then stripTagsFrom (negb (Ascii.eqb c ">")) r
      else if Ascii.eqb c "<" && has_gt r
           then stripTagsFrom true r
           else String c (stripTagsFrom false r)
  end.

Definition stripTags (s : string) : string := stripTagsFrom false s.

(** [.replace(/[^\x20-\x7E]/g, '')] *)
Fixpoint printableOnly (s : string) : string :=
  match s with
  | EmptyString => EmptyString
  | String c r =>
      if in_range 32 126 c then String c (printableOnly r)
      else printableOnly r
  end.

Fixpoint sequence {A} (l : list (option A)) : option (list A) :=
  match l with
  | [] => Some []
  | None :: _ => None
  | Some a :: r =>
      match sequence r with
      | Some r' => Some (a :: r')
      | None => None
      end
  end.

(** [String(v)].  An object that carries a key [toString] has no text:
    the conversion throws. *)
Fixpoint toText (v : json) : option string :=
  match v with
  | JNull => Some "null"
  | JBool b => Some (if b then "true" else "false")
  | JNum q => Some (Number_toString q)
  | JStr s => Some s
  | JArr items =>
      match sequence (map (fun x => match x with
                                    | JNull => Some EmptyString
                                    | _ => toText x
                                    end) items) with
      | Some texts => Some (join "," texts)
      | None => None
      end
  | JObj fields =>
      match assoc "toString" fields with
      | Some _ => None
      | None => Some "[object Object]"
      end
  end.

(** [sanitizeText] *)
Definition sanitizeText (text : option json) : option string :=
  if negb (truthy text) then Some EmptyString
  else
    match text with
    | Some v =>
        match toText v with
        | Some t => Some (trim (stripTags t))
        | None => None
        end
    | None => Some EmptyString
    end.

(** The callback of [questions.slice(0, count).map(...)]. *)
Definition toQuestion (q : json) : option Question :=
  match get "question" q, get "expectedConcepts" q, get "difficulty" q with
  | Some question, Some expectedConcepts, Some difficulty =>
      match sanitizeText (Some (or_value question (JStr EmptyString))) with
      | None => None
      | Some text =>
          let concepts :=
            if truthy expectedConcepts
            then match expectedConcepts with
                 | Some (JArr items) =>
                     sequence (map (fun c => sanitizeText (Some c)) items)
                 | _ => None
                 end
            else Some [] in
          match concepts with
          | None => None
          | Some cs =>
              Some (mkQuestion text cs (or_value difficulty (JStr "mid")))
          end
      end
  | _, _, _ => None
  end.

(** The [try] block of [parseQuestions]; [None] when it throws. *)
Definition parseAttempt (response : string) (count : nat)
  : option (list Question) :=
  match bracketed response with
  | None => None
  | Some jsonMatch =>
      let jsonStr := printableOnly (stripTags jsonMatch) in
      match JSON_parse jsonStr with
      | Some (JArr questions) =>
          sequence (map toQuestion (firstn count questions))
      | _ => None
      end
  end.

Definition parseQuestions (response : string) (count : nat)
  : option (list Question) :=
  match parseAttempt response count with
  | Some questions => Some questions
  | None => generateMockQuestions "Data Scientist" (JStr "mid") count []
  end.

End Questions.

(** *** The degraded report *)

(** The placeholder analysis of [getFallbackEvaluation] for the question at
    index [i].  The source leaves [originalAnswer] out and copies
    [q.question] as it is; an absent text is the empty text here.  The
    report reads neither field. *)
Definition fallbackAnalysis (i : nat) (q : SessionQuestion) : Analysis :=
  mkAnalysis i (or_string (sq_question q) "") EmptyString
    (or_string (sq_userAnswer q) "") 50 partial
    ["Answer provided"] ["Could be more detailed"]
    (match sq_expectedConcepts q with Some l => l | None => [] end) []
    "Review the concepts mentioned."
    "Partial answer - needs more detail".

Fixpoint fallbackFrom (i : nat) (qs : list SessionQuestion) : list Analysis :=
  match qs with
  | [] => []
  | q :: r => fallbackAnalysis i q :: fallbackFrom (S i) r
  end.

(** [getFallbackEvaluation]; [None] when [sessionData.questions] is missing
    and mapping over it throws. *)
Definition getFallbackEvaluation (sessionData : SessionData) : option Report :=
  match sd_questions sessionData with
  | None => None
  | Some questions => Some (generateIntelligentReport (fallbackFrom 0 questions))
  end.

(** The question that [evaluateInterview] hands to the analysis: the raw
    one with its answer cleaned. *)
Definition cleanedQuestion (q : SessionQuestion) : SessionQuestion :=
  mkSessionQuestion (sq_question q) (sq_expectedConcepts q) (sq_userAnswer q)
    (Some (cleanTranscript (or_string (sq_userAnswer q) ""))).

(** *** Generating the questions of a session *)

(** [this.roleDomainMap] of the constructor. *)
Definition roleDomainMap : list (string * list string) :=
  [("Data Scientist",
    ["statistics"; "machine learning"; "python"; "data analysis";
     "visualization"; "predictive modeling"; "hypothesis testing"]);
   ("ML Engineer",
    ["deep learning"; "model deployment"; "tensorflow"; "pytorch"; "mlops";
     "neural networks"; "model optimization"]);
   ("Frontend Developer",
    ["html"; "css"; "javascript"; "react"; "vue"; "angular"; "ui design";
     "responsive design"; "browser apis"]);
   ("Backend Developer",
    ["node.js"; "python"; "java"; "apis"; "databases"; "system design";
     "microservices"; "caching"; "security"]);
   ("Full Stack Developer",
    ["frontend"; "backend"; "databases"; "api design"; "deployment";
     "architecture"; "devops"]);
   ("DevOps Engineer",
    ["ci/cd"; "docker"; "kubernetes"; "aws"; "cloud"; "automation";
     "infrastructure"; "monitoring"; "terraform"]);
   ("Product Manager",
    ["product strategy"; "user research"; "roadmapping"; "metrics"; "agile";
     "stakeholder management"; "market analysis"]);
   ("HR",
    ["recruitment"; "talent acquisition"; "employee relations";
     "performance management"; "hr policies"; "onboarding"]);
   ("Marketing",
    ["campaign strategy"; "brand management"; "analytics"; "seo";
     "content marketing"; "social media"; "customer acquisition"])].

(** [this.roleDomainMap[role] || []]; [None] stands for an inherited
    member, which is truthy and has no [join]. *)
Definition domainKeywordsOf (role : string) : option (list string) :=
  match assoc role roleDomainMap with
  | Some keywords => Some keywords
  | None => if inherited role then None else Some []
  end.

(** The double quote. *)
Definition dquote : string := String (ascii_of_nat 34) EmptyString.

(** [buildIntelligentQuestionPrompt] for a list of keywords. *)
Definition buildIntelligentQuestionPrompt (role : string)
  (domainKeywords : list string) (difficulty : string) (count : nat)
  : string :=
  let difficultyLevel :=
    if String.eqb difficulty "junior" then "Beginner"
    else if String.eqb difficulty "mid" then "Intermediate"
    else "Advanced" in
  "Generate " ++ string_of_nat count
  ++ " highly relevant interview questions." ++ newline ++ newline
  ++ "ROLE: " ++ role ++ newline
  ++ "DOMAIN FOCUS: " ++ join ", " domainKeywords ++ newline
  ++ "DIFFICULTY: " ++ difficultyLevel ++ newline
  ++ "COUNT: " ++ string_of_nat count ++ newline ++ newline
  ++ "IMPORTANT REQUIREMENTS:" ++ newline
  ++ "- Questions MUST be specific to " ++ role ++ " role" ++ newline
  ++ "- Focus on " ++ join ", " (slice 0 3 domainKeywords) ++ " concepts"
  ++ newline
  ++ "- Mix of technical and scenario-based questions" ++ newline
  ++ "- Progressive difficulty within the set" ++ newline
  ++ "- Real-world practical problems" ++ newline ++ newline
  ++ "Return as JSON array with format:" ++ newline
  ++ "[" ++ newline
  ++ "  {" ++ newline
  ++ "    " ++ dquote ++ "question" ++ dquote ++ ": " ++ dquote
  ++ "detailed question text" ++ dquote ++ "," ++ newline
  ++ "    " ++ dquote ++ "expectedConcepts" ++ dquote ++ ": ["
  ++ dquote ++ "concept1" ++ dquote ++ ", "
  ++ dquote ++ "concept2" ++ dquote ++ ", "
  ++ dquote ++ "concept3" ++ dquote ++ "]," ++ newline
  ++ "    " ++ dquote ++ "difficulty" ++ dquote ++ ": " ++ dquote
  ++ difficulty ++ dquote ++ "," ++ newline
  ++ "    " ++ dquote ++ "role" ++ dquote ++ ": " ++ dquote ++ role
  ++ dquote ++ newline
  ++ "  }" ++ newline
  ++ "]".

Section Generation.

Variable shuffle : list Question -> list Question.
Variable JSON_parse : string -> option json.
Variable Number_toString : Q -> string.

(** [callLLMApi] for a key and a prompt: the text of the first choice, or
    [None] when the request, the status check or the decoding throws. *)
Variable callLLMApi : string -> string -> option string.

(** [generateIntelligentQuestions]; [useMockData] and [apiKey] are the
    fields of the service, [apiKey] being [None] for [null]. *)
Definition generateIntelligentQuestions (useMockData : bool)
  (apiKey : option string) (role difficulty : string) (count : nat)
  : option (list Question) :=
  let mock :=
    generateMockQuestions shuffle role (JStr difficulty) count
      (match domainKeywordsOf role with Some k => k | None => [] end) in
  match apiKey with
  | None => mock
  | Some key =>
      if useMockData || negb (truthy_string key) then mock
      else
        match domainKeywordsOf role with
        | None => mock
        | Some domainKeywords =>
            match callLLMApi key
                    (buildIntelligentQuestionPrompt role domainKeywords
                       difficulty count) with
            | None => mock
            | Some response =>
                match parseQuestions shuffle JSON_parse Number_toString
                        response count with
                | Some questions => Some questions
                | None => mock
                end
            end
        end
  end.

End Generation.

End AIService.

(* ================================================================== *)
(** ** The storage service: class StorageService *)

Module StorageService.

Import JS.

(** *** The browser store *)

(** The text kept under the key [interview_trainer_history], and the text
    handed to [importData].  The program writes it with [JSON.stringify]
    and reads it with [JSON.parse] only, so a text is represented by the
    value it denotes.  [JSON.parse] rejects the other texts: [Empty] is the
    empty text, the only text that is falsy, and [Malformed] is any other
    text that does not parse. *)
Inductive text : Type :=
| Json (v : json)
| Malformed
| Empty.

Definition JSON_stringify (v : json) : text := Json v.

Definition JSON_parse (t : text) : option json :=
  match t with
  | Json v => Some v
  | Malformed | Empty => None
  end.

(** Truthiness of what [localStorage.getItem] returns: [null] and the
    empty text are falsy. *)
Definition truthy_item (data : option text) : bool :=
  match data with
  | None | Some Empty => false
  | Some _ => true
  end.

(** [item] is the entry under the key, if any; [accepts] tells which texts
    [localStorage.setItem] stores without a quota error. *)
Record Storage : Type := mkStorage {
  item : option text;
  accepts : text -> bool
}.

(** [localStorage.setItem(this.storageKey, t)], [None] when it throws. *)
Definition setItem (st : Storage) (t : text) : option Storage :=
  if accepts st t then Some (mkStorage (Some t) (accepts st)) else None.

Definition maxHistoryItems : nat := 50.

(** [initialize], [None] when it throws. *)
Definition initialize (st : Storage) : option Storage :=
  if negb (truthy_item (item st))
  then setItem st (JSON_stringify (JArr []))
  else Some st.

(** [getHistory]: whatever value the entry denotes; the empty list when
    there is no entry or it does not parse.  The empty text, which the
    test [data ? ... : []] sends to the empty list, is one of the texts
    that do not parse. *)
Definition getHistory (st : Storage) : json :=
  match item st with
  | None => JArr []
  | Some data =>
      match JSON_parse data with
      | Some v => v
      | None => JArr []
      end
  end.

(** [saveInterview].  [interviewData] is the list of the fields of the
    object; [generatedId] and [now] are what [this.generateId()] and
    [new Date().toISOString()] return.  The result pairs the store with the
    returned value, [None] being [null]. *)
Definition saveInterview (st : Storage) (interviewData : list (string * json))
  (generatedId now : string) : Storage * option json :=
  match getHistory st with
  | JArr history =>
      let newInterview :=
        JObj (set "savedAt" (JStr now)
               (set "id" (or_value (assoc "id" interviewData)
                                    (JStr generatedId))
                  interviewData)) in
      let history := newInterview :: history in
      let history :=
        if (maxHistoryItems <? List.length history)%nat
        then slice 0 maxHistoryItems history else history in
      match setItem st (JSON_stringify (JArr history)) with
      | Some st' => (st', Some newInterview)
      | None => (st, None)
      end
  | _ => (st, None)
  end.

(** [item.id === id] for a text [id]; [None] when reading [item.id]
    throws. *)
Definition hasId (id : string) (entry : json) : option bool :=
  match get "id" entry with
  | None => None
  | Some (Some (JStr s)) => Some (String.eqb s id)
  | Some _ => Some false
  end.

(** [history.filter(item => item.id !== id)], [None] when the callback
    throws. *)
Fixpoint withoutId (id : string) (history : list json) : option (list json) :=
  match history with
  | [] => Some []
  | entry :: r =>
      match hasId id entry with
      | None => None
      | Some same =>
          match withoutId id r with
          | None => None
          | Some r' => Some (if same then r' else entry :: r')
          end
      end
  end.

(** [getInterview]: [None] when it throws, [Some None] for [null]. *)
Fixpoint findId (id : string) (history : list json) : option (option json) :=
  match history with
  | [] => Some None
  | entry :: r =>
      match hasId id entry with
      | None => None
      | Some true => if truthy (Some entry) then Some (Some entry) else Some None
      | Some false => findId id r
      end
  end.

Definition getInterview (st : Storage) (id : string) : option (option json) :=
  match getHistory st with
  | JArr history => findId id history
  | _ => None
  end.

(** [deleteInterview] *)
Definition deleteInterview (st : Storage) (id : string) : Storage * bool :=
  match getHistory st with
  | JArr history =>
      match withoutId id history with
      | Some filtered =>
          match setItem st (JSON_stringify (JArr filtered)) with
          | Some st' => (st', true)
          | None => (st, false)
          end
      | None => (st, false)
      end
  | _ => (st, false)
  end.

(** [clearHistory] *)
Definition clearHistory (st : Storage) : Storage * bool :=
  match setItem st (JSON_stringify (JArr [])) with
  | Some st' => (st', true)
  | None => (st, false)
  end.

(** The text that [exportData] puts in the downloaded file; [now] is
    [new Date().toISOString()]. *)
Definition exportData (st : Storage) (now : string) : text :=
  let data :=
    JObj [("history", getHistory st);
          ("exportDate", JStr now);
          ("version", JStr "1.0")] in
  JSON_stringify data.

(** [importData] *)
Definition importData (st : Storage) (jsonData : text) : Storage * bool :=
  match JSON_parse jsonData with
  | None => (st, false)
  | Some data =>
      match get "history" data with
      | None => (st, false)
      | Some history =>
          if truthy history
          then match history with
               | Some (JArr items) =>
                   match setItem st (JSON_stringify (JArr items)) with
                   | Some st' => (st', true)
                   | None => (st, false)
                   end
               | _ => (st, false)
               end
          else (st, false)
      end
  end.

(** *** Sequences of operations *)

(** The operations that change the stored history, with the inputs each
    one takes. *)
Inductive operation : Type :=
| SaveInterview (interviewData : list (string * json))
                (generatedId now : string)
| DeleteInterview (id : string)
| ClearHistory
| ImportData (jsonData : text).

Definition perform (st : Storage) (o : operation) : Storage :=
  match o with
  | SaveInterview interviewData generatedId now =>
      fst (saveInterview st interviewData generatedId now)
  | DeleteInterview id => fst (deleteInterview st id)
  | ClearHistory => fst (clearHistory st)
  | ImportData jsonData => fst (importData st jsonData)
  end.

Definition performAll (st : Storage) (ops : list operation) : Storage :=
  fold_left perform ops st.

Definition isImport (o : operation) : bool :=
  match o with
  | ImportData _ => true
  | _ => false
  end.

(** Number of records of the stored history. *)
Definition historySize (st : Storage) : nat :=
  match getHistory st with
  | JArr history => List.length history
  | _ => 0%nat
  end.

(** *** Statistics *)

(** The result of a method that has no [catch] of its own.  [Unmodelled]
    marks arithmetic on a score that is a text, a list or an object, where
    [+] concatenates; the embedding does not follow it. *)
Inductive outcome (A : Type) : Type :=
| Returns (a : A)
| Throws
| Unmodelled.

Arguments Returns {A} a.
Arguments Throws {A}.
Arguments Unmodelled {A}.

(** [i.score || 0] as a number. *)
Definition scoreOf (i : json) : outcome Q :=
  match get "score" i with
  | None => Throws
  | Some v =>
      if truthy v
      then match v with
           | Some (JNum q) => Returns q
           | Some (JBool _) => Returns 1
           | _ => Unmodelled
           end
      else Returns 0
  end.

(** [history.map(i => i.score || 0)]: the callback throws on a [null]
    entry before any score is added up. *)
Fixpoint scoresOf (history : list json) : outcome (list Q) :=
  match history with
  | [] => Returns []
  | i :: r =>
      match scoreOf i, scoresOf r with
      | Throws, _ | _, Throws => Throws
      | Unmodelled, _ | _, Unmodelled => Unmodelled
      | Returns q, Returns qs => Returns (q :: qs)
      end
  end.

Record HistoryStats : Type := mkHistoryStats {
  totalInterviews : nat;
  averageScore : number;
  bestScore : number;
  recentTrend : number
}.

(** [l.reduce((a, b) => a + b, 0)] *)
Definition sumQ (l : list Q) : Q := fold_left Qplus l 0.

(** [Math.max(...scores)] *)
Definition maxOf (scores : list Q) : number :=
  match scores with
  | [] => NegInf
  | q :: r => Fin (fold_left Qmax r q)
  end.

(** [scores.reduce((a, b) => a + b, 0) / scores.length] in double
    precision: every partial sum and the quotient are rounded. *)
Definition averageOf (scores : list Q) : Double.double :=
  Double.div (Double.sum scores) (Double.of_nat (List.length scores)).

(** The trend of [getStats]: the five newest scores against those that
    follow them, up to five, in double precision. *)
Definition trendOf (scores : list Q) : number :=
  let recentScores := slice 0 5 scores in
  let previousScores := slice 5 10 scores in
  if (0 <? List.length previousScores)%nat
  then
    let recentAvg := averageOf recentScores in
    let previousAvg := averageOf previousScores in
    Double.to_number
      (Double.round
         (Double.mul
            (Double.div (Double.sub recentAvg previousAvg) previousAvg)
            (Double.Finite 100)))
  else Fin 0.

(** The statistics of a non-empty list of scores.  The average and the
    best score are followed in exact arithmetic; the trend, whose value
    depends on the rounding, in double precision. *)
Definition statsOf (scores : list Q) : HistoryStats :=
  let totalInterviews := List.length scores in
  mkHistoryStats totalInterviews
    (round (div (Fin (sumQ scores)) (Fin (Qnat totalInterviews))))
    (maxOf scores)
    (trendOf scores).

Definition noStats : HistoryStats :=
  mkHistoryStats 0 (Fin 0) (Fin 0) (Fin 0).

(** [getStats].  [history.length === 0] also holds of the empty text and
    of an object whose field [length] is 0; any other value that is not a
    list has no [map]. *)
Definition getStats (st : Storage) : outcome HistoryStats :=
  match getHistory st with
  | JArr [] => Returns noStats
  | JArr history =>
      match scoresOf history with
      | Returns scores => Returns (statsOf scores)
      | Throws => Throws
      | Unmodelled => Unmodelled
      end
  | JStr EmptyString => Returns noStats
  | JObj fields =>
      match assoc "length" fields with
      | Some (JNum q) => if Qeq_bool q 0 then Returns noStats else Throws
      | _ => Throws
      end
  | _ => Throws
  end.

(** *** Chart series *)

Section Progress.

(** [new Date(v).toLocaleDateString()] for the value [v], [None] being
    [undefined]. *)
Variable toLocaleDateString : option json -> string.

(** [item.date || item.savedAt] *)
Definition dateOf (date savedAt : option json) : option json :=
  if truthy date then date else savedAt.

(** The label of the chart point at position [index]; [None] when reading
    the item throws. *)
Definition progressLabel (index : nat) (entry : json) : option string :=
  match get "date" entry, get "savedAt" entry with
  | Some date, Some savedAt =>
      Some ("#" ++ string_of_nat (index + 1) ++ " "
            ++ toLocaleDateString (dateOf date savedAt))
  | _, _ => None
  end.

Fixpoint progressLabels (index : nat) (entries : list json)
  : option (list string) :=
  match entries with
  | [] => Some []
  | entry :: r =>
      match progressLabel index entry, progressLabels (S index) r with
      | Some l, Some ls => Some (l :: ls)
      | _, _ => None
      end
  end.

(** [item.score || 0]; [None] when reading the item throws. *)
Definition progressScore (entry : json) : option json :=
  match get "score" entry with
  | Some score => Some (or_value score (JNum 0))
  | None => None
  end.

Fixpoint progressScores (entries : list json) : option (list json) :=
  match entries with
  | [] => Some []
  | entry :: r =>
      match progressScore entry, progressScores r with
      | Some v, Some vs => Some (v :: vs)
      | _, _ => None
      end
  end.

(** [getProgressData]: the labels and the scores of the chart, [None] when
    it throws (the stored value is not a list, or an entry is [null]). *)
Definition getProgressData (st : Storage)
  : option (list string * list json) :=
  match getHistory st with
  | JArr history =>
      let recent := rev (slice 0 10 history) in
      match progressLabels 0 recent, progressScores recent with
      | Some labels, Some scores => Some (labels, scores)
      | _, _ => None
      end
  | _ => None
  end.

End Progress.

(** *** Skill averages *)

(** [obj[k] = v] on a list of fields of any kind. *)
Fixpoint put {A} (k : string) (v : A) (fields : list (string * A))
  : list (string * A) :=
  match fields with
  | [] => [(k, v)]
  | (k', v') :: r =>
      if String.eqb k k' then (k, v) :: r else (k', v') :: put k v r
  end.

(** The number that [+] makes of one skill value.  A text, a list or an
    object makes [+] concatenate. *)
Definition skillNumber (v : json) : outcome Q :=
  match v with
  | JNum q => Returns q
  | JBool b => Returns (if b then 1 else 0)
  | JNull => Returns 0
  | _ => Unmodelled
  end.

(** [acc[key] = (acc[key] || 0) + curr.skills[key]].  A key that the empty
    object inherits reads as a function or sets the prototype; that is not
    followed. *)
Definition addSkill (acc : outcome (list (string * Q))) (kv : string * json)
  : outcome (list (string * Q)) :=
  match acc with
  | Returns fields =>
      if existsb (String.eqb (fst kv))
           ["constructor"; "__proto__"; "hasOwnProperty"; "isPrototypeOf";
            "propertyIsEnumerable"; "toLocaleString"; "toString"; "valueOf";
            "__defineGetter__"; "__defineSetter__"; "__lookupGetter__";
            "__lookupSetter__"]
      then Unmodelled
      else
        match skillNumber (snd kv) with
        | Returns q =>
            Returns (put (fst kv)
                       (match assoc (fst kv) fields with
                        | Some sum => sum
                        | None => 0
                        end + q)
                       fields)
        | _ => Unmodelled
        end
  | other => other
  end.

(** The callback of [recent.reduce] on an entry that is not [null].  The
    keys of a text or of a non-empty list are positions; they are not
    followed. *)
Definition addSkillsOf (acc : outcome (list (string * Q))) (curr : json)
  : outcome (list (string * Q)) :=
  match get "skills" curr with
  | Some skills =>
      if truthy skills
      then match skills with
           | Some (JObj fields) => fold_left addSkill fields acc
           | Some (JNum _) | Some (JBool _) | Some (JArr []) => acc
           | _ => match acc with Throws => Throws | _ => Unmodelled end
           end
      else acc
  | None => Throws
  end.

Definition isNull (v : json) : bool :=
  match v with
  | JNull => true
  | _ => false
  end.

Definition noSkills : list (string * Z) :=
  [("technical", 0%Z); ("communication", 0%Z); ("problemSolving", 0%Z);
   ("experience", 0%Z); ("culture", 0%Z)].

(** The skills of a list of at least one entry. *)
Definition skillsOf (history : list json) : outcome (list (string * Z)) :=
  let recent := slice 0 5 history in
  if existsb isNull recent then Throws
  else
    match fold_left addSkillsOf recent (Returns []) with
    | Returns sums =>
        Returns (map (fun kv =>
                        (fst kv,
                         Math_round (snd kv / Qnat (List.length recent))))
                     sums)
    | Throws => Throws
    | Unmodelled => Unmodelled
    end.

(** [getSkillData].  The keys are listed in the order in which they were
    first met, the order of [Object.keys] for keys that are not array
    positions. *)
Definition getSkillData (st : Storage) : outcome (list (string * Z)) :=
  match getHistory st with
  | JArr [] => Returns noSkills
  | JArr history => skillsOf history
  | JStr EmptyString => Returns noSkills
  | JObj fields =>
      match assoc "length" fields with
      | Some (JNum q) => if Qeq_bool q 0 then Returns noSkills else Throws
      | _ => Throws
      end
  | _ => Throws
  end.

End StorageService.

(* ================================================================== *)
(** ** The interview engine: persisting a finished session *)

Module InterviewEngine.

Import JS.

(** The part of [this.state] that [saveInterviewResult] reads. *)
Record State : Type := mkState {
  sessionId : json;
  role : json;
  difficulty : json;
  startTime : Q
}.

(** The four values that [Math.random()] returns to [extractSkills], in
    the order of the calls. *)
Record Draws : Type := mkDraws {
  draw1 : Q;
  draw2 : Q;
  draw3 : Q;
  draw4 : Q
}.

(** [Math.min(100, baseScore + (Math.random() * span - shift))] *)
Definition jitter (baseScore : number) (draw span shift : Q) : number :=
  min (Fin 100) (add baseScore (Fin (draw * span - shift))).

(** [extractSkills]: the object it returns, key by key. *)
Definition extractSkills (evaluation : AIService.Report) (r : Draws)
  : list (string * number) :=
  let baseScore := AIService.overallScore evaluation in
  [("technical", jitter baseScore (draw1 r) 10 5);
   ("communication", jitter baseScore (draw2 r) 15 7);
   ("problemSolving", jitter baseScore (draw3 r) 10 5);
   ("experience", jitter baseScore (draw4 r) 20 10)].

Definition json_of_texts (l : list string) : json := JArr (map JStr l).

Definition json_of_nat (n : nat) : json := JNum (inject_Z (Z.of_nat n)).

(** The object [interviewData] of [saveInterviewResult] as the store
    serialises it; [dateNow] and [dateIso] are [Date.now()] and
    [new Date().toISOString()].  [None]: [sessionData.questions] is
    missing and reading its length throws. *)
Definition interviewData (state : State) (evaluation : AIService.Report)
  (sessionData : AIService.SessionData) (r : Draws) (dateNow : Q)
  (dateIso : string) : option (list (string * json)) :=
  match AIService.sd_questions sessionData with
  | None => None
  | Some questions =>
      Some
        [("id", sessionId state);
         ("date", JStr dateIso);
         ("role", role state);
         ("difficulty", difficulty state);
         ("score", json_of_number (AIService.overallScore evaluation));
         ("skills",
          JObj (map (fun kv => (fst kv, json_of_number (snd kv)))
                    (extractSkills evaluation r)));
         ("summary",
          JObj
            [("questionsCount", json_of_nat (List.length questions));
             ("answeredCount",
              json_of_nat
                (List.length
                   (filter (fun q =>
                              truthy_string
                                (or_string (AIService.sq_userAnswer q) ""))
                           questions)));
             ("duration", JNum (dateNow - startTime state));
             ("knowledgeLevel", JStr (AIService.knowledgeLevel evaluation));
             ("strengths",
              json_of_texts
                (slice 0 3 (AIService.report_strengths evaluation)));
             ("weaknesses",
              json_of_texts
                (slice 0 3 (AIService.report_weaknesses evaluation)));
             ("stats",
              JObj
                [("correct",
                  json_of_nat
                    (AIService.stat_correct (AIService.stats evaluation)));
                 ("partial",
                  json_of_nat
                    (AIService.stat_partial (AIService.stats evaluation)));
                 ("incorrect",
                  json_of_nat
                    (AIService.stat_incorrect
                       (AIService.stats evaluation)))])])]
  end.

(** [saveInterviewResult]: the store after [this.storage.saveInterview],
    [None] when building [interviewData] throws. *)
Definition saveInterviewResult (st : StorageService.Storage) (state : State)
  (evaluation : AIService.Report) (sessionData : AIService.SessionData)
  (r : Draws) (dateNow : Q) (dateIso generatedId savedAt : string)
  : option StorageService.Storage :=
  match interviewData state evaluation sessionData r dateNow dateIso with
  | None => None
  | Some data =>
      Some (fst (StorageService.saveInterview st data generatedId savedAt))
  end.

End InterviewEngine.

(* ================================================================== *)
(** ** The user-interface service: formatting *)

Module UIService.

Import JS.

Fixpoint padding (n : nat) (pad : ascii) : string :=
  match n with
  | O => EmptyString
  | S k => String pad (padding k pad)
  end.

(** [s.padStart(target, pad)] for a pad of one character. *)
Definition padStart (target : nat) (pad : ascii) (s : string) : string :=
  padding (target - String.length s) pad ++ s.

(** [formatTime] for a finite number of milliseconds.  The two quotients
    are rounded to double precision before [Math.floor] is taken; [%] on
    whole numbers is exact.  A whole number below [2^53] in magnitude
    prints as its decimal digits, and [remainingSeconds] always is one;
    [None] stands for minutes beyond that, which print shortened to 17
    digits or with an exponent. *)
Definition formatTime (ms : Q) : option string :=
  let seconds := Qfloor (Double.nearest (ms / 1000)) in
  let minutes := Qfloor (Double.nearest (inject_Z seconds / 60)) in
  let remainingSeconds := Z.rem seconds 60 in
  if (Z.abs minutes <? 2 ^ 53)%Z
  then Some (string_of_Z minutes ++ ":"
             ++ padStart 2 "0" (string_of_Z remainingSeconds))
  else None.

(** Reading a decimal numeral back. *)
Definition readZ (s : string) : option Z :=
  option_map Z.of_int (NilZero.int_of_string s).

End UIService.

(* ================================================================== *)
(** ** What the specification says, in its own words *)

Module Spec.

Import JS.

(** Tier thresholds: a score of 80 or more is correct, a score from 50 to
    79 is partial, a score of 49 or less is incorrect. *)
Definition correctnessTier (score : Z) : AIService.Correctness :=
  if (80 <=? score)%Z then AIService.correct
  else if (50 <=? score)%Z && (score <=? 79)%Z then AIService.partial
  else AIService.incorrect.

(** The answer and the expected concepts of the bias-variance scenario. *)
Definition scenarioAnswer : string :=
  "The bias-variance tradeoff means... for example, high bias models underfit.".

Definition scenarioConcepts : list string := ["bias"; "variance"].

(** The rationale of an answer that was not given. *)
Definition noAnswerReason : string := "No answer given - score 0%".

(** The average of five scores, and the trend of ten or more scores,
    newest first: the average of the first five against the average of the
    next five, in percent of the latter, rounded.  The operations are
    those of double precision. *)
Definition average5 (scores : list Q) : Double.double :=
  Double.div (Double.sum scores) (Double.Finite 5).

Definition recentTrend (scores : list Q) : number :=
  let newest := average5 (firstn 5 scores) in
  let older := average5 (firstn 5 (skipn 5 scores)) in
  Double.to_number
    (Double.round
       (Double.mul (Double.div (Double.sub newest older) older)
                   (Double.Finite 100))).

(** The same percentage in exact arithmetic, for the sums [newest] and
    [older] of the two groups of five scores, [older] not 0. *)
Definition exactTrend (newest older : Z) : Q :=
  (inject_Z newest / 5 - inject_Z older / 5) / (inject_Z older / 5) * 100.

(** The record [entry] carries the identifier [id]. *)
Definition carriesId (id : string) (entry : json) : bool :=
  match entry with
  | JObj fields =>
      match assoc "id" fields with
      | Some (JStr s) => String.eqb s id
      | _ => false
      end
  | _ => false
  end.

(** A text holds a tag when some [<] is followed, anywhere later, by a
    [>]: exactly the texts in which [/<[^>]*>/] finds a match. *)
Fixpoint has_tag (s : string) : bool :=
  match s with
  | EmptyString => false
  | String c r => (Ascii.eqb c "<" && AIService.has_gt r) || has_tag r
  end.




(** The static questions of the role Data Scientist at difficulty mid. *)
Definition dataScientistMid : list AIService.Question :=
  match assoc "Data Scientist" (AIService.mockQuestions (JStr "mid")) with
  | Some questions => questions
  | None => []
  end.

(** A question of the static set: one of the table at difficulty mid, or
    the follow-up of one. *)
Definition fromDataScientistTable (q : AIService.Question) : Prop :=
  exists base,
    In base dataScientistMid
    /\ (q = base \/ q = AIService.followUp base).

(** The field names of the documented skill vector. *)
Definition skillFields : list string :=
  ["technical"; "communication"; "problemSolving"; "experience"; "culture"].

End Spec.

(* ================================================================== *)
(** ** Concrete sessions and stores *)

Module Examples.

Import JS.

(** A question whose answer is a single filler word, as [evaluateInterview]
    hands it to the scorer: the cleaned answer is empty, the raw answer is
    not. *)
Definition fillerOnly : AIService.SessionQuestion :=
  AIService.mkSessionQuestion (Some "Explain overfitting.") (Some [])
    (Some "um") (Some EmptyString).

Definition fillerSession : AIService.SessionData :=
  AIService.mkSessionData (Some "Data Scientist")
    (Some [AIService.mkSessionQuestion (Some "Explain overfitting.")
             (Some []) (Some "um") None]).

(** A question whose cleaned answer is white space only. *)
Definition blankAnswer : AIService.SessionQuestion :=
  AIService.mkSessionQuestion (Some "Explain overfitting.")
    (Some ["bias"; "variance"]) (Some "   ") (Some "   ").

(** A browser store with no entry and no quota. *)
Definition emptyStore : StorageService.Storage :=
  StorageService.mkStorage None (fun _ => true).

(** A store whose entry is the empty text. *)
Definition blankStore : StorageService.Storage :=
  StorageService.mkStorage (Some StorageService.Empty) (fun _ => true).

Definition storeOf (history : list json) : StorageService.Storage :=
  StorageService.mkStorage
    (Some (StorageService.JSON_stringify (JArr history))) (fun _ => true).

(** A history record reduced to its identifier and its score. *)
Definition record (id : string) (score : Q) : json :=
  JObj [("id", JStr id); ("score", JNum score)].

Definition numbered (n : nat) : json :=
  record ("int_" ++ string_of_nat n) 70.

(** Fifty-one records, and a file that holds them. *)
Definition fiftyOne : list json := map numbered (seq 1 51).

Definition fiftyOneFile : StorageService.text :=
  StorageService.JSON_stringify
    (JObj [("history", JArr fiftyOne);
           ("exportDate", JStr "2024-01-01T00:00:00.000Z");
           ("version", JStr "1.0")]).


(** Ten records, newest first. *)
Definition tenRecords : list json :=
  [record "int_10" 90; record "int_9" 80; record "int_8" 85;
   record "int_7" 75; record "int_6" 70; record "int_5" 60;
   record "int_4" 65; record "int_3" 55; record "int_2" 50;
   record "int_1" 70].

Definition twoRecords : list json :=
  [record "int_2" 80; record "int_1" 60].

(** Ten records whose five newest scores average 39.4 and whose five
    older scores average 40, and ten records whose five older scores are
    all 0. *)
Definition closeRecords : list json :=
  [record "int_10" 39; record "int_9" 39; record "int_8" 39;
   record "int_7" 40; record "int_6" 40; record "int_5" 40;
   record "int_4" 40; record "int_3" 40; record "int_2" 40;
   record "int_1" 40].


(** A finished session and what the engine knows about it. *)
Definition engineState : InterviewEngine.State :=
  InterviewEngine.mkState (JStr "int_7") (JStr "Data Scientist")
    (JStr "mid") 1000.

Definition halfDraws : InterviewEngine.Draws :=
  InterviewEngine.mkDraws (1 # 2) (1 # 2) (1 # 2) (1 # 2).

(** A session of one question, answered with the scenario answer, and its
    report. *)
Definition finishedSession : AIService.SessionData :=
  AIService.mkSessionData (Some "Data Scientist")
    (Some [AIService.mkSessionQuestion
             (Some "Explain the bias-variance tradeoff.")
             (Some ["bias"; "variance"])
             (Some "The bias-variance tradeoff means... for example, high bias models underfit.")
             None]).

Definition finishedReport : AIService.Report :=
  AIService.evaluateInterview (Some finishedSession).

(** A parser that knows one text, and a shuffle that leaves the order. *)
Definition parseOneText (s : string) : option json :=
  if String.eqb s "[1, 2]" then Some (JArr [JNum 1; JNum 2]) else None.

Definition keepOrder (l : list AIService.Question) : list AIService.Question :=
  l.


Definition digitsOnly (q : Q) : string := string_of_Z (Qfloor q).

(** A remote service that always answers with two numbers, and one that
    is down. *)
Definition twoNumbers (key prompt : string) : option string :=
  Some "Here you are: [1, 2]".

Definition serviceDown (key prompt : string) : option string := None.

(** A session of three questions: one answered at length, one answered
    with white space, one not answered. *)
Definition mixedSession : AIService.SessionData :=
  AIService.mkSessionData None
    (Some [AIService.mkSessionQuestion (Some "Explain the bias-variance tradeoff.")
             (Some ["bias"; "variance"])
             (Some "High bias models underfit, for example a line through a curve.")
             None;
           AIService.mkSessionQuestion (Some "Explain regularization.")
             (Some ["lasso"; "ridge"]) (Some "   ") None;
           AIService.mkSessionQuestion (Some "Explain cross-validation.")
             (Some ["k-fold"]) None None]).

(** A date formatter that shows the value's text, if it is one. *)
Definition showDate (v : option json) : string :=
  match v with
  | Some (JStr s) => s
  | _ => "Invalid Date"
  end.

(** A record with a date and the four skills of the engine. *)
Definition skilled (id : string) (score : Q) (t c p e : Q) : json :=
  JObj [("id", JStr id); ("date", JStr "2024-01-01"); ("score", JNum score);
        ("skills",
         JObj [("technical", JNum t); ("communication", JNum c);
               ("problemSolving", JNum p); ("experience", JNum e)])].

(** A store whose quota is exhausted: it accepts no write. *)
Definition fullStore (history : list json) : StorageService.Storage :=
  StorageService.mkStorage
    (Some (StorageService.JSON_stringify (JArr history))) (fun _ => false).

Definition skilledRecords : list json :=
  [skilled "int_3" 80 80 82 78 75; skilled "int_2" 60 61 59 60 64;
   skilled "int_1" 70 70 69 72 71].

End Examples.

(* ================================================================== *)
(** ** The answer scorer *)

Module ScorerFacts.

Import JS AIService.

Lemma Qnat_nonneg (n : nat) : 0 <= Qnat n.
Proof.
  unfold Qnat. change 0 with (inject_Z 0). rewrite <- Zle_Qle. lia.
Qed.

Lemma Qdiv_nonneg (a b : Q) : 0 <= a -> 0 <= b -> 0 <= a / b.
Proof.
  intros Ha Hb. unfold Qdiv.
  apply Qmult_le_0_compat; [exact Ha | now apply Qinv_le_0_compat].
Qed.

Lemma conceptScore_nonneg answer expectedConcepts :
  0 <= conceptScore answer expectedConcepts.
Proof.
  unfold conceptScore.
  destruct (0 <? Datatypes.length expectedConcepts)%nat.
  - apply Qmult_le_0_compat; [| discriminate].
    apply Qdiv_nonneg; apply Qnat_nonneg.
  - discriminate.
Qed.

Lemma depthScore_nonneg answer : 0 <= depthScore answer.
Proof.
  unfold depthScore. apply Q.min_glb; [discriminate |].
  apply Qmult_le_0_compat; [| discriminate].
  apply Qdiv_nonneg; [apply Qnat_nonneg | discriminate].
Qed.

Lemma bonus_nonneg (b : bool) (k : Q) : 0 <= k -> 0 <= (if b then k else 0).
Proof. intros Hk. destruct b; [exact Hk | discriminate]. Qed.

Lemma Qplus_nonneg (a b : Q) : 0 <= a -> 0 <= b -> 0 <= a + b.
Proof.
  intros Ha Hb. setoid_replace 0 with (0 + 0) by reflexivity.
  now apply Qplus_le_compat.
Qed.

Lemma rawScore_nonneg answer expectedConcepts role :
  0 <= rawScore answer expectedConcepts role.
Proof.
  unfold rawScore, examplesScore, structureScore, technicalScore.
  repeat apply Qplus_nonneg;
    auto using conceptScore_nonneg, depthScore_nonneg;
    apply bonus_nonneg; discriminate.
Qed.

Lemma Math_round_nonneg (q : Q) : 0 <= q -> (0 <= Math_round q)%Z.
Proof.
  intros Hq. unfold Math_round.
  change 0%Z with (Qfloor 0). apply Qfloor_resp_le.
  apply Qplus_nonneg; [exact Hq | discriminate].
Qed.

Lemma scoreOf_bounds answer expectedConcepts role :
  (0 <= scoreOf answer expectedConcepts role <= 100)%Z.
Proof.
  unfold scoreOf.
  pose proof (Math_round_nonneg _ (rawScore_nonneg answer expectedConcepts role)).
  lia.
Qed.

(** The three branches of [evaluateAnswerIntelligently] store the same
    score and differ in the tier. *)
Lemma evaluate_score question answer expectedConcepts role :
  result_score (evaluateAnswerIntelligently question answer expectedConcepts role)
  = scoreOf answer expectedConcepts role.
Proof.
  unfold evaluateAnswerIntelligently.
  destruct (80 <=? scoreOf answer expectedConcepts role)%Z;
    [reflexivity |].
  destruct (50 <=? scoreOf answer expectedConcepts role)%Z; reflexivity.
Qed.

Lemma evaluate_tier question answer expectedConcepts role :
  result_correctness
    (evaluateAnswerIntelligently question answer expectedConcepts role)
  = Spec.correctnessTier (scoreOf answer expectedConcepts role).
Proof.
  unfold evaluateAnswerIntelligently, Spec.correctnessTier.
  destruct (80 <=? scoreOf answer expectedConcepts role)%Z eqn:H80;
    [reflexivity |].
  destruct (50 <=? scoreOf answer expectedConcepts role)%Z eqn:H50;
    [| reflexivity].
  simpl.
  replace (scoreOf answer expectedConcepts role <=? 79)%Z with true;
    [reflexivity |].
  symmetry. apply Z.leb_le. apply Z.leb_gt in H80. lia.
Qed.

(** C1.  Whatever the question, the answer, the expected concepts and the
    role, the score that [evaluateAnswerIntelligently] computes lies
    between 0 and 100 and the tier it reports is the tier of the
    thresholds at that score; the thresholds put 79 and 50 in partial, 80
    in correct and 49 in incorrect.  The same holds of the analysis that
    [analyzeSingleAnswerIntelligently] builds around it. *)
Theorem score_within_bounds_and_tier_by_thresholds :
  (forall question answer expectedConcepts role,
      let r := evaluateAnswerIntelligently question answer expectedConcepts role in
      (0 <= result_score r <= 100)%Z
      /\ result_correctness r = Spec.correctnessTier (result_score r))
  /\ (forall q role index,
         let a := analyzeSingleAnswerIntelligently q role index in
         (0 <= score a <= 100)%Z
         /\ correctness a = Spec.correctnessTier (score a))
  /\ Spec.correctnessTier 79 = partial
  /\ Spec.correctnessTier 80 = correct
  /\ Spec.correctnessTier 49 = incorrect
  /\ Spec.correctnessTier 50 = partial.
Proof.
  assert (Hev : forall question answer expectedConcepts role,
             let r := evaluateAnswerIntelligently question answer
                        expectedConcepts role in
             (0 <= result_score r <= 100)%Z
             /\ result_correctness r = Spec.correctnessTier (result_score r)).
  { intros question answer expectedConcepts role r. subst r.
    rewrite evaluate_tier, evaluate_score.
    split; [apply scoreOf_bounds | reflexivity]. }
  split; [exact Hev |].
  split; [| repeat split; reflexivity].
  intros q role index a. subst a.
  unfold analyzeSingleAnswerIntelligently.
  destruct (negb (truthy_string (answerOf q))
            || (String.length (trim (answerOf q)) =? 0)%nat).
  - simpl. split; [lia | reflexivity].
  - simpl. apply Hev.
Qed.

Lemma roleBaseOf_cases (role : string) :
  roleBaseOf role = None
  \/ In (roleBaseOf role)
        [Some dataScientistBase; Some frontendBase; Some backendBase;
         Some productManagerBase].
Proof.
  unfold roleBaseOf, knowledgeBase. simpl.
  repeat match goal with
         | |- context [String.eqb role ?k] => destruct (String.eqb role k)
         end; try (right; simpl; tauto).
  destruct (inherited role); [left; reflexivity | right; simpl; tauto].
Qed.

(** No role of the knowledge base finds one of its keywords in the
    scenario answer. *)
Lemma scenario_no_role_vocabulary (role : string) :
  hasTechnicalTerms Spec.scenarioAnswer role = false.
Proof.
  unfold hasTechnicalTerms.
  destruct (roleBaseOf_cases role) as [-> | Hin]; [reflexivity |].
  simpl in Hin.
  destruct Hin as [<- | [<- | [<- | [<- | []]]]]; vm_compute; reflexivity.
Qed.

(** C2, as stated: one concept of two and a concept score of 20.  The
    answer holds "variance" inside "bias-variance", so both concepts are
    substrings of it. *)
Lemma scenario_not_one_concept_of_two :
  ~ (conceptsCovered Spec.scenarioAnswer Spec.scenarioConcepts = 1%nat
     /\ conceptScore Spec.scenarioAnswer Spec.scenarioConcepts == 20).
Proof.
  intros [Hcount _]. vm_compute in Hcount. discriminate.
Qed.

(** C2, amended.  On the scenario both expected concepts are mentioned, so
    the concept score is 40; the examples bonus is 15; the ten words give
    a depth score of 20/3 and there is neither a structure nor a role
    vocabulary bonus, whatever the role.  The score is the capped, rounded
    sum, 62, and the tier is the one of the thresholds at 62, partial. *)
Theorem scenario_covers_both_concepts :
  forall question role,
    coveredConcepts Spec.scenarioAnswer Spec.scenarioConcepts
    = ["bias"; "variance"]
    /\ conceptsCovered Spec.scenarioAnswer Spec.scenarioConcepts = 2%nat
    /\ conceptScore Spec.scenarioAnswer Spec.scenarioConcepts == 40
    /\ examplesScore Spec.scenarioAnswer == 15
    /\ wordCount Spec.scenarioAnswer = 10%nat
    /\ depthScore Spec.scenarioAnswer == 20 # 3
    /\ structureScore Spec.scenarioAnswer == 0
    /\ technicalScore Spec.scenarioAnswer role == 0
    /\ result_score
         (evaluateAnswerIntelligently question Spec.scenarioAnswer
            Spec.scenarioConcepts role)
       = Z.min 100 (Math_round (40 + (20 # 3) + 15 + 0 + 0))
    /\ result_score
         (evaluateAnswerIntelligently question Spec.scenarioAnswer
            Spec.scenarioConcepts role) = 62%Z
    /\ result_correctness
         (evaluateAnswerIntelligently question Spec.scenarioAnswer
            Spec.scenarioConcepts role) = Spec.correctnessTier 62
    /\ Spec.correctnessTier 62 = partial.
Proof.
  intros question role.
  assert (Htech : technicalScore Spec.scenarioAnswer role = 0).
  { unfold technicalScore. now rewrite scenario_no_role_vocabulary. }
  assert (Hscore : scoreOf Spec.scenarioAnswer Spec.scenarioConcepts role
                   = 62%Z).
  { unfold scoreOf, rawScore. rewrite Htech. vm_compute. reflexivity. }
  split; [vm_compute; reflexivity |].
  split; [vm_compute; reflexivity |].
  split; [vm_compute; reflexivity |].
  split; [vm_compute; reflexivity |].
  split; [vm_compute; reflexivity |].
  split; [vm_compute; reflexivity |].
  split; [vm_compute; reflexivity |].
  split; [rewrite Htech; reflexivity |].
  split; [rewrite evaluate_score, Hscore; vm_compute; reflexivity |].
  split; [rewrite evaluate_score; exact Hscore |].
  split; [rewrite evaluate_tier, Hscore; reflexivity | reflexivity].
Qed.

(** C3, as stated: an empty cleaned answer scores 0.  A raw answer "um"
    is cleaned to the empty text; the scorer then falls back on the raw
    answer and scores it 31. *)
Lemma filler_only_answer_is_scored :
  cleanTranscript "um" = EmptyString
  /\ sq_cleanedAnswer Examples.fillerOnly = Some EmptyString
  /\ score (analyzeSingleAnswerIntelligently Examples.fillerOnly
              "Data Scientist" 0) = 31%Z
  /\ scoreReason (analyzeSingleAnswerIntelligently Examples.fillerOnly
                    "Data Scientist" 0) <> Spec.noAnswerReason
  /\ overallScore (evaluateInterview (Some Examples.fillerSession))
     = Fin (inject_Z 31).
Proof.
  repeat split; try (vm_compute; reflexivity).
  vm_compute. discriminate.
Qed.

(** The branch of [analyzeSingleAnswerIntelligently] for an answer that is
    empty once trimmed. *)
Lemma no_answer_branch q role index :
  trim (answerOf q) = EmptyString ->
  analyzeSingleAnswerIntelligently q role index
  = mkAnalysis index (or_string (sq_question q) "")
      (or_string (sq_userAnswer q) "") (answerOf q) 0 incorrect
      [] ["No answer provided"] [] []
      "Please provide an answer to receive feedback."
      "No answer given - score 0%".
Proof.
  intros Hblank. unfold analyzeSingleAnswerIntelligently.
  rewrite Hblank. simpl String.length. simpl Nat.eqb.
  rewrite orb_true_r. reflexivity.
Qed.

(** C3, amended.  When the answer that the scorer reads (the cleaned answer
    or, that one being empty or absent, the raw answer) is empty or white
    space only, the analysis has score 0, tier incorrect and the rationale
    of an answer not given, whatever the question, the role and the
    expected concepts. *)
Theorem unanswered_question_scores_zero :
  forall q role index,
    trim (answerOf q) = EmptyString ->
    score (analyzeSingleAnswerIntelligently q role index) = 0%Z
    /\ correctness (analyzeSingleAnswerIntelligently q role index) = incorrect
    /\ scoreReason (analyzeSingleAnswerIntelligently q role index)
       = Spec.noAnswerReason
    /\ weaknesses (analyzeSingleAnswerIntelligently q role index)
       = ["No answer provided"].
Proof.
  intros q role index Hblank.
  rewrite (no_answer_branch q role index Hblank).
  repeat split; reflexivity.
Qed.

Lemma unanswered_question_scores_zero_witness :
  trim (answerOf Examples.blankAnswer) = EmptyString
  /\ score (analyzeSingleAnswerIntelligently Examples.blankAnswer
              "Data Scientist" 3) = 0%Z.
Proof.
  split; [reflexivity |].
  apply (unanswered_question_scores_zero Examples.blankAnswer
           "Data Scientist" 3).
  reflexivity.
Defined.

(** A cleaned answer that is white space only, and not empty, is the
    answer read: it scores 0. *)
Lemma blank_cleaned_answer_scores_zero q role index cleaned :
  sq_cleanedAnswer q = Some cleaned ->
  cleaned <> EmptyString ->
  trim cleaned = EmptyString ->
  score (analyzeSingleAnswerIntelligently q role index) = 0%Z.
Proof.
  intros Hc Hne Ht.
  rewrite no_answer_branch; [reflexivity |].
  unfold answerOf. rewrite Hc. unfold or_string at 1, truthy_string.
  destruct (String.eqb cleaned "") eqn:E.
  - apply String.eqb_eq in E. contradiction.
  - simpl. exact Ht.
Qed.

(** So does a question with no answer at all, cleaned or raw. *)
Lemma absent_answer_scores_zero q role index :
  or_string (sq_cleanedAnswer q) "" = EmptyString ->
  or_string (sq_userAnswer q) "" = EmptyString ->
  score (analyzeSingleAnswerIntelligently q role index) = 0%Z.
Proof.
  intros Hc Hu.
  rewrite no_answer_branch; [reflexivity |].
  unfold answerOf. rewrite Hu.
  unfold or_string in *.
  destruct (sq_cleanedAnswer q) as [c |]; [| reflexivity].
  destruct (truthy_string c); [| reflexivity].
  rewrite Hc. reflexivity.
Qed.

End ScorerFacts.

(* ================================================================== *)
(** ** The session report *)

Module ReportFacts.

Import JS AIService.

Lemma Qnat_succ_nonzero (n : nat) : Qeq_bool (Qnat (S n)) 0 = false.
Proof.
  destruct (Qeq_bool (Qnat (S n)) 0) eqn:E; [| reflexivity].
  apply Qeq_bool_eq in E. unfold Qnat, Qeq in E.
  cbn [Qnum Qden inject_Z] in E. lia.
Qed.

(** The mean of a non-empty list of analyses is a finite integer. *)
Lemma report_score_finite (a : Analysis) (l : list Analysis) :
  exists z, overallScore (generateIntelligentReport (a :: l))
            = Fin (inject_Z z).
Proof.
  unfold generateIntelligentReport. cbv zeta.
  cbn [overallScore]. unfold div.
  change (Datatypes.length (a :: l)) with (S (Datatypes.length l)).
  rewrite Qnat_succ_nonzero. cbn [round]. eexists. reflexivity.
Qed.

(** C4, as stated: aggregating an empty list of analyses returns the fixed
    empty report with score 0.  [generateIntelligentReport] has no guard of
    its own: for no analysis at all the mean is 0 / 0, so the overall score
    is not a number, the level is Beginner and two suggestions are made;
    the result is not the empty report. *)
Lemma aggregating_nothing_is_not_the_empty_report :
  overallScore (generateIntelligentReport []) = NaN
  /\ overallScore (generateIntelligentReport []) <> Fin 0
  /\ knowledgeLevel (generateIntelligentReport []) = "Beginner"
  /\ suggestions (generateIntelligentReport [])
     = ["Practice with timed mock interviews";
        "Study role-specific case studies"]
  /\ report_strengths (generateIntelligentReport []) = []
  /\ questionAnalyses (generateIntelligentReport []) = []
  /\ stats (generateIntelligentReport []) = mkStats 0 0 0
  /\ generateIntelligentReport [] <> getEmptyEvaluation.
Proof.
  repeat split; try reflexivity; discriminate.
Qed.

Lemma analyzeFrom_cons role i q qs :
  analyzeFrom role i (q :: qs)
  = analyzeSingleAnswerIntelligently q role i :: analyzeFrom role (S i) qs.
Proof. reflexivity. Qed.

(** C4, amended.  The guard against an empty input is that of
    [evaluateInterview], not of the aggregation: a session without
    questions (no session, no question list or an empty one) is reported by
    the fixed empty report, with overall score 0, no analysis, no missing
    concept, all tier counts 0 and placeholders for strengths, weaknesses
    and suggestions.  [evaluateInterview] returns a report for every input
    and hands the aggregation a non-empty list only, so the mean never
    divides by zero there: the overall score of every report it returns is
    a finite integer. *)
Theorem empty_session_gets_empty_report :
  evaluateInterview None = getEmptyEvaluation
  /\ (forall role, evaluateInterview (Some (mkSessionData role None))
                   = getEmptyEvaluation)
  /\ (forall role, evaluateInterview (Some (mkSessionData role (Some [])))
                   = getEmptyEvaluation)
  /\ overallScore getEmptyEvaluation = Fin 0
  /\ questionAnalyses getEmptyEvaluation = []
  /\ report_missingConcepts getEmptyEvaluation = []
  /\ stats getEmptyEvaluation = mkStats 0 0 0
  /\ report_strengths getEmptyEvaluation = ["Complete an interview first"]
  /\ report_weaknesses getEmptyEvaluation = ["No data available"]
  /\ suggestions getEmptyEvaluation = ["Start a new interview session"]
  /\ knowledgeLevel getEmptyEvaluation = "Not assessed"
  /\ (forall sessionData,
         exists z, overallScore (evaluateInterview sessionData)
                   = Fin (inject_Z z)).
Proof.
  repeat split; try reflexivity.
  intros [sd |]; [| exists 0%Z; reflexivity].
  unfold evaluateInterview.
  destruct (sd_questions sd) as [[| q qs] |];
    try (exists 0%Z; reflexivity).
  unfold analyzeAllAnswers. cbn [map]. rewrite analyzeFrom_cons.
  apply report_score_finite.
Qed.

End ReportFacts.

(* ================================================================== *)
(** ** Double precision: rounding *)

Module DoubleFacts.

Import JS Double.

(** *** Powers of two and the position of the leading digit *)

Lemma pow2_spec (e : Z) : pow2 e == 2 ^ e.
Proof.
  unfold pow2. destruct (Z.ltb_spec e 0) as [H | H].
  - rewrite Z.shiftl_1_l, (Zpower_Qpower 2 (- e)) by lia.
    rewrite <- Qpower_opp. now rewrite Z.opp_involutive.
  - rewrite Z.shiftl_1_l. now apply Zpower_Qpower.
Qed.

Lemma pow2_pos (e : Z) : 0 < pow2 e.
Proof. rewrite pow2_spec. now apply Qpower_0_lt. Qed.

Lemma pow2_plus (a b : Z) : pow2 (a + b) == pow2 a * pow2 b.
Proof. rewrite !pow2_spec. now apply Qpower_plus. Qed.


Lemma pow2_lt_inv (a b : Z) : pow2 a < pow2 b -> (a < b)%Z.
Proof.
  rewrite !pow2_spec. intros H. now apply (Qpower_lt_compat_l_inv 2).
Qed.

Lemma pow2_whole (e : Z) : (0 <= e)%Z -> pow2 e = inject_Z (2 ^ e).
Proof.
  intros H. unfold pow2. destruct (Z.ltb_spec e 0); [lia |].
  now rewrite Z.shiftl_1_l.
Qed.

Lemma pow2_opp (e : Z) : pow2 (- e) == / pow2 e.
Proof. rewrite !pow2_spec. apply Qpower_opp. Qed.

Lemma Qdiv_lt_cross (a b c d : Q) :
  0 < b -> 0 < d -> a * d < c * b -> a / b < c / d.
Proof.
  intros Hb Hd H. apply Qlt_shift_div_l; [exact Hd |].
  assert (E : a / b * d == a * d / b) by (field; lra).
  rewrite E. now apply Qlt_shift_div_r.
Qed.

Lemma Qdiv_le_cross (a b c d : Q) :
  0 < b -> 0 < d -> a * d <= c * b -> a / b <= c / d.
Proof.
  intros Hb Hd H. apply Qle_shift_div_l; [exact Hd |].
  assert (E : a / b * d == a * d / b) by (field; lra).
  rewrite E. now apply Qle_shift_div_r.
Qed.

Lemma pow2_minus (a b : Z) : pow2 (a - b) == pow2 a / pow2 b.
Proof.
  unfold Z.sub. rewrite pow2_plus, pow2_opp. reflexivity.
Qed.

Lemma inject_Z_lt (x y : Z) : (x < y)%Z -> inject_Z x < inject_Z y.
Proof. intros H. now rewrite <- Zlt_Qlt. Qed.

Lemma inject_Z_le (x y : Z) : (x <= y)%Z -> inject_Z x <= inject_Z y.
Proof. intros H. now rewrite <- Zle_Qle. Qed.

Lemma ilog2_spec (q : Q) :
  0 < q -> pow2 (ilog2 q) <= q /\ q < pow2 (ilog2 q + 1).
Proof.
  intros Hq. destruct q as [n d]. unfold ilog2. cbn [Qnum Qden].
  assert (Hn : (0 < n)%Z).
  { unfold Qlt in Hq. cbn in Hq. lia. }
  set (a := Z.log2 n). set (b := Z.log2 (Z.pos d)).
  destruct (Z.log2_spec n Hn) as [Ha1 Ha2]. fold a in Ha1, Ha2.
  destruct (Z.log2_spec (Z.pos d) ltac:(lia)) as [Hb1 Hb2].
  fold b in Hb1, Hb2.
  assert (Ha0 : (0 <= a)%Z) by apply Z.log2_nonneg.
  assert (Hb0 : (0 <= b)%Z) by apply Z.log2_nonneg.
  assert (Hpa : (0 < 2 ^ a)%Z) by (apply Z.pow_pos_nonneg; lia).
  assert (Hpb : (0 < 2 ^ b)%Z) by (apply Z.pow_pos_nonneg; lia).
  assert (Eq : n # d == inject_Z n / inject_Z (Z.pos d))
    by apply Qmake_Qdiv.
  assert (Hd : 0 < inject_Z (Z.pos d)) by (apply (inject_Z_lt 0); lia).
  destruct (Qle_bool (pow2 (a - b)) (n # d)) eqn:E.
  - apply Qle_bool_iff in E. split; [exact E |].
    replace (a - b + 1)%Z with (Z.succ a - b)%Z by lia.
    rewrite pow2_minus, !pow2_whole, Eq by lia.
    apply Qdiv_lt_cross; [exact Hd | apply (inject_Z_lt 0); lia |].
    rewrite <- !inject_Z_mult. apply inject_Z_lt. nia.
  - assert (Hlt : n # d < pow2 (a - b)).
    { apply Qnot_le_lt. intros H. apply Qle_bool_iff in H. congruence. }
    split; [| now replace (a - b - 1 + 1)%Z with (a - b)%Z by lia].
    replace (a - b - 1)%Z with (a - Z.succ b)%Z by lia.
    rewrite pow2_minus, !pow2_whole, Eq by lia.
    apply Qdiv_le_cross; [apply (inject_Z_lt 0); lia | exact Hd |].
    rewrite <- !inject_Z_mult. apply inject_Z_le. nia.
Qed.

Lemma ilog2_lt (q : Q) (L : Z) : 0 < q -> q < pow2 L -> (ilog2 q < L)%Z.
Proof.
  intros Hq H. destruct (ilog2_spec q Hq) as [Hlow _].
  apply pow2_lt_inv. eapply Qle_lt_trans; eassumption.
Qed.

Lemma ilog2_ge (q : Q) (L : Z) : pow2 L <= q -> (L <= ilog2 q)%Z.
Proof.
  intros H.
  assert (Hq : 0 < q) by (eapply Qlt_le_trans; [apply pow2_pos | exact H]).
  destruct (ilog2_spec q Hq) as [_ Hup].
  assert (L < ilog2 q + 1)%Z; [| lia].
  apply pow2_lt_inv. eapply Qle_lt_trans; eassumption.
Qed.

Lemma floor_ge (x : Q) (j : Z) : inject_Z j <= x -> (j <= Qfloor x)%Z.
Proof.
  intros H. rewrite <- (Qfloor_Z j). now apply Qfloor_resp_le.
Qed.

Lemma floor_lt (x : Q) (j : Z) : x < inject_Z j -> (Qfloor x < j)%Z.
Proof.
  intros H. pose proof (Qfloor_le x) as Hf.
  rewrite Zlt_Qlt. eapply Qle_lt_trans; eassumption.
Qed.

Lemma nearestEven_cases (x : Q) :
  (nearestEven x = Qfloor x /\ x - inject_Z (Qfloor x) <= 1 # 2)
  \/ (nearestEven x = (Qfloor x + 1)%Z /\ 1 # 2 <= x - inject_Z (Qfloor x)).
Proof.
  unfold nearestEven.
  destruct (Qcompare (x - inject_Z (Qfloor x)) (1 # 2)) eqn:E.
  - apply Qeq_alt in E. destruct (Z.even (Qfloor x)).
    + left. split; [reflexivity | rewrite E; apply Qle_refl].
    + right. split; [reflexivity | rewrite E; apply Qle_refl].
  - apply Qlt_alt in E. left. split; [reflexivity | now apply Qlt_le_weak].
  - apply Qgt_alt in E. right. split; [reflexivity | now apply Qlt_le_weak].
Qed.

Lemma nearestEven_ge (x : Q) (j : Z) :
  inject_Z j <= x -> (j <= nearestEven x)%Z.
Proof.
  intros H. apply floor_ge in H.
  destruct (nearestEven_cases x) as [[-> _] | [-> _]]; lia.
Qed.


Lemma nearestEven_lt (x : Q) (j : Z) :
  x < inject_Z j - (1 # 2) -> (nearestEven x < j)%Z.
Proof.
  intros H. pose proof (Qfloor_le x) as Hf.
  destruct (nearestEven_cases x) as [[-> _] | [-> Hhalf]].
  - rewrite Zlt_Qlt. lra.
  - assert (Qfloor x + 1 < j)%Z; [| lia].
    rewrite Zlt_Qlt, inject_Z_plus. change (inject_Z 1) with 1. lra.
Qed.


(** [nearest] as a value *)
Lemma nearest_value (q : Q) :
  ~ q == 0 ->
  nearest q
  == inject_Z (nearestEven (q / pow2 (lastDigit q))) * pow2 (lastDigit q).
Proof.
  intros H. unfold nearest.
  destruct (Qeq_bool q 0) eqn:E.
  - apply Qeq_bool_eq in E. contradiction.
  - apply Qred_correct.
Qed.

Lemma nearest_zero (q : Q) : q == 0 -> nearest q = 0.
Proof.
  intros H. unfold nearest. apply Qeq_eq_bool in H. now rewrite H.
Qed.

Lemma nearestEven_lt_twice (x : Q) (j : Z) :
  2 * x < inject_Z (2 * j - 1) -> (nearestEven x < j)%Z.
Proof.
  intros H. apply nearestEven_lt.
  unfold Z.sub in H. rewrite inject_Z_plus, inject_Z_mult in H.
  change (inject_Z 2) with 2 in H.
  change (inject_Z (- (1))) with (- (1)) in H.
  lra.
Qed.

Lemma floor_unique (v : Q) (k : Z) :
  inject_Z k <= v -> v < inject_Z (k + 1) -> Qfloor v = k.
Proof.
  intros H1 H2. apply floor_ge in H1. apply floor_lt in H2. lia.
Qed.

(** The last digit kept near a positive [q] below [2^L]. *)
Lemma lastDigit_upper (q : Q) (L : Z) :
  0 < q -> q < pow2 L -> (-1021 <= L)%Z ->
  (-1074 <= lastDigit q <= L - 53)%Z.
Proof.
  intros Hq Hlt HL. unfold lastDigit.
  assert (Habs : Qabs q == q) by (apply Qabs_pos; now apply Qlt_le_weak).
  assert (H : (ilog2 (Qabs q) < L)%Z).
  { apply ilog2_lt; rewrite Habs; assumption. }
  lia.
Qed.

(** Dividing a whole number by a small whole number and rounding the
    quotient to a double does not reach the next whole number. *)
Lemma floor_nearest_quotient (n d L : Z) :
  (0 <= n)%Z -> (0 < d)%Z -> (-1021 <= L <= 52)%Z ->
  inject_Z n / inject_Z d < pow2 L ->
  (d < 2 ^ (54 - L))%Z ->
  Qfloor (nearest (inject_Z n / inject_Z d)) = (n / d)%Z.
Proof.
  intros Hn Hd HL Hlt Hsmall.
  set (q := inject_Z n / inject_Z d).
  assert (HQd : 0 < inject_Z d) by (apply (inject_Z_lt 0); lia).
  destruct (Z.eq_dec n 0) as [-> | Hn0].
  { rewrite nearest_zero; [reflexivity |].
    unfold q. cbn. unfold Qdiv. apply Qmult_0_l. }
  assert (Hq : 0 < q).
  { unfold q. apply Qlt_shift_div_l; [exact HQd |].
    rewrite Qmult_0_l. apply (inject_Z_lt 0). lia. }
  destruct (lastDigit_upper q L Hq Hlt ltac:(lia)) as [He1 He2].
  set (e := lastDigit q) in *.
  set (E := (- e)%Z).
  assert (HE : (53 - L <= E <= 1074)%Z) by (unfold E; lia).
  assert (HP : (0 < 2 ^ E)%Z) by (apply Z.pow_pos_nonneg; lia).
  assert (HQP : 0 < inject_Z (2 ^ E)) by (apply (inject_Z_lt 0); lia).
  assert (Hpow : pow2 e == / inject_Z (2 ^ E)).
  { replace e with (- E)%Z by (unfold E; lia).
    rewrite pow2_opp, pow2_whole by lia. reflexivity. }
  assert (Hbig : (d < 2 * 2 ^ E)%Z).
  { assert (2 ^ (54 - L) <= 2 ^ (E + 1))%Z
      by (apply Z.pow_le_mono_r; lia).
    rewrite Z.pow_add_r in H by lia. lia. }
  assert (Hx : q / pow2 e == inject_Z (n * 2 ^ E) / inject_Z d).
  { rewrite Hpow, inject_Z_mult. unfold q. field.
    split; apply Qnot_eq_sym, Qlt_not_eq; assumption. }
  set (m := nearestEven (q / pow2 e)).
  assert (Hv : nearest q == inject_Z m / inject_Z (2 ^ E)).
  { rewrite nearest_value by (apply Qnot_eq_sym, Qlt_not_eq; exact Hq).
    fold e. fold m. rewrite Hpow. reflexivity. }
  pose proof (Z.div_mod n d ltac:(lia)) as Hdm.
  pose proof (Z.mod_pos_bound n d Hd) as Hr.
  set (k := (n / d)%Z) in *. set (r := (n mod d)%Z) in *.
  assert (Hlow : (k * 2 ^ E <= m)%Z).
  { apply nearestEven_ge. rewrite Hx.
    apply Qle_shift_div_l; [exact HQd |].
    rewrite <- inject_Z_mult. apply inject_Z_le. nia. }
  assert (Hup : (m < (k + 1) * 2 ^ E)%Z).
  { apply nearestEven_lt_twice. rewrite Hx.
    assert (E2 : 2 * (inject_Z (n * 2 ^ E) / inject_Z d)
                 == inject_Z (2 * (n * 2 ^ E)) / inject_Z d).
    { rewrite (inject_Z_mult 2). change (inject_Z 2) with 2. field.
      apply Qnot_eq_sym, Qlt_not_eq; assumption. }
    rewrite E2. apply Qlt_shift_div_r; [exact HQd |].
    rewrite <- inject_Z_mult. apply inject_Z_lt. nia. }
  apply floor_unique; rewrite Hv.
  - apply Qle_shift_div_l; [exact HQP |].
    rewrite <- inject_Z_mult. now apply inject_Z_le.
  - apply Qlt_shift_div_r; [exact HQP |].
    rewrite <- inject_Z_mult. now apply inject_Z_lt.
Qed.

(** *** The error of rounding *)










(** *** The whole numbers up to 500 *)















End DoubleFacts.

(* ================================================================== *)
(** ** The trend of whole scores against the exact percentage *)

Module TrendFacts.

Import JS Double DoubleFacts.










End TrendFacts.

(* ================================================================== *)
(** ** The history store *)

Module StoreFacts.

Import JS StorageService.

(** *** Reading back what was written *)

Lemma getHistory_after_setItem st v st' :
  setItem st (JSON_stringify v) = Some st' -> getHistory st' = v.
Proof.
  unfold setItem. destruct (accepts st (JSON_stringify v)); [| discriminate].
  intros [= <-]. reflexivity.
Qed.

Lemma historySize_of_list st history :
  getHistory st = JArr history -> historySize st = List.length history.
Proof. unfold historySize. now intros ->. Qed.

Lemma slice_from_start {A} (n : nat) (l : list A) : slice 0 n l = firstn n l.
Proof. unfold slice. now rewrite Nat.sub_0_r. Qed.

(** *** The cap of fifty records *)

Lemma capped_length (l : list json) :
  (List.length (if (maxHistoryItems <? List.length l)%nat
                then slice 0 maxHistoryItems l else l) <= 50)%nat.
Proof.
  unfold maxHistoryItems.
  destruct (50 <? Datatypes.length l)%nat eqn:E.
  - rewrite slice_from_start. apply firstn_le_length.
  - now apply Nat.ltb_ge in E.
Qed.

Lemma save_within_cap st interviewData generatedId now :
  (historySize st <= 50)%nat ->
  (historySize (fst (saveInterview st interviewData generatedId now)) <= 50)%nat.
Proof.
  intros Hcap. unfold saveInterview.
  destruct (getHistory st) as [| | | | history |] eqn:Hh; try exact Hcap.
  match goal with
  | |- context [setItem st ?t] => destruct (setItem st t) as [st' |] eqn:Hset
  end; [| exact Hcap].
  cbn [fst]. apply getHistory_after_setItem in Hset.
  rewrite (historySize_of_list _ _ Hset). apply capped_length.
Qed.

Lemma withoutId_length id history filtered :
  withoutId id history = Some filtered ->
  (List.length filtered <= List.length history)%nat.
Proof.
  revert filtered. induction history as [| entry r IH]; intros filtered.
  - intros [= <-]. simpl. lia.
  - simpl. destruct (hasId id entry) as [same |]; [| discriminate].
    destruct (withoutId id r) as [r' |]; [| discriminate].
    intros [= <-]. specialize (IH r' eq_refl).
    destruct same; simpl; lia.
Qed.

Lemma delete_within_cap st id :
  (historySize st <= 50)%nat ->
  (historySize (fst (deleteInterview st id)) <= 50)%nat.
Proof.
  intros Hcap. unfold deleteInterview.
  destruct (getHistory st) as [| | | | history |] eqn:Hh; try exact Hcap.
  destruct (withoutId id history) as [filtered |] eqn:Hf; [| exact Hcap].
  destruct (setItem st (JSON_stringify (JArr filtered))) as [st' |] eqn:Hset;
    [| exact Hcap].
  cbn [fst]. apply getHistory_after_setItem in Hset.
  rewrite (historySize_of_list _ _ Hset).
  apply withoutId_length in Hf.
  rewrite (historySize_of_list _ _ Hh) in Hcap. lia.
Qed.

Lemma clear_within_cap st :
  (historySize st <= 50)%nat ->
  (historySize (fst (clearHistory st)) <= 50)%nat.
Proof.
  intros Hcap. unfold clearHistory.
  destruct (setItem st (JSON_stringify (JArr []))) as [st' |] eqn:Hset;
    [| exact Hcap].
  cbn [fst]. apply getHistory_after_setItem in Hset.
  rewrite (historySize_of_list _ _ Hset). simpl. lia.
Qed.

(** Saving, deleting and clearing never take the history over the cap. *)
Lemma cap_kept_without_import (ops : list operation) :
  forall st,
    forallb (fun o => negb (isImport o)) ops = true ->
    (historySize st <= 50)%nat ->
    (historySize (performAll st ops) <= 50)%nat.
Proof.
  unfold performAll.
  induction ops as [| o ops IH]; intros st Hops Hcap; [exact Hcap |].
  simpl in Hops. apply andb_true_iff in Hops as [Ho Hops].
  simpl. apply IH; [exact Hops |].
  destruct o; simpl in Ho; try discriminate; simpl.
  - now apply save_within_cap.
  - now apply delete_within_cap.
  - now apply clear_within_cap.
Qed.

(** Saving into a history of fifty records drops the oldest one. *)
Lemma save_into_full_history_evicts_oldest st history interviewData
      generatedId now :
  getHistory st = JArr history ->
  List.length history = 50%nat ->
  (forall t, accepts st t = true) ->
  exists newInterview,
    snd (saveInterview st interviewData generatedId now) = Some newInterview
    /\ getHistory (fst (saveInterview st interviewData generatedId now))
       = JArr (newInterview :: removelast history).
Proof.
  intros Hh Hlen Hacc. unfold saveInterview. rewrite Hh.
  unfold setItem. rewrite Hacc. cbn [fst snd].
  eexists. split; [reflexivity |].
  unfold getHistory. cbn [item JSON_parse JSON_stringify].
  f_equal.
  cbn [Datatypes.length]. rewrite Hlen.
  change (maxHistoryItems <? 51)%nat with true. cbv iota.
  rewrite slice_from_start. unfold maxHistoryItems.
  rewrite removelast_firstn_len, Hlen. reflexivity.
Qed.

(** C5.  The cap is not kept by [importData]: from an empty store, one
    import of a file of fifty-one records leaves fifty-one records in the
    history and reports success. *)
Theorem import_stores_more_than_fifty :
  historySize Examples.emptyStore = 0%nat
  /\ List.length Examples.fiftyOne = 51%nat
  /\ snd (importData Examples.emptyStore Examples.fiftyOneFile) = true
  /\ getHistory (fst (importData Examples.emptyStore Examples.fiftyOneFile))
     = JArr Examples.fiftyOne
  /\ historySize
       (performAll Examples.emptyStore [ImportData Examples.fiftyOneFile])
     = 51%nat.
Proof. repeat split; vm_compute; reflexivity. Qed.

(** *** The trend *)

Lemma scoresOf_length history scores :
  scoresOf history = Returns scores ->
  List.length scores = List.length history.
Proof.
  revert scores. induction history as [| i r IH]; intros scores.
  - intros [= <-]. reflexivity.
  - simpl. destruct (scoreOf i) as [q | |], (scoresOf r) as [qs | |];
      try discriminate.
    intros [= <-]. simpl. now rewrite (IH qs eq_refl).
Qed.












(** The ten records of the example: averages 80 and 60, trend 33. *)
Lemma trend_of_ten_example :
  Spec.recentTrend [90; 80; 85; 75; 70; 60; 65; 55; 50; 70]
  = Fin (inject_Z 33).
Proof. vm_compute. reflexivity. Qed.

(** Where the rounding shows.  With newest scores 39, 39, 39, 40, 40 and
    five older scores of 40 the averages are 39.4 and 40; the exact
    percentage is -1.5, which would round to -1, but the quotient computed
    in double precision lies just below -1.5 and the trend is -2. *)
Lemma trend_follows_the_rounding :
  getStats (Examples.storeOf Examples.closeRecords)
  = Returns (statsOf [39; 39; 39; 40; 40; 40; 40; 40; 40; 40])
  /\ recentTrend (statsOf [39; 39; 39; 40; 40; 40; 40; 40; 40; 40])
     = Fin (inject_Z (-2))
  /\ Spec.exactTrend 197 200 == - (3 # 2)
  /\ Math_round (Spec.exactTrend 197 200) = (-1)%Z.
Proof.
  repeat split; vm_compute; reflexivity.
Qed.

(** *** Deleting *)

Lemma withoutId_is_filter id history :
  Forall (fun e => e <> JNull) history ->
  withoutId id history
  = Some (filter (fun e => negb (Spec.carriesId id e)) history).
Proof.
  induction 1 as [| entry r Hentry _ IH]; [reflexivity |].
  simpl. rewrite IH.
  assert (Hid : hasId id entry = Some (Spec.carriesId id entry)).
  { destruct entry as [| b | q | s | items | fields];
      try reflexivity; [contradiction |].
    unfold hasId, Spec.carriesId. simpl.
    destruct (assoc "id" fields) as [[| | | | |] |]; reflexivity. }
  rewrite Hid. destruct (Spec.carriesId id entry); reflexivity.
Qed.

(** C7, as stated: deleting an identifier that no record carries returns
    false.  It returns true. *)
Lemma deleting_unknown_id_returns_true :
  forallb (fun e => negb (Spec.carriesId "int_9" e)) Examples.twoRecords
  = true
  /\ snd (deleteInterview (Examples.storeOf Examples.twoRecords) "int_9")
     <> false.
Proof.
  split; [reflexivity |]. vm_compute. discriminate.
Qed.

(** C7, amended.  On a history of records, when the store accepts the
    write, [deleteInterview] returns true whether or not a record carries
    the identifier; the history it leaves is the old one without the
    records that carry the identifier, the others untouched and in their
    order; when no record carries it the history is unchanged. *)
Theorem delete_removes_the_records_with_the_id :
  forall st history id,
    getHistory st = JArr history ->
    Forall (fun e => e <> JNull) history ->
    accepts st (JSON_stringify
                  (JArr (filter (fun e => negb (Spec.carriesId id e))
                                history))) = true ->
    snd (deleteInterview st id) = true
    /\ getHistory (fst (deleteInterview st id))
       = JArr (filter (fun e => negb (Spec.carriesId id e)) history)
    /\ (forallb (fun e => negb (Spec.carriesId id e)) history = true ->
        getHistory (fst (deleteInterview st id)) = JArr history).
Proof.
  intros st history id Hh Hrec Hacc.
  unfold deleteInterview. rewrite Hh, (withoutId_is_filter id history Hrec).
  unfold setItem. rewrite Hacc. cbn [fst snd].
  repeat split.
  intros Hnone. unfold getHistory. cbn [item JSON_parse JSON_stringify].
  now rewrite forallb_filter_id.
Qed.

Lemma delete_removes_the_records_with_the_id_witness :
  snd (deleteInterview (Examples.storeOf Examples.twoRecords) "int_1") = true
  /\ getHistory
       (fst (deleteInterview (Examples.storeOf Examples.twoRecords) "int_1"))
     = JArr [Examples.record "int_2" 80].
Proof.
  assert (Hrec : Forall (fun e => e <> JNull) Examples.twoRecords)
    by (repeat constructor; discriminate).
  destruct (delete_removes_the_records_with_the_id
              (Examples.storeOf Examples.twoRecords) Examples.twoRecords
              "int_1" eq_refl Hrec eq_refl) as [Htrue [Hhist _]].
  split; [exact Htrue | exact Hhist].
Defined.

(** *** Export and import *)

(** C9.  The file that [exportData] writes for a store whose history is a
    list, imported with [importData] into a store that accepts the write
    (the same store or another one), is accepted and leaves that same list
    as the history: the same records, with the same identifiers and scores,
    in the same order. *)
Theorem import_of_export_restores_the_history :
  forall source target history now,
    getHistory source = JArr history ->
    accepts target (JSON_stringify (JArr history)) = true ->
    snd (importData target (exportData source now)) = true
    /\ exists imported,
        getHistory (fst (importData target (exportData source now)))
        = JArr imported
        /\ imported = history
        /\ map (get "id") imported = map (get "id") history
        /\ map (get "score") imported = map (get "score") history.
Proof.
  intros source target history now Hh Hacc.
  unfold importData, exportData. cbn [JSON_parse JSON_stringify get assoc].
  rewrite Hh. simpl. unfold setItem. rewrite Hacc. cbn [fst snd].
  split; [reflexivity |].
  exists history. repeat split; reflexivity.
Qed.

Lemma import_of_export_restores_the_history_witness :
  snd (importData Examples.emptyStore
         (exportData (Examples.storeOf Examples.twoRecords)
            "2024-01-01T00:00:00.000Z")) = true
  /\ getHistory
       (fst (importData Examples.emptyStore
               (exportData (Examples.storeOf Examples.twoRecords)
                  "2024-01-01T00:00:00.000Z")))
     = JArr Examples.twoRecords.
Proof.
  destruct (import_of_export_restores_the_history
              (Examples.storeOf Examples.twoRecords) Examples.emptyStore
              Examples.twoRecords "2024-01-01T00:00:00.000Z"
              eq_refl eq_refl) as [Htrue [imported [Hhist [Heq _]]]].
  split; [exact Htrue |]. rewrite Hhist, Heq. reflexivity.
Defined.

End StoreFacts.

(* ================================================================== *)
(** ** The persisted record *)

Module EngineFacts.

Import JS InterviewEngine.

(** The record that [saveInterviewResult] hands to the store has the four
    skills of [extractSkills] under [skills]. *)
Lemma interviewData_skills state evaluation sessionData r dateNow dateIso
      data :
  interviewData state evaluation sessionData r dateNow dateIso = Some data ->
  assoc "skills" data
  = Some (JObj (map (fun kv => (fst kv, json_of_number (snd kv)))
                    (extractSkills evaluation r))).
Proof.
  unfold interviewData.
  destruct (AIService.sd_questions sessionData); [| discriminate].
  intros [= <-]. reflexivity.
Qed.

(** C8.  The skill vector that [extractSkills] builds has the four fields
    technical, communication, problemSolving and experience, and no field
    culture, whatever the evaluation and the random draws; the record
    persisted for the example session carries exactly these four. *)
Theorem skill_vector_has_no_culture_field :
  (forall evaluation r,
      map fst (extractSkills evaluation r)
      = ["technical"; "communication"; "problemSolving"; "experience"]
      /\ assoc "culture" (extractSkills evaluation r) = None
      /\ map fst (extractSkills evaluation r) <> Spec.skillFields)
  /\ exists fields skills,
      option_map StorageService.getHistory
        (saveInterviewResult Examples.emptyStore Examples.engineState
           Examples.finishedReport Examples.finishedSession
           Examples.halfDraws 61000 "2024-01-01T00:01:01.000Z"
           "int_0" "2024-01-01T00:01:01.000Z")
      = Some (JArr [JObj fields])
      /\ assoc "skills" fields = Some (JObj skills)
      /\ map fst skills
         = ["technical"; "communication"; "problemSolving"; "experience"]
      /\ assoc "culture" skills = None.
Proof.
  split.
  - intros evaluation r. repeat split; try reflexivity.
    simpl. discriminate.
  - eexists. eexists. repeat split; vm_compute; reflexivity.
Qed.

End EngineFacts.

(* ================================================================== *)
(** ** Parsing the remote questions *)

Module QuestionFacts.

Import JS AIService.

(** *** Tags *)

Lemma has_gt_stripTagsFrom (s : string) :
  forall in_tag, has_gt (stripTagsFrom in_tag s) = true -> has_gt s = true.
Proof.
  induction s as [| c r IH]; intros in_tag; simpl; [easy |].
  destruct in_tag.
  - intros H. apply IH in H. rewrite H. apply orb_true_r.
  - destruct (Ascii.eqb c "<" && has_gt r) eqn:E.
    + intros _. apply andb_true_iff in E as [_ ->]. apply orb_true_r.
    + simpl. intros H. apply orb_true_iff in H as [-> | H]; [reflexivity |].
      apply IH in H. rewrite H. apply orb_true_r.
Qed.

Lemma stripTagsFrom_tag_free (s : string) :
  forall in_tag, Spec.has_tag (stripTagsFrom in_tag s) = false.
Proof.
  induction s as [| c r IH]; intros in_tag; simpl; [reflexivity |].
  destruct in_tag; [apply IH |].
  destruct (Ascii.eqb c "<" && has_gt r) eqn:E; [apply IH |].
  simpl. rewrite IH, orb_false_r.
  destruct (Ascii.eqb c "<"); [| reflexivity].
  simpl in *. destruct (has_gt (stripTagsFrom false r)) eqn:G; [| reflexivity].
  apply has_gt_stripTagsFrom in G. congruence.
Qed.

Lemma has_tag_tail c r :
  Spec.has_tag (String c r) = false ->
  (Ascii.eqb c "<" && has_gt r) = false /\ Spec.has_tag r = false.
Proof. simpl. intros H. now apply orb_false_iff in H. Qed.

Lemma trimStart_tag_free (s : string) :
  Spec.has_tag s = false -> Spec.has_tag (trimStart s) = false.
Proof.
  induction s as [| c r IH]; [easy |].
  intros H. simpl. destruct (is_space c); [| exact H].
  apply IH. now apply has_tag_tail in H.
Qed.

Lemma has_gt_trimEnd (s : string) :
  has_gt (trimEnd s) = true -> has_gt s = true.
Proof.
  induction s as [| c r IH]; [easy |].
  simpl. destruct (trimEnd r) as [| c' r'] eqn:E.
  - destruct (is_space c); simpl; [discriminate |].
    rewrite orb_false_r. intros ->. reflexivity.
  - simpl. intros H. apply orb_true_iff in H as [-> | H]; [reflexivity |].
    rewrite IH by exact H. apply orb_true_r.
Qed.

Lemma trimEnd_tag_free (s : string) :
  Spec.has_tag s = false -> Spec.has_tag (trimEnd s) = false.
Proof.
  induction s as [| c r IH]; [easy |].
  intros H. apply has_tag_tail in H as [Hhead Htail].
  specialize (IH Htail). simpl.
  destruct (trimEnd r) as [| c' r'] eqn:E.
  - destruct (is_space c); simpl; [reflexivity |].
    now rewrite andb_false_r.
  - change (Spec.has_tag (String c (String c' r')))
      with ((Ascii.eqb c "<" && has_gt (String c' r'))
            || Spec.has_tag (String c' r')).
    rewrite IH, orb_false_r.
    destruct (Ascii.eqb c "<"); [| reflexivity].
    simpl in Hhead. cbn [andb].
    destruct (has_gt (String c' r')) eqn:G; [| reflexivity].
    rewrite <- E in G. apply has_gt_trimEnd in G. congruence.
Qed.


(** *** Lists of results *)





(** *** The static set *)

Lemma mock_for_data_scientist shuffle count :
  generateMockQuestions shuffle "Data Scientist" (JStr "mid") count []
  = Some (fillFollowUps Spec.dataScientistMid
            (firstn (Nat.min count
                       (List.length (shuffle Spec.dataScientistMid)))
                    (shuffle Spec.dataScientistMid))
            (count
             - List.length
                 (firstn (Nat.min count
                            (List.length (shuffle Spec.dataScientistMid)))
                         (shuffle Spec.dataScientistMid)))).
Proof. reflexivity. Qed.

Lemma In_firstn {A} (x : A) (n : nat) :
  forall l, In x (firstn n l) -> In x l.
Proof.
  induction n as [| n IH]; intros [| a l]; simpl; try contradiction.
  intros [-> | H]; [now left | right; now apply IH].
Qed.

Lemma fillFollowUps_length roleQuestions remaining :
  forall selected,
    List.length (fillFollowUps roleQuestions selected remaining)
    = (List.length selected + remaining)%nat.
Proof.
  induction remaining as [| k IH]; intros selected; simpl.
  - lia.
  - rewrite IH, length_app. simpl. lia.
Qed.

Lemma fillFollowUps_from_table remaining :
  forall selected,
    Forall Spec.fromDataScientistTable selected ->
    Forall Spec.fromDataScientistTable
      (fillFollowUps Spec.dataScientistMid selected remaining).
Proof.
  induction remaining as [| k IH]; intros selected Hsel;
    [exact Hsel |].
  cbn [fillFollowUps]. apply IH. apply Forall_app. split; [exact Hsel |].
  constructor; [| constructor].
  eexists. split; [| right; reflexivity].
  apply nth_In. apply Nat.mod_upper_bound. discriminate.
Qed.

(** Under a shuffle that only reorders, the static set has exactly [count]
    questions, all of them from the table of Data Scientist at difficulty
    mid or follow-ups of these. *)
Lemma static_set_has_count_questions shuffle count questions :
  (forall l, Permutation (shuffle l) l) ->
  generateMockQuestions shuffle "Data Scientist" (JStr "mid") count []
  = Some questions ->
  List.length questions = count
  /\ Forall Spec.fromDataScientistTable questions
  /\ Forall (fun q => q_difficulty q = JStr "mid") questions.
Proof.
  intros Hperm. rewrite mock_for_data_scientist. intros [= <-].
  pose proof (Hperm Spec.dataScientistMid) as Hp.
  assert (Hfrom : Forall Spec.fromDataScientistTable
            (fillFollowUps Spec.dataScientistMid
               (firstn (Nat.min count
                          (List.length (shuffle Spec.dataScientistMid)))
                       (shuffle Spec.dataScientistMid))
               (count
                - List.length
                    (firstn (Nat.min count
                               (List.length (shuffle Spec.dataScientistMid)))
                            (shuffle Spec.dataScientistMid))))).
  { apply fillFollowUps_from_table. apply Forall_forall. intros q Hq.
    exists q. split; [| left; reflexivity].
    apply (Permutation_in q Hp). eapply In_firstn. exact Hq. }
  split; [| split; [exact Hfrom |]].
  - rewrite fillFollowUps_length, length_firstn. lia.
  - eapply Forall_impl; [| exact Hfrom].
    intros q [base [Hin [-> | ->]]];
      simpl in Hin;
      repeat (destruct Hin as [<- | Hin]; [reflexivity |]);
      contradiction.
Qed.

(** *** The parsed questions, element by element *)











End QuestionFacts.

(* ================================================================== *)
(** ** More on the answer scorer *)

Module ScorerMore.

Import JS AIService.

(** *** Substrings *)

Lemma prefix_iff (t s : string) :
  String.prefix t s = true <-> exists post, s = t ++ post.
Proof.
  revert s. induction t as [| a t IH]; intros s.
  - split; [intros _; exists s; reflexivity |].
    intros _. destruct s; reflexivity.
  - destruct s as [| b s]; simpl.
    + split; [discriminate | intros [post H]; discriminate].
    + destruct (ascii_dec a b) as [<- | Hab].
      * rewrite IH. split; intros [post H]; exists post.
        -- now rewrite H.
        -- now injection H.
      * split; [discriminate |].
        intros [post H]. injection H as H1 _. now symmetry in H1.
Qed.

Lemma includes_iff (s t : string) :
  includes s t = true <-> exists pre post, s = pre ++ t ++ post.
Proof.
  split.
  - induction s as [| c r IH].
    + change (includes "" t) with (String.prefix t "" || false).
      rewrite orb_false_r. intros H. apply prefix_iff in H as [post H].
      exists EmptyString, post. exact H.
    + change (includes (String c r) t)
        with (String.prefix t (String c r) || includes r t).
      intros H. apply orb_true_iff in H as [H | H].
      * apply prefix_iff in H as [post H].
        exists EmptyString, post. exact H.
      * destruct (IH H) as [pre [post Hr]].
        exists (String c pre), post. simpl. now rewrite Hr.
  - intros [pre [post H]]. revert s H.
    induction pre as [| c pre IH]; intros s H.
    + assert (Hp : String.prefix t s = true)
        by (apply prefix_iff; exists post; exact H).
      destruct s.
      * change (includes "" t) with (String.prefix t "" || false).
        now rewrite Hp.
      * change (includes (String a s) t)
          with (String.prefix t (String a s) || includes s t).
        now rewrite Hp.
    + simpl in H. subst s.
      change (includes (String c (pre ++ t ++ post)) t)
        with (String.prefix t (String c (pre ++ t ++ post))
              || includes (pre ++ t ++ post) t).
      rewrite (IH _ eq_refl). apply orb_true_r.
Qed.

Lemma evaluate_missing question answer expectedConcepts role :
  result_missingConcepts
    (evaluateAnswerIntelligently question answer expectedConcepts role)
  = missingOf answer expectedConcepts.
Proof.
  unfold evaluateAnswerIntelligently.
  destruct (80 <=? scoreOf answer expectedConcepts role)%Z; [reflexivity |].
  destruct (50 <=? scoreOf answer expectedConcepts role)%Z; reflexivity.
Qed.

(** X1.  An expected concept is reported missing exactly when its
    lower-cased text does not occur, as a contiguous piece, in the
    lower-cased answer; every expected concept is either counted as covered
    or reported missing, so the two numbers add up to the number of
    expected concepts. *)
Theorem missing_concepts_are_those_not_contained :
  forall question answer expectedConcepts role,
    (forall c,
        In c (result_missingConcepts
                (evaluateAnswerIntelligently question answer
                   expectedConcepts role))
        <-> In c expectedConcepts
            /\ ~ exists pre post,
                  toLowerCase answer = pre ++ toLowerCase c ++ post)
    /\ (conceptsCovered answer expectedConcepts
        + List.length
            (result_missingConcepts
               (evaluateAnswerIntelligently question answer
                  expectedConcepts role))
        = List.length expectedConcepts)%nat.
Proof.
  intros question answer expectedConcepts role.
  rewrite evaluate_missing. unfold missingOf, conceptsCovered, coveredConcepts.
  split.
  - intros c. rewrite filter_In. unfold mentions.
    rewrite negb_true_iff, <- not_true_iff_false, includes_iff. reflexivity.
  - apply filter_length.
Qed.

(** *** The first strength and the first weakness *)

(** X2.  The feedback of an analysis quotes the first strength of a correct
    answer and the first weakness of any other answer; that item is always
    there: a correct answer has strengths and no weakness, every other
    answer (partial, incorrect or not given) has a weakness and no
    strength. *)
Theorem feedback_quotes_an_existing_item :
  forall q role index,
    match correctness (analyzeSingleAnswerIntelligently q role index) with
    | correct =>
        strengths (analyzeSingleAnswerIntelligently q role index) <> []
        /\ weaknesses (analyzeSingleAnswerIntelligently q role index) = []
    | _ =>
        weaknesses (analyzeSingleAnswerIntelligently q role index) <> []
        /\ strengths (analyzeSingleAnswerIntelligently q role index) = []
    end.
Proof.
  intros q role index. unfold analyzeSingleAnswerIntelligently.
  destruct (negb (truthy_string (answerOf q))
            || (String.length (trim (answerOf q)) =? 0)%nat).
  - simpl. split; [discriminate | reflexivity].
  - cbn [correctness strengths weaknesses].
    unfold evaluateAnswerIntelligently.
    destruct (80 <=? scoreOf _ _ _)%Z.
    + cbn. split; [discriminate | reflexivity].
    + destruct (50 <=? scoreOf _ _ _)%Z; cbn;
        (split; [discriminate | reflexivity]).
Qed.

(** *** A ceiling without concepts *)

Lemma Math_round_le (q : Q) (z : Z) :
  q <= inject_Z z -> (Math_round q <= z)%Z.
Proof.
  intros H. unfold Math_round.
  assert (Hz : Qfloor (inject_Z z + (1 # 2)) = z).
  { apply Z.le_antisymm.
    - assert (Hlt : inject_Z z + (1 # 2) < inject_Z (z + 1)).
      { rewrite inject_Z_plus.
        apply Qplus_lt_r. reflexivity. }
      pose proof (Qfloor_le (inject_Z z + (1 # 2))) as Hfl.
      pose proof (Qle_lt_trans _ _ _ Hfl Hlt) as Hc.
      rewrite <- Zlt_Qlt in Hc. lia.
    - rewrite <- (Qfloor_Z z) at 1. apply Qfloor_resp_le.
      rewrite <- (Qplus_0_r (inject_Z z)) at 1.
      apply Qplus_le_r. discriminate. }
  rewrite <- Hz. apply Qfloor_resp_le.
  apply Qplus_le_l. exact H.
Qed.

Lemma bonus_le (b : bool) (k : Q) : 0 <= k -> (if b then k else 0) <= k.
Proof. intros Hk. destruct b; [apply Qle_refl | exact Hk]. Qed.

Lemma rawScore_without_concepts answer expectedConcepts role :
  expectedConcepts <> [] ->
  conceptsCovered answer expectedConcepts = 0%nat ->
  rawScore answer expectedConcepts role <= 60.
Proof.
  intros Hne Hzero. unfold rawScore.
  assert (Hc : conceptScore answer expectedConcepts == 0).
  { unfold conceptScore. rewrite Hzero.
    destruct (0 <? Datatypes.length expectedConcepts)%nat eqn:E.
    - unfold Qnat at 1. simpl Z.of_nat. unfold Qdiv. ring.
    - apply Nat.ltb_ge in E. destruct expectedConcepts; [contradiction |].
      simpl in E. lia. }
  rewrite Hc.
  setoid_replace 60 with (0 + 20 + 15 + 10 + 15) by reflexivity.
  repeat apply Qplus_le_compat; try apply Qle_refl.
  - unfold depthScore. apply Q.le_min_l.
  - unfold examplesScore. apply bonus_le. discriminate.
  - unfold structureScore. apply bonus_le. discriminate.
  - unfold technicalScore. apply bonus_le. discriminate.
Qed.

(** X3.  An answer that mentions none of the expected concepts, when there
    are some, scores at most 60 and is never rated correct, whatever its
    length, examples, structure and vocabulary. *)
Theorem no_concept_caps_the_score_at_sixty :
  forall question answer expectedConcepts role,
    expectedConcepts <> [] ->
    conceptsCovered answer expectedConcepts = 0%nat ->
    (result_score
       (evaluateAnswerIntelligently question answer expectedConcepts role)
     <= 60)%Z
    /\ result_correctness
         (evaluateAnswerIntelligently question answer expectedConcepts role)
       <> correct.
Proof.
  intros question answer expectedConcepts role Hne Hzero.
  rewrite ScorerFacts.evaluate_tier, ScorerFacts.evaluate_score.
  assert (Hs : (scoreOf answer expectedConcepts role <= 60)%Z).
  { unfold scoreOf.
    pose proof (Math_round_le _ 60
                  (rawScore_without_concepts answer expectedConcepts role
                     Hne Hzero)).
    lia. }
  split; [exact Hs |].
  unfold Spec.correctnessTier.
  destruct (80 <=? scoreOf answer expectedConcepts role)%Z eqn:E.
  - apply Z.leb_le in E. lia.
  - destruct ((50 <=? scoreOf answer expectedConcepts role)%Z
              && (scoreOf answer expectedConcepts role <=? 79)%Z);
      discriminate.
Qed.

Lemma no_concept_caps_the_score_at_sixty_witness :
  (result_score
     (evaluateAnswerIntelligently "Explain overfitting."
        "First, for example, I would use python and pandas."
        ["bias"; "variance"] "Data Scientist") <= 60)%Z.
Proof.
  apply (no_concept_caps_the_score_at_sixty "Explain overfitting."
           "First, for example, I would use python and pandas."
           ["bias"; "variance"] "Data Scientist").
  - discriminate.
  - reflexivity.
Defined.

End ScorerMore.

(* ================================================================== *)
(** ** More on the session report *)

Module ReportMore.

Import JS AIService.

(** *** The analyses of a session *)

Lemma analysis_index q role index :
  questionIndex (analyzeSingleAnswerIntelligently q role index) = index.
Proof.
  unfold analyzeSingleAnswerIntelligently.
  destruct (negb (truthy_string (answerOf q)) || _); reflexivity.
Qed.

Lemma analysis_question q role index :
  question (analyzeSingleAnswerIntelligently q role index)
  = or_string (sq_question q) "".
Proof.
  unfold analyzeSingleAnswerIntelligently.
  destruct (negb (truthy_string (answerOf q)) || _); reflexivity.
Qed.

Lemma analysis_originalAnswer q role index :
  originalAnswer (analyzeSingleAnswerIntelligently q role index)
  = or_string (sq_userAnswer q) "".
Proof.
  unfold analyzeSingleAnswerIntelligently.
  destruct (negb (truthy_string (answerOf q)) || _); reflexivity.
Qed.

Lemma analysis_score_bounds q role index :
  (0 <= score (analyzeSingleAnswerIntelligently q role index) <= 100)%Z.
Proof.
  unfold analyzeSingleAnswerIntelligently.
  destruct (negb (truthy_string (answerOf q)) || _).
  - simpl. lia.
  - cbn [score]. rewrite ScorerFacts.evaluate_score.
    apply ScorerFacts.scoreOf_bounds.
Qed.

Lemma evaluateInterview_analyses role questions :
  questionAnalyses
    (evaluateInterview (Some (mkSessionData role (Some questions))))
  = analyzeFrom (or_string role "Data Scientist") 0
      (map cleanedQuestion questions).
Proof. destruct questions; reflexivity. Qed.

Lemma analyzeFrom_map {A} (f : Analysis -> A) (g : SessionQuestion -> A)
      role :
  (forall q i, f (analyzeSingleAnswerIntelligently q role i) = g q) ->
  forall qs i, map f (analyzeFrom role i qs) = map g qs.
Proof.
  intros Hfg. induction qs as [| q r IH]; intros i; simpl; [reflexivity |].
  now rewrite Hfg, IH.
Qed.

Lemma analyzeFrom_indices role qs :
  forall i, map questionIndex (analyzeFrom role i qs)
            = seq i (List.length qs).
Proof.
  induction qs as [| q r IH]; intros i; simpl; [reflexivity |].
  now rewrite analysis_index, IH.
Qed.

(** X4.  The report of a session has one analysis per question, in the
    order of the questions, numbered from 0; each analysis keeps the text
    of its question and the raw answer as the user gave it. *)
Theorem one_analysis_per_question_in_order :
  forall role questions,
    map questionIndex
      (questionAnalyses
         (evaluateInterview (Some (mkSessionData role (Some questions)))))
    = seq 0 (List.length questions)
    /\ map question
         (questionAnalyses
            (evaluateInterview (Some (mkSessionData role (Some questions)))))
       = map (fun q => or_string (sq_question q) "") questions
    /\ map originalAnswer
         (questionAnalyses
            (evaluateInterview (Some (mkSessionData role (Some questions)))))
       = map (fun q => or_string (sq_userAnswer q) "") questions.
Proof.
  intros role questions. rewrite evaluateInterview_analyses.
  split; [| split].
  - now rewrite analyzeFrom_indices, length_map.
  - rewrite (analyzeFrom_map question
               (fun q => or_string (sq_question q) "")).
    + now rewrite map_map.
    + intros q i. apply analysis_question.
  - rewrite (analyzeFrom_map originalAnswer
               (fun q => or_string (sq_userAnswer q) "")).
    + now rewrite map_map.
    + intros q i. apply analysis_originalAnswer.
Qed.

(** *** Tier counts *)

Lemma countTier_total (analyses : list Analysis) :
  (countTier correct analyses + countTier partial analyses
   + countTier incorrect analyses = List.length analyses)%nat.
Proof.
  unfold countTier. induction analyses as [| a l IH]; [reflexivity |].
  simpl. destruct (correctness a); simpl; lia.
Qed.

(** X5.  In every report the three tier counts add up to the number of
    analysed questions: each answer is counted in exactly one tier. *)
Theorem tier_counts_add_up :
  (forall analyses,
      (stat_correct (stats (generateIntelligentReport analyses))
       + stat_partial (stats (generateIntelligentReport analyses))
       + stat_incorrect (stats (generateIntelligentReport analyses))
       = List.length analyses)%nat)
  /\ (forall sessionData,
         (stat_correct (stats (evaluateInterview sessionData))
          + stat_partial (stats (evaluateInterview sessionData))
          + stat_incorrect (stats (evaluateInterview sessionData))
          = List.length (questionAnalyses (evaluateInterview sessionData)))%nat).
Proof.
  assert (H : forall analyses,
             (stat_correct (stats (generateIntelligentReport analyses))
              + stat_partial (stats (generateIntelligentReport analyses))
              + stat_incorrect (stats (generateIntelligentReport analyses))
              = List.length analyses)%nat).
  { intros analyses. unfold generateIntelligentReport.
    cbn [stats stat_correct stat_partial stat_incorrect].
    apply countTier_total. }
  split; [exact H |].
  intros [sd |]; [| reflexivity].
  unfold evaluateInterview.
  destruct (sd_questions sd) as [[| q qs] |]; try reflexivity.
  apply H.
Qed.

(** *** The overall score *)

Lemma sumZ_bounds (l : list Z) :
  Forall (fun z => 0 <= z <= 100)%Z l ->
  forall acc,
    (acc <= fold_left Z.add l acc
     <= acc + 100 * Z.of_nat (List.length l))%Z.
Proof.
  induction 1 as [| z l Hz _ IH]; intros acc; simpl fold_left.
  - simpl. lia.
  - specialize (IH (acc + z)%Z).
    change (Datatypes.length (z :: l)) with (S (Datatypes.length l)).
    lia.
Qed.

Lemma analyzeFrom_scores role qs :
  forall i,
    Forall (fun z => 0 <= z <= 100)%Z (map score (analyzeFrom role i qs)).
Proof.
  induction qs as [| q r IH]; intros i; simpl; constructor.
  - apply analysis_score_bounds.
  - apply IH.
Qed.

Lemma report_score_value (a : Analysis) (l : list Analysis) :
  overallScore (generateIntelligentReport (a :: l))
  = Fin (inject_Z
           (Math_round
              (inject_Z (sumZ (map score (a :: l)))
               / Qnat (List.length (a :: l))))).
Proof.
  unfold generateIntelligentReport. cbv zeta. cbn [overallScore].
  unfold div.
  change (Datatypes.length (a :: l)) with (S (Datatypes.length l)).
  rewrite ReportFacts.Qnat_succ_nonzero. reflexivity.
Qed.

Lemma mean_round_bounds (total : Z) (n : nat) :
  (0 <= total <= 100 * Z.of_nat (S n))%Z ->
  (0 <= Math_round (inject_Z total / Qnat (S n)) <= 100)%Z.
Proof.
  intros [Hlo Hhi].
  assert (Hpos : 0 < Qnat (S n)).
  { unfold Qnat. change 0 with (inject_Z 0). rewrite <- Zlt_Qlt. lia. }
  split.
  - apply ScorerFacts.Math_round_nonneg. apply ScorerFacts.Qdiv_nonneg.
    + change 0 with (inject_Z 0). rewrite <- Zle_Qle. exact Hlo.
    + apply Qlt_le_weak. exact Hpos.
  - apply ScorerMore.Math_round_le.
    apply Qle_shift_div_r; [exact Hpos |].
    unfold Qnat. rewrite <- inject_Z_mult, <- Zle_Qle. exact Hhi.
Qed.

Lemma report_score_bounds (analyses : list Analysis) :
  analyses <> [] ->
  Forall (fun z => 0 <= z <= 100)%Z (map score analyses) ->
  exists z,
    overallScore (generateIntelligentReport analyses) = Fin (inject_Z z)
    /\ (0 <= z <= 100)%Z.
Proof.
  intros Hne Hall. destruct analyses as [| a l]; [contradiction |].
  rewrite report_score_value. eexists. split; [reflexivity |].
  change (Datatypes.length (a :: l)) with (S (Datatypes.length l)).
  apply mean_round_bounds.
  pose proof (sumZ_bounds _ Hall 0%Z) as Hsum.
  rewrite length_map in Hsum.
  change (Datatypes.length (a :: l)) with (S (Datatypes.length l)) in Hsum.
  unfold sumZ. lia.
Qed.

(** X6.  The overall score of every report that [evaluateInterview] returns
    is a whole number between 0 and 100. *)
Theorem overall_score_between_0_and_100 :
  forall sessionData,
    exists z,
      overallScore (evaluateInterview sessionData) = Fin (inject_Z z)
      /\ (0 <= z <= 100)%Z.
Proof.
  intros [sd |]; [| exists 0%Z; split; [reflexivity | lia]].
  unfold evaluateInterview.
  destruct (sd_questions sd) as [[| q qs] |];
    try (exists 0%Z; split; [reflexivity | lia]).
  apply report_score_bounds.
  - unfold analyzeAllAnswers. cbn [map]. rewrite ReportFacts.analyzeFrom_cons.
    discriminate.
  - apply analyzeFrom_scores.
Qed.

(** *** Removing duplicates *)

Lemma existsb_eqb_In (x : string) (l : list string) :
  existsb (String.eqb x) l = true <-> In x l.
Proof.
  rewrite existsb_exists. split.
  - intros [y [Hy E]]. apply String.eqb_eq in E. now subst.
  - intros H. exists x. split; [exact H | apply String.eqb_refl].
Qed.

Lemma dedupFrom_In (arr : list string) :
  forall seen x,
    In x (dedupFrom seen arr) <-> In x arr /\ ~ In x seen.
Proof.
  induction arr as [| y r IH]; intros seen x; simpl; [tauto |].
  destruct (existsb (String.eqb y) seen) eqn:E.
  - apply existsb_eqb_In in E. rewrite IH.
    split; [tauto |]. intros [[-> | H] Hs]; [contradiction | tauto].
  - assert (Hy : ~ In y seen).
    { intros H. apply existsb_eqb_In in H. congruence. }
    simpl. rewrite IH. simpl.
    destruct (string_dec y x) as [-> | Hn]; [tauto |].
    split.
    + intros [H | [H1 H2]]; [contradiction | tauto].
    + intros [[H | H] Hs]; [contradiction | right; tauto].
Qed.

Lemma dedupFrom_NoDup (arr : list string) :
  forall seen, NoDup (dedupFrom seen arr).
Proof.
  induction arr as [| y r IH]; intros seen; simpl; [constructor |].
  destruct (existsb (String.eqb y) seen); [apply IH |].
  constructor; [| apply IH].
  rewrite dedupFrom_In. simpl. tauto.
Qed.

Lemma dedupFrom_fixed (arr : list string) :
  forall seen,
    NoDup arr -> (forall x, In x arr -> ~ In x seen) ->
    dedupFrom seen arr = arr.
Proof.
  induction arr as [| y r IH]; intros seen Hnd Hdisj; simpl; [reflexivity |].
  inversion Hnd as [| ? ? Hy Hr]; subst.
  destruct (existsb (String.eqb y) seen) eqn:E.
  - apply existsb_eqb_In in E. exfalso. apply (Hdisj y); simpl; tauto.
  - f_equal. apply IH; [exact Hr |].
    intros x Hx [<- | Hs]; [contradiction |].
    apply (Hdisj x); simpl; tauto.
Qed.

(** X7.  [deduplicateArray] keeps exactly the elements of its input, each
    once; it leaves a list without repetition unchanged, so applying it
    twice is the same as applying it once. *)
Theorem deduplicateArray_keeps_each_element_once :
  forall arr,
    NoDup (deduplicateArray arr)
    /\ (forall x, In x (deduplicateArray arr) <-> In x arr)
    /\ deduplicateArray (deduplicateArray arr) = deduplicateArray arr.
Proof.
  intros arr. unfold deduplicateArray.
  split; [apply dedupFrom_NoDup |].
  split.
  - intros x. rewrite dedupFrom_In. simpl. tauto.
  - apply dedupFrom_fixed; [apply dedupFrom_NoDup |].
    intros x _ [].
Qed.

(** *** The lists of the report *)

Lemma NoDup_firstn {A} (n : nat) (l : list A) :
  NoDup l -> NoDup (firstn n l).
Proof.
  revert l. induction n as [| n IH]; intros [| a l] H; simpl;
    try constructor.
  - inversion H as [| ? ? Ha Hl]; subst.
    intros Hin. apply Ha. revert Hin. clear.
    revert l. induction n as [| n IHn]; intros [| b l]; simpl;
      try contradiction.
    intros [-> | H]; [now left | right; now apply IHn].
  - inversion H; subst. now apply IH.
Qed.

Lemma slice5_length {A} (l : list A) :
  (List.length (slice 0 5 l) <= 5)%nat.
Proof. unfold slice. apply firstn_le_length. Qed.

Lemma suggestion_count (b1 b2 b3 : bool) (s1 s2 s3 s4 s5 : string) :
  let suggestions1 :=
    ((if b1 then [s1] else []) ++ (if b2 then [s2] else [])
     ++ (if b3 then [s3] else []))%list in
  let suggestions2 :=
    if (List.length suggestions1 <? 3)%nat
    then (suggestions1 ++ [s4; s5])%list else suggestions1 in
  (2 <= List.length (slice 0 5 suggestions2) <= 4)%nat.
Proof.
  destruct b1, b2, b3; cbv; lia.
Qed.

(** X8.  Whatever the analyses, a report lists at most five strengths, five
    weaknesses and five missing concepts, none of them twice, and between
    two and four suggestions. *)
Theorem report_lists_are_short_and_without_repetition :
  forall analyses,
    let r := generateIntelligentReport analyses in
    (List.length (report_strengths r) <= 5)%nat
    /\ NoDup (report_strengths r)
    /\ (List.length (report_weaknesses r) <= 5)%nat
    /\ NoDup (report_weaknesses r)
    /\ (List.length (report_missingConcepts r) <= 5)%nat
    /\ NoDup (report_missingConcepts r)
    /\ (2 <= List.length (suggestions r) <= 4)%nat.
Proof.
  intros analyses r. subst r. unfold generateIntelligentReport. cbv zeta.
  cbn [report_strengths report_weaknesses report_missingConcepts suggestions].
  repeat split;
    try apply slice5_length;
    try (unfold slice, deduplicateArray; apply NoDup_firstn;
         apply dedupFrom_NoDup).
  - apply (suggestion_count _ _ _ _ _ _ _ _).
  - apply (suggestion_count _ _ _ _ _ _ _ _).
Qed.

(** *** The knowledge level *)

Lemma total_length_bound (analyses : list Analysis) (k : nat) :
  Forall (fun a => (String.length (cleanedAnswer a) <= k)%nat) analyses ->
  forall acc,
    (fold_left (fun sum a => (sum + String.length (cleanedAnswer a))%nat)
       analyses acc
     <= acc + k * List.length analyses)%nat.
Proof.
  induction 1 as [| a l Ha _ IH]; intros acc; simpl.
  - lia.
  - specialize (IH (acc + String.length (cleanedAnswer a))%nat). lia.
Qed.

Lemma average_not_above (total n : nat) (k : Z) :
  (Z.of_nat total <= k * Z.of_nat n)%Z ->
  gtb (div (Fin (Qnat total)) (Fin (Qnat n))) (inject_Z k) = false.
Proof.
  intros H. destruct n as [| n].
  - assert (total = 0%nat) as -> by lia. reflexivity.
  - unfold div. rewrite ReportFacts.Qnat_succ_nonzero. cbn [gtb].
    apply negb_false_iff. apply Qle_bool_iff.
    apply Qle_shift_div_r.
    + unfold Qnat. change 0 with (inject_Z 0). rewrite <- Zlt_Qlt. lia.
    + unfold Qnat. rewrite <- inject_Z_mult, <- Zle_Qle. exact H.
Qed.

(** X9.  The knowledge level is Beginner whenever the overall score is
    below 50, and also whenever no cleaned answer is longer than 60
    characters, however high the score. *)
Theorem low_score_or_short_answers_mean_beginner :
  forall overall analyses,
    geb overall 50 = false
    \/ Forall (fun a => (String.length (cleanedAnswer a) <= 60)%nat) analyses ->
    determineKnowledgeLevel overall analyses = "Beginner".
Proof.
  intros overall analyses [Hlow | Hshort]; unfold determineKnowledgeLevel.
  - assert (H85 : geb overall 85 = false).
    { destruct overall as [q | | |]; try discriminate; try reflexivity.
      cbn [geb] in *. apply not_true_iff_false. intros H.
      apply not_true_iff_false in Hlow. apply Hlow.
      apply Qle_bool_iff in H. apply Qle_bool_iff.
      eapply Qle_trans; [| exact H]. discriminate. }
    assert (H70 : geb overall 70 = false).
    { destruct overall as [q | | |]; try discriminate; try reflexivity.
      cbn [geb] in *. apply not_true_iff_false. intros H.
      apply not_true_iff_false in Hlow. apply Hlow.
      apply Qle_bool_iff in H. apply Qle_bool_iff.
      eapply Qle_trans; [| exact H]. discriminate. }
    rewrite H85, H70, Hlow. reflexivity.
  - pose proof (total_length_bound analyses 60 Hshort 0) as Hsum.
    set (total := fold_left _ analyses 0%nat) in *.
    assert (H60 : gtb (div (Fin (Qnat total))
                          (Fin (Qnat (Datatypes.length analyses)))) 60
                  = false)
      by (apply (average_not_above total _ 60); lia).
    assert (H100 : gtb (div (Fin (Qnat total))
                           (Fin (Qnat (Datatypes.length analyses)))) 100
                   = false)
      by (apply (average_not_above total _ 100); lia).
    assert (H150 : gtb (div (Fin (Qnat total))
                           (Fin (Qnat (Datatypes.length analyses)))) 150
                   = false)
      by (apply (average_not_above total _ 150); lia).
    rewrite H60, H100, H150, !andb_false_r. reflexivity.
Qed.

Lemma low_score_or_short_answers_mean_beginner_witness :
  determineKnowledgeLevel (Fin 95)
    (questionAnalyses (evaluateInterview (Some Examples.fillerSession)))
  = "Beginner".
Proof.
  apply low_score_or_short_answers_mean_beginner.
  right. repeat constructor.
Defined.

(** *** The degraded report *)

Lemma fallback_scores qs :
  forall i, map score (fallbackFrom i qs) = repeat 50%Z (List.length qs).
Proof.
  induction qs as [| q r IH]; intros i; simpl; [reflexivity |].
  now rewrite IH.
Qed.

Lemma fallback_tiers qs :
  forall i,
    countTier correct (fallbackFrom i qs) = 0%nat
    /\ countTier partial (fallbackFrom i qs) = List.length qs
    /\ countTier incorrect (fallbackFrom i qs) = 0%nat.
Proof.
  unfold countTier.
  induction qs as [| q r IH]; intros i; simpl; [tauto |].
  destruct (IH (S i)) as [H1 [H2 H3]]. simpl. rewrite H1, H2, H3. tauto.
Qed.

Lemma fallback_all_partial qs :
  forall i,
    Forall (fun a => score a = 50%Z /\ correctness a = partial)
      (fallbackFrom i qs).
Proof.
  induction qs as [| q r IH]; intros i; simpl; constructor.
  - split; reflexivity.
  - apply IH.
Qed.

Lemma sum_of_fifties (n : nat) :
  forall acc, fold_left Z.add (repeat 50%Z n) acc
              = (acc + 50 * Z.of_nat n)%Z.
Proof.
  induction n as [| n IH]; intros acc; simpl repeat; simpl fold_left.
  - simpl. lia.
  - rewrite IH. lia.
Qed.

(** X10.  The degraded report that stands in for a failed evaluation gives
    every question 50 and the tier partial: for a session with at least
    one question its overall score is 50 and its tier counts are 0 correct,
    all partial, 0 incorrect. *)
Theorem fallback_report_is_all_partial_at_50 :
  forall sessionData questions,
    sd_questions sessionData = Some questions ->
    questions <> [] ->
    exists r,
      getFallbackEvaluation sessionData = Some r
      /\ overallScore r = Fin (inject_Z 50)
      /\ stats r = mkStats 0 (List.length questions) 0
      /\ Forall (fun a => score a = 50%Z /\ correctness a = partial)
           (questionAnalyses r).
Proof.
  intros sessionData questions Hq Hne.
  unfold getFallbackEvaluation. rewrite Hq. eexists. split; [reflexivity |].
  split; [| split].
  - destruct questions as [| q qs]; [contradiction |].
    change (fallbackFrom 0 (q :: qs))
      with (fallbackAnalysis 0 q :: fallbackFrom 1 qs).
    rewrite report_score_value.
    change (fallbackAnalysis 0 q :: fallbackFrom 1 qs)
      with (fallbackFrom 0 (q :: qs)).
    unfold sumZ. rewrite fallback_scores, sum_of_fifties.
    rewrite <- (length_map score), fallback_scores, repeat_length.
    do 2 f_equal. unfold Math_round.
    assert (E : inject_Z (0 + 50 * Z.of_nat (Datatypes.length (q :: qs)))
                / Qnat (Datatypes.length (q :: qs)) + (1 # 2)
                == 50 + (1 # 2)).
    { apply Qplus_inj_r. unfold Qnat. rewrite Z.add_0_l, inject_Z_mult.
      field. change 0 with (inject_Z 0). rewrite inject_Z_injective.
      simpl. lia. }
    rewrite (Qfloor_comp _ _ E). reflexivity.
  - unfold generateIntelligentReport. cbn [stats].
    destruct (fallback_tiers questions 0) as [-> [-> ->]]. reflexivity.
  - unfold generateIntelligentReport. cbn [questionAnalyses].
    apply fallback_all_partial.
Qed.

Lemma fallback_report_is_all_partial_at_50_witness :
  exists r,
    getFallbackEvaluation Examples.mixedSession = Some r
    /\ overallScore r = Fin (inject_Z 50).
Proof.
  destruct (fallback_report_is_all_partial_at_50 Examples.mixedSession
              _ eq_refl) as [r [Hr [Hs _]]].
  - discriminate.
  - exists r. split; [exact Hr | exact Hs].
Defined.

End ReportMore.

(* ================================================================== *)
(** ** The transcript normaliser *)

Module TranscriptFacts.

Import JS AIService.

(** *** Trimming *)

Lemma trimStart_head (s : string) :
  trimStart s = EmptyString
  \/ exists c r, trimStart s = String c r /\ is_space c = false.
Proof.
  induction s as [| c r IH]; simpl; [now left |].
  destruct (is_space c) eqn:E; [exact IH |].
  right. exists c, r. split; [reflexivity | exact E].
Qed.

Lemma trimEnd_keeps_head c r :
  is_space c = false -> exists r', trimEnd (String c r) = String c r'.
Proof.
  intros E. simpl. destruct (trimEnd r) as [| c' r'].
  - rewrite E. now exists EmptyString.
  - now exists (String c' r').
Qed.

Lemma trimEnd_idempotent (s : string) : trimEnd (trimEnd s) = trimEnd s.
Proof.
  induction s as [| c r IH]; [reflexivity |].
  simpl. destruct (trimEnd r) as [| c' r'] eqn:E.
  - destruct (is_space c) eqn:S; [reflexivity |]. simpl. now rewrite S.
  - change (trimEnd (String c (String c' r')))
      with (match trimEnd (String c' r') with
            | EmptyString =>
                if is_space c then EmptyString else String c EmptyString
            | r'' => String c r''
            end).
    rewrite IH. reflexivity.
Qed.

Lemma trim_idempotent (s : string) : trim (trim s) = trim s.
Proof.
  unfold trim. destruct (trimStart_head s) as [-> | [c [r [-> E]]]];
    [reflexivity |].
  destruct (trimEnd_keeps_head c r E) as [r' Hr].
  assert (Hs : trimStart (trimEnd (String c r)) = trimEnd (String c r)).
  { rewrite Hr. simpl. now rewrite E. }
  rewrite Hs. apply trimEnd_idempotent.
Qed.

Lemma trim_empty_trimStart (s : string) :
  trim s = EmptyString -> trimStart s = EmptyString.
Proof.
  unfold trim. destruct (trimStart_head s) as [-> | [c [r [-> E]]]];
    [reflexivity |].
  destruct (trimEnd_keeps_head c r E) as [r' ->]. discriminate.
Qed.

Lemma trimEnd_snoc (x : string) (c : ascii) :
  is_space c = false ->
  trimEnd (x ++ String c EmptyString) = x ++ String c EmptyString.
Proof.
  intros E. induction x as [| a x IH].
  - simpl. now rewrite E.
  - change (trimEnd (String a x ++ String c ""))
      with (match trimEnd (x ++ String c "") with
            | EmptyString =>
                if is_space a then EmptyString else String a EmptyString
            | r' => String a r'
            end).
    rewrite IH. destruct x; reflexivity.
Qed.

Lemma trimStart_fixed_app (t u : string) :
  t <> EmptyString -> trimStart t = t -> trimStart (t ++ u) = t ++ u.
Proof.
  destruct t as [| c r]; [contradiction |].
  intros _ H. simpl in *.
  destruct (is_space c) eqn:E; [| reflexivity].
  exfalso.
  assert (Hlen : (String.length (trimStart r) <= String.length r)%nat).
  { clear. induction r as [| a r IH]; simpl; [lia |].
    destruct (is_space a); simpl; lia. }
  rewrite H in Hlen. simpl in Hlen. lia.
Qed.

Lemma trim_start_fixed (s : string) : trimStart (trim s) = trim s.
Proof.
  unfold trim. destruct (trimStart_head s) as [-> | [c [r [-> E]]]];
    [reflexivity |].
  destruct (trimEnd_keeps_head c r E) as [r' ->]. simpl. now rewrite E.
Qed.

(** *** The last character *)

Lemma lastChar_snoc (s : string) (c : ascii) :
  lastChar (s ++ String c EmptyString) = Some c.
Proof.
  induction s as [| a s IH]; [reflexivity |].
  simpl. destruct (s ++ String c "") eqn:E; [| exact IH].
  destruct s; discriminate.
Qed.

(** X11.  A cleaned transcript is empty or ends with a full stop, an
    exclamation mark or a question mark, and it never begins or ends with
    white space. *)
Theorem cleaned_transcript_ends_a_sentence :
  forall rawText,
    (cleanTranscript rawText = EmptyString
     \/ exists c, lastChar (cleanTranscript rawText) = Some c
                  /\ is_sentence_end c = true)
    /\ trim (cleanTranscript rawText) = cleanTranscript rawText.
Proof.
  intros rawText. unfold cleanTranscript.
  destruct (negb (truthy_string rawText)); [split; [now left | reflexivity] |].
  set (cleaned := trim _).
  assert (Hfix : trim cleaned = cleaned) by apply trim_idempotent.
  destruct (lastChar cleaned) as [c |] eqn:L.
  - destruct (is_sentence_end c) eqn:E.
    + split; [right; exists c; now split | exact Hfix].
    + split.
      * right. exists "."%char. split; [apply lastChar_snoc | reflexivity].
      * unfold trim.
        assert (Hne : cleaned <> EmptyString)
          by (intros H; rewrite H in L; discriminate).
        rewrite trimStart_fixed_app;
          [apply trimEnd_snoc; reflexivity | exact Hne |].
        apply trim_start_fixed.
  - split; [| exact Hfix]. left.
    destruct cleaned as [| a r]; [reflexivity |].
    exfalso. clear -L. revert a L.
    induction r as [| b r IH]; intros a L; [discriminate |].
    apply (IH b). exact L.
Qed.

(** *** Answers of white space *)

Lemma space_char_cases (c : ascii) :
  is_space c = true ->
  In c ["009"; "010"; "011"; "012"; "013"; " "; "160"]%char.
Proof.
  destruct c as [[] [] [] [] [] [] [] []]; intros H;
    try discriminate H; simpl; tauto.
Qed.

Lemma space_is_no_filler (c : ascii) (r : string) :
  is_space c = true ->
  filler_at false (String c r) = None /\ is_word c = false.
Proof.
  intros H. apply space_char_cases in H. simpl in H.
  destruct H as [<- | [<- | [<- | [<- | [<- | [<- | [<- | []]]]]]]];
    split; reflexivity.
Qed.

Lemma trimStart_empty_cons c r :
  trimStart (String c r) = EmptyString ->
  is_space c = true /\ trimStart r = EmptyString.
Proof.
  simpl. destruct (is_space c); [tauto | discriminate].
Qed.

Lemma removeFillers_blank (s : string) :
  trimStart s = EmptyString -> removeFillers false 0 s = s.
Proof.
  induction s as [| c r IH]; [reflexivity |].
  intros H. apply trimStart_empty_cons in H as [Hc Hr].
  destruct (space_is_no_filler c r Hc) as [Hf Hw].
  change (removeFillers false 0 (String c r))
    with (match filler_at false (String c r) with
          | Some n => removeFillers (is_word c) (n - 1) r
          | None => String c (removeFillers (is_word c) 0 r)
          end).
  rewrite Hf, Hw, (IH Hr). reflexivity.
Qed.

Lemma collapseSpaces_blank (s : string) :
  trimStart s = EmptyString -> collapseSpaces true s = EmptyString.
Proof.
  induction s as [| c r IH]; [reflexivity |].
  intros H. apply trimStart_empty_cons in H as [Hc Hr].
  simpl. rewrite Hc. now apply IH.
Qed.

Lemma cleanTranscript_blank (s : string) :
  trim s = EmptyString -> cleanTranscript s = EmptyString.
Proof.
  intros H. apply trim_empty_trimStart in H.
  unfold cleanTranscript.
  destruct s as [| c r]; [reflexivity |].
  cbn [truthy_string String.eqb negb].
  rewrite (removeFillers_blank _ H).
  apply trimStart_empty_cons in H as [Hc Hr].
  cbn [collapseSpaces]. rewrite Hc, (collapseSpaces_blank r Hr).
  reflexivity.
Qed.

Lemma In_analyzeFrom role a qs :
  forall i,
    In a (analyzeFrom role i qs) ->
    exists q j, In q qs /\ a = analyzeSingleAnswerIntelligently q role j.
Proof.
  induction qs as [| q r IH]; intros i; simpl; [contradiction |].
  intros [<- | H].
  - exists q, i. split; [now left | reflexivity].
  - destruct (IH _ H) as [q' [j [Hin Ha]]].
    exists q', j. split; [now right | exact Ha].
Qed.

(** X12.  In the report of a session, every question whose raw answer is
    missing, empty or made of white space only is analysed as not
    answered: score 0, tier incorrect, with the rationale of an answer not
    given, whatever the other answers are. *)
Theorem blank_answers_score_zero_in_the_report :
  forall sessionData a,
    In a (questionAnalyses (evaluateInterview sessionData)) ->
    trim (originalAnswer a) = EmptyString ->
    score a = 0%Z
    /\ correctness a = incorrect
    /\ scoreReason a = "No answer given - score 0%".
Proof.
  intros [sd |] a; [| intros []].
  destruct sd as [role [qs |]]; [| intros []].
  rewrite ReportMore.evaluateInterview_analyses.
  intros Hin Hblank.
  apply In_analyzeFrom in Hin as [q' [j [Hq' ->]]].
  apply in_map_iff in Hq' as [q [<- _]].
  rewrite ReportMore.analysis_originalAnswer in Hblank.
  cbn [cleanedQuestion sq_userAnswer] in Hblank.
  assert (Hanswer : answerOf (cleanedQuestion q)
                    = or_string (sq_userAnswer q) "").
  { unfold answerOf, cleanedQuestion.
    cbn [sq_cleanedAnswer sq_userAnswer].
    rewrite (cleanTranscript_blank _ Hblank). reflexivity. }
  rewrite (ScorerFacts.no_answer_branch (cleanedQuestion q) _ j)
    by (rewrite Hanswer; exact Hblank).
  repeat split; reflexivity.
Qed.

Lemma blank_answers_score_zero_in_the_report_witness :
  exists a,
    In a (questionAnalyses (evaluateInterview (Some Examples.mixedSession)))
    /\ originalAnswer a = "   "
    /\ score a = 0%Z.
Proof.
  set (a := analyzeSingleAnswerIntelligently
              (cleanedQuestion
                 (mkSessionQuestion (Some "Explain regularization.")
                    (Some ["lasso"; "ridge"]) (Some "   ") None))
              "Data Scientist" 1).
  assert (Hin : In a (questionAnalyses
                        (evaluateInterview (Some Examples.mixedSession))))
    by (right; left; reflexivity).
  exists a. split; [exact Hin |]. split; [reflexivity |].
  apply (blank_answers_score_zero_in_the_report
           (Some Examples.mixedSession) a Hin).
  reflexivity.
Defined.

End TranscriptFacts.

(* ================================================================== *)
(** ** Generating and sanitising questions *)

Module GenerationFacts.

Import JS AIService.

(** *** Sanitising twice *)

Lemma stripTags_fixed (s : string) :
  Spec.has_tag s = false -> stripTags s = s.
Proof.
  unfold stripTags. induction s as [| c r IH]; [reflexivity |].
  intros H. apply QuestionFacts.has_tag_tail in H as [Hhead Htail].
  simpl. rewrite Hhead, (IH Htail). reflexivity.
Qed.

(** X13.  Sanitising a text leaves a text with no tag and no white space
    at either end, and sanitising that text again leaves it as it is. *)
Theorem sanitizeText_is_idempotent_on_texts :
  forall Number_toString t,
    exists t',
      sanitizeText Number_toString (Some (JStr t)) = Some t'
      /\ Spec.has_tag t' = false
      /\ trim t' = t'
      /\ sanitizeText Number_toString (Some (JStr t')) = Some t'.
Proof.
  intros Number_toString t.
  assert (Hclean : forall u,
             Spec.has_tag u = false -> trim u = u ->
             sanitizeText Number_toString (Some (JStr u)) = Some u).
  { intros u Htag Htrim. unfold sanitizeText. cbn [truthy toText].
    unfold truthy_string.
    destruct (String.eqb u "") eqn:E.
    - apply String.eqb_eq in E. now subst.
    - cbn [negb]. now rewrite (stripTags_fixed u Htag), Htrim. }
  unfold sanitizeText at 1. cbn [truthy toText]. unfold truthy_string.
  destruct (String.eqb t "") eqn:E; cbn [negb].
  - exists EmptyString. repeat split; reflexivity.
  - exists (trim (stripTags t)).
    assert (Htag : Spec.has_tag (trim (stripTags t)) = false).
    { unfold trim.
      apply QuestionFacts.trimEnd_tag_free, QuestionFacts.trimStart_tag_free,
        QuestionFacts.stripTagsFrom_tag_free. }
    split; [reflexivity |]. split; [exact Htag |].
    split; [apply TranscriptFacts.trim_idempotent |].
    apply Hclean; [exact Htag | apply TranscriptFacts.trim_idempotent].
Qed.

(** *** The static set, for any role *)

Lemma inherited_not_in_table role difficulty :
  inherited role = true -> assoc role (mockQuestions difficulty) = None.
Proof.
  unfold inherited, inherited_names. intros H.
  apply existsb_exists in H as [name [Hin E]].
  apply String.eqb_eq in E. subst name. simpl in Hin.
  repeat (destruct Hin as [<- | Hin]; [reflexivity |]).
  contradiction.
Qed.

Lemma table_lists role difficulty roleQuestions :
  assoc role (mockQuestions difficulty) = Some roleQuestions ->
  roleQuestions <> []
  /\ Forall (fun q => q_difficulty q = difficulty) roleQuestions.
Proof.
  unfold mockQuestions. simpl.
  repeat match goal with
         | |- context [String.eqb role ?k] => destruct (String.eqb role k)
         end;
    intros [= <-]; (split; [discriminate | repeat constructor]).
Qed.

Lemma fillFollowUps_Forall (P : Question -> Prop) roleQuestions remaining :
  roleQuestions <> [] ->
  Forall (fun q => P (followUp q)) roleQuestions ->
  forall selected,
    Forall P selected ->
    Forall P (fillFollowUps roleQuestions selected remaining).
Proof.
  intros Hne Hrq.
  induction remaining as [| k IH]; intros selected Hsel; [exact Hsel |].
  cbn [fillFollowUps]. apply IH. apply Forall_app. split; [exact Hsel |].
  constructor; [| constructor].
  rewrite Forall_forall in Hrq. apply Hrq.
  apply nth_In. apply Nat.mod_upper_bound.
  destruct roleQuestions; [contradiction | discriminate].
Qed.

Lemma static_set_of (shuffle : list Question -> list Question)
      roleQuestions difficulty count :
  (forall l, Permutation (shuffle l) l) ->
  roleQuestions <> [] ->
  Forall (fun q => q_difficulty q = difficulty) roleQuestions ->
  let selected :=
    firstn (Nat.min count (List.length (shuffle roleQuestions)))
           (shuffle roleQuestions) in
  let questions :=
    fillFollowUps roleQuestions selected (count - List.length selected) in
  List.length questions = count
  /\ Forall (fun q => q_difficulty q = difficulty) questions.
Proof.
  intros Hperm Hne Hd selected questions. subst questions. split.
  - rewrite QuestionFacts.fillFollowUps_length. subst selected.
    rewrite length_firstn. lia.
  - apply fillFollowUps_Forall; [exact Hne | |].
    + eapply Forall_impl; [| exact Hd]. intros q Hq. exact Hq.
    + subst selected. apply Forall_forall. intros q Hq.
      apply QuestionFacts.In_firstn in Hq.
      apply (Permutation_in q (Hperm roleQuestions)) in Hq.
      rewrite Forall_forall in Hd. now apply Hd.
Qed.

(** X14.  With a shuffle that only reorders, [generateMockQuestions] throws
    exactly for the roles named like an inherited member; for every other
    role, known or not, it returns exactly [count] questions, all at the
    requested difficulty. *)
Theorem mock_questions_number_exactly_count :
  forall shuffle role difficulty count domainKeywords,
    (forall l, Permutation (shuffle l) l) ->
    (generateMockQuestions shuffle role difficulty count domainKeywords = None
     <-> inherited role = true)
    /\ (forall questions,
           generateMockQuestions shuffle role difficulty count domainKeywords
           = Some questions ->
           List.length questions = count
           /\ Forall (fun q => q_difficulty q = difficulty) questions).
Proof.
  intros shuffle role difficulty count domainKeywords Hperm.
  unfold generateMockQuestions.
  destruct (assoc role (mockQuestions difficulty)) as [rq |] eqn:Hrole.
  - destruct (table_lists _ _ _ Hrole) as [Hne Hd].
    split.
    + split; [discriminate |].
      intros Hi. rewrite (inherited_not_in_table _ difficulty Hi) in Hrole.
      discriminate.
    + intros questions [= <-].
      exact (static_set_of shuffle rq difficulty count Hperm Hne Hd).
  - destruct (inherited role) eqn:Hi.
    + split; [tauto | discriminate].
    + destruct (assoc "Data Scientist" (mockQuestions difficulty))
        as [rq |] eqn:Hds; [| discriminate Hds].
      destruct (table_lists _ _ _ Hds) as [Hne Hd].
      split; [split; discriminate |].
      intros questions [= <-].
      exact (static_set_of shuffle rq difficulty count Hperm Hne Hd).
Qed.

Lemma mock_questions_number_exactly_count_witness :
  exists questions,
    generateMockQuestions Examples.keepOrder "Marketing" (JStr "senior") 7 []
    = Some questions
    /\ List.length questions = 7%nat.
Proof.
  eexists. split; [reflexivity |].
  apply (mock_questions_number_exactly_count Examples.keepOrder "Marketing"
           (JStr "senior") 7 []).
  - intros l. apply Permutation_refl.
  - reflexivity.
Defined.

(** *** Generating the questions of a session *)

Lemma mock_ignores_keywords shuffle role difficulty count k1 k2 :
  generateMockQuestions shuffle role difficulty count k1
  = generateMockQuestions shuffle role difficulty count k2.
Proof. reflexivity. Qed.

Lemma mock_total shuffle role difficulty count keywords :
  inherited role = false ->
  exists questions,
    generateMockQuestions shuffle role difficulty count keywords
    = Some questions.
Proof.
  intros Hi. unfold generateMockQuestions.
  destruct (assoc role (mockQuestions difficulty)) as [rq |];
    [eexists; reflexivity |].
  rewrite Hi. eexists. reflexivity.
Qed.

Lemma parseQuestions_total shuffle JSON_parse Number_toString response count :
  exists questions,
    parseQuestions shuffle JSON_parse Number_toString response count
    = Some questions.
Proof.
  unfold parseQuestions.
  destruct (parseAttempt JSON_parse Number_toString response count);
    [eexists; reflexivity |].
  rewrite QuestionFacts.mock_for_data_scientist. eexists. reflexivity.
Qed.

(** X15.  For a role that is not named like an inherited member, question
    generation always returns questions, whatever the remote service does.
    Without a usable key, or in mock mode, or when the call to the service
    fails, they are the static questions of the requested role; the
    service is then not consulted or its failure is absorbed. *)
Theorem question_generation_never_fails :
  forall shuffle JSON_parse Number_toString callLLMApi useMockData apiKey
         role difficulty count,
    inherited role = false ->
    (exists questions,
        generateIntelligentQuestions shuffle JSON_parse Number_toString
          callLLMApi useMockData apiKey role difficulty count
        = Some questions)
    /\ (useMockData = true \/ apiKey = None \/ apiKey = Some EmptyString
        \/ (forall key prompt, callLLMApi key prompt = None) ->
        generateIntelligentQuestions shuffle JSON_parse Number_toString
          callLLMApi useMockData apiKey role difficulty count
        = generateMockQuestions shuffle role (JStr difficulty) count []).
Proof.
  intros shuffle JSON_parse Number_toString callLLMApi useMockData apiKey
         role difficulty count Hi.
  unfold generateIntelligentQuestions.
  assert (Hkw : exists keywords, domainKeywordsOf role = Some keywords).
  { unfold domainKeywordsOf.
    destruct (assoc role roleDomainMap); [eexists; reflexivity |].
    rewrite Hi. eexists. reflexivity. }
  destruct Hkw as [keywords ->].
  rewrite (mock_ignores_keywords shuffle role (JStr difficulty) count
             keywords []).
  destruct (mock_total shuffle role (JStr difficulty) count [] Hi)
    as [mock Hmock].
  split.
  - destruct apiKey as [key |]; [| now exists mock].
    destruct (useMockData || negb (truthy_string key)); [now exists mock |].
    destruct (callLLMApi key _) as [response |]; [| now exists mock].
    destruct (parseQuestions_total shuffle JSON_parse Number_toString
                response count) as [questions ->].
    now exists questions.
  - intros [Hmode | [Hkey | [Hkey | Hdown]]].
    + rewrite Hmode. destruct apiKey; reflexivity.
    + rewrite Hkey. reflexivity.
    + rewrite Hkey. cbn. now rewrite orb_true_r.
    + destruct apiKey as [key |]; [| reflexivity].
      destruct (useMockData || negb (truthy_string key)); [reflexivity |].
      now rewrite Hdown.
Qed.

Lemma question_generation_never_fails_witness :
  generateIntelligentQuestions Examples.keepOrder Examples.parseOneText
    Examples.digitsOnly Examples.serviceDown false (Some "sk-test")
    "HR" "junior" 5
  = generateMockQuestions Examples.keepOrder "HR" (JStr "junior") 5 [].
Proof.
  apply (question_generation_never_fails Examples.keepOrder
           Examples.parseOneText Examples.digitsOnly Examples.serviceDown
           false (Some "sk-test") "HR" "junior" 5).
  - reflexivity.
  - right. right. right. intros key prompt. reflexivity.
Defined.

End GenerationFacts.

(* ================================================================== *)
(** ** More on the history store *)

Module StoreMore.

Import JS StorageService.

(** *** Failed writes *)

(** X16.  An operation of the store that reports a failure ([null] from
    [saveInterview], [false] from the others) has left the store exactly as
    it was. *)
Theorem failed_operations_change_nothing :
  (forall st interviewData generatedId now,
      snd (saveInterview st interviewData generatedId now) = None ->
      fst (saveInterview st interviewData generatedId now) = st)
  /\ (forall st id,
         snd (deleteInterview st id) = false ->
         fst (deleteInterview st id) = st)
  /\ (forall st, snd (clearHistory st) = false -> fst (clearHistory st) = st)
  /\ (forall st jsonData,
         snd (importData st jsonData) = false ->
         fst (importData st jsonData) = st).
Proof.
  repeat split.
  - intros st interviewData generatedId now. unfold saveInterview.
    destruct (getHistory st); try reflexivity.
    match goal with
    | |- context [setItem st ?t] => destruct (setItem st t)
    end; [discriminate | reflexivity].
  - intros st id. unfold deleteInterview.
    destruct (getHistory st) as [| | | | history |]; try reflexivity.
    destruct (withoutId id history) as [filtered |]; [| reflexivity].
    destruct (setItem st _); [discriminate | reflexivity].
  - intros st. unfold clearHistory.
    destruct (setItem st _); [discriminate | reflexivity].
  - intros st jsonData. unfold importData.
    destruct (JSON_parse jsonData) as [data |]; [| reflexivity].
    destruct (get "history" data) as [history |]; [| reflexivity].
    destruct (truthy history); [| reflexivity].
    destruct history as [[| | | | items |] |]; try reflexivity.
    destruct (setItem st _); [discriminate | reflexivity].
Qed.

Lemma failed_operations_change_nothing_witness :
  fst (saveInterview (Examples.fullStore Examples.twoRecords)
         [("score", JNum 90)] "int_3" "2024-01-02T00:00:00.000Z")
  = Examples.fullStore Examples.twoRecords
  /\ fst (deleteInterview (Examples.fullStore Examples.twoRecords) "int_1")
     = Examples.fullStore Examples.twoRecords.
Proof.
  destruct failed_operations_change_nothing as [Hsave [Hdelete _]].
  split; [apply Hsave | apply Hdelete]; reflexivity.
Defined.

(** *** Saving *)

Lemma assoc_set_same k v fields : assoc k (set k v fields) = Some v.
Proof.
  induction fields as [| [k' v'] r IH]; simpl.
  - now rewrite String.eqb_refl.
  - destruct (String.eqb k k') eqn:E; simpl.
    + now rewrite String.eqb_refl.
    + now rewrite E.
Qed.

Lemma assoc_set_other k k' v fields :
  k <> k' -> assoc k (set k' v fields) = assoc k fields.
Proof.
  intros Hne. apply String.eqb_neq in Hne.
  induction fields as [| [k'' v''] r IH]; simpl.
  - now rewrite Hne.
  - destruct (String.eqb k' k'') eqn:E; simpl.
    + apply String.eqb_eq in E. subst k''. now rewrite Hne.
    + destruct (String.eqb k k''); [reflexivity | exact IH].
Qed.

Lemma capped_cons (record : json) (history : list json) :
  (if (maxHistoryItems <? List.length (record :: history))%nat
   then slice 0 maxHistoryItems (record :: history)
   else record :: history)
  = record :: firstn 49 history.
Proof.
  unfold maxHistoryItems.
  destruct (50 <? Datatypes.length (record :: history))%nat eqn:E.
  - reflexivity.
  - apply Nat.ltb_ge in E. simpl in E.
    rewrite firstn_all2 by lia. reflexivity.
Qed.

Lemma save_result st history interviewData generatedId now :
  getHistory st = JArr history ->
  (forall t, accepts st t = true) ->
  let record :=
    JObj (set "savedAt" (JStr now)
            (set "id" (or_value (assoc "id" interviewData) (JStr generatedId))
               interviewData)) in
  snd (saveInterview st interviewData generatedId now) = Some record
  /\ getHistory (fst (saveInterview st interviewData generatedId now))
     = JArr (record :: firstn 49 history).
Proof.
  intros Hh Hacc record. unfold saveInterview. rewrite Hh.
  unfold setItem. rewrite Hacc. cbn [fst snd].
  split; [reflexivity |].
  unfold getHistory. cbn [item JSON_parse JSON_stringify].
  f_equal. apply capped_cons.
Qed.

(** X17.  A successful [saveInterview] returns the record it stored: the
    given fields with [savedAt] set to the current time and [id] kept when
    it is truthy, generated otherwise.  The record goes to the front of the
    history, before the 49 newest of the records that were there. *)
Theorem saved_record_goes_first :
  forall st history interviewData generatedId now,
    getHistory st = JArr history ->
    (forall t, accepts st t = true) ->
    exists fields,
      snd (saveInterview st interviewData generatedId now)
      = Some (JObj fields)
      /\ getHistory (fst (saveInterview st interviewData generatedId now))
         = JArr (JObj fields :: firstn 49 history)
      /\ assoc "savedAt" fields = Some (JStr now)
      /\ assoc "id" fields
         = Some (or_value (assoc "id" interviewData) (JStr generatedId))
      /\ (forall k, k <> "id" -> k <> "savedAt" ->
                    assoc k fields = assoc k interviewData).
Proof.
  intros st history interviewData generatedId now Hh Hacc.
  destruct (save_result st history interviewData generatedId now Hh Hacc)
    as [Hret Hhist].
  eexists. split; [exact Hret |]. split; [exact Hhist |].
  split; [apply assoc_set_same |].
  split.
  - rewrite assoc_set_other by discriminate. apply assoc_set_same.
  - intros k Hid Hsaved. now rewrite !assoc_set_other.
Qed.

Lemma saved_record_goes_first_witness :
  exists fields,
    getHistory
      (fst (saveInterview (Examples.storeOf Examples.twoRecords)
              [("score", JNum 90)] "int_3" "2024-01-02T00:00:00.000Z"))
    = JArr (JObj fields :: Examples.twoRecords)
    /\ assoc "id" fields = Some (JStr "int_3").
Proof.
  destruct (saved_record_goes_first (Examples.storeOf Examples.twoRecords)
              Examples.twoRecords [("score", JNum 90)] "int_3"
              "2024-01-02T00:00:00.000Z" eq_refl (fun _ => eq_refl))
    as [fields [_ [Hhist [_ [Hid _]]]]].
  exists fields. split; [exact Hhist | exact Hid].
Defined.

(** *** Looking a record up *)

Lemma hasId_carries id entry :
  entry <> JNull -> hasId id entry = Some (Spec.carriesId id entry).
Proof.
  intros Hne.
  destruct entry as [| b | q | s | items | fields];
    try reflexivity; [contradiction |].
  unfold hasId, Spec.carriesId. simpl.
  destruct (assoc "id" fields) as [[| | | | |] |]; reflexivity.
Qed.

(** X18.  The record that [saveInterview] has just stored under a text
    identifier is the one that [getInterview] returns for that identifier,
    also when older records carry the same identifier. *)
Theorem saved_record_is_found_by_its_id :
  forall st history interviewData generatedId now id,
    getHistory st = JArr history ->
    (forall t, accepts st t = true) ->
    or_value (assoc "id" interviewData) (JStr generatedId) = JStr id ->
    exists record,
      snd (saveInterview st interviewData generatedId now) = Some record
      /\ getInterview (fst (saveInterview st interviewData generatedId now))
           id
         = Some (Some record).
Proof.
  intros st history interviewData generatedId now id Hh Hacc Hid.
  destruct (save_result st history interviewData generatedId now Hh Hacc)
    as [Hret Hhist].
  eexists. split; [exact Hret |].
  unfold getInterview. rewrite Hhist. cbn [findId].
  unfold hasId. cbn [get].
  rewrite assoc_set_other by discriminate.
  rewrite assoc_set_same, Hid, String.eqb_refl. reflexivity.
Qed.

Lemma saved_record_is_found_by_its_id_witness :
  exists record,
    getInterview
      (fst (saveInterview (Examples.storeOf Examples.twoRecords)
              [("score", JNum 90)] "int_3" "2024-01-02T00:00:00.000Z"))
      "int_3"
    = Some (Some record).
Proof.
  destruct (saved_record_is_found_by_its_id
              (Examples.storeOf Examples.twoRecords) Examples.twoRecords
              [("score", JNum 90)] "int_3" "2024-01-02T00:00:00.000Z"
              "int_3" eq_refl (fun _ => eq_refl) eq_refl)
    as [record [_ Hfound]].
  exists record. exact Hfound.
Defined.

Lemma findId_without id id' history :
  Forall (fun e => e <> JNull) history ->
  findId id'
    (filter (fun e => negb (Spec.carriesId id e)) history)
  = if String.eqb id id' then Some None else findId id' history.
Proof.
  induction 1 as [| entry r Hentry _ IH]; simpl.
  - destruct (String.eqb id id'); reflexivity.
  - destruct (Spec.carriesId id entry) eqn:C; simpl.
    + rewrite IH. destruct (String.eqb id id') eqn:E; [reflexivity |].
      rewrite (hasId_carries id' entry Hentry).
      assert (C' : Spec.carriesId id' entry = false).
      { unfold Spec.carriesId in *.
        destruct entry as [| | | | | fields]; try discriminate.
        destruct (assoc "id" fields) as [[| | | s | |] |]; try discriminate.
        apply String.eqb_eq in C. subst s. exact E. }
      now rewrite C'.
    + rewrite (hasId_carries id' entry Hentry).
      destruct (Spec.carriesId id' entry) eqn:C'.
      * assert (E : String.eqb id id' = false).
        { unfold Spec.carriesId in *.
          destruct entry as [| | | | | fields]; try discriminate.
          destruct (assoc "id" fields) as [[| | | s | |] |];
            try discriminate.
          apply String.eqb_eq in C'. subst s.
          rewrite String.eqb_sym. exact C. }
        rewrite E. reflexivity.
      * exact IH.
Qed.

(** X19.  After a successful [deleteInterview] of an identifier, looking
    that identifier up gives [null], and looking any other identifier up
    gives what it gave before. *)
Theorem deleted_record_is_no_longer_found :
  forall st history id,
    getHistory st = JArr history ->
    Forall (fun e => e <> JNull) history ->
    (forall t, accepts st t = true) ->
    getInterview (fst (deleteInterview st id)) id = Some None
    /\ (forall id', id' <> id ->
                    getInterview (fst (deleteInterview st id)) id'
                    = getInterview st id').
Proof.
  intros st history id Hh Hrec Hacc.
  assert (Hafter : getHistory (fst (deleteInterview st id))
                   = JArr (filter (fun e => negb (Spec.carriesId id e))
                                  history)).
  { unfold deleteInterview.
    rewrite Hh, (StoreFacts.withoutId_is_filter id history Hrec).
    unfold setItem. rewrite Hacc. reflexivity. }
  unfold getInterview. rewrite Hafter, Hh. split.
  - rewrite (findId_without id id history Hrec), String.eqb_refl.
    reflexivity.
  - intros id' Hne. rewrite (findId_without id id' history Hrec).
    destruct (String.eqb id id') eqn:E; [| reflexivity].
    apply String.eqb_eq in E. congruence.
Qed.

Lemma deleted_record_is_no_longer_found_witness :
  getInterview
    (fst (deleteInterview (Examples.storeOf Examples.twoRecords) "int_1"))
    "int_1"
  = Some None.
Proof.
  apply (deleted_record_is_no_longer_found
           (Examples.storeOf Examples.twoRecords) Examples.twoRecords
           "int_1" eq_refl).
  - repeat constructor; discriminate.
  - reflexivity.
Defined.

(** *** Initialising *)

(** X20.  [initialize], when it does not throw, leaves the history that
    [getHistory] reads unchanged.  It writes the empty list only where
    there was no entry or the entry was the empty text; every other entry,
    even one that does not parse, is left as it is; and a second call
    changes nothing. *)
Theorem initialize_keeps_the_history :
  forall st st',
    initialize st = Some st' ->
    getHistory st' = getHistory st
    /\ initialize st' = Some st'
    /\ (item st <> None -> item st <> Some Empty -> st' = st)
    /\ (item st = None \/ item st = Some Empty ->
        item st' = Some (JSON_stringify (JArr []))).
Proof.
  intros st st'. unfold initialize.
  destruct (item st) as [[v | |] |] eqn:Hitem; cbn [truthy_item negb].
  - intros [= <-]. rewrite Hitem.
    repeat split; try reflexivity. intros [H | H]; discriminate.
  - intros [= <-]. rewrite Hitem.
    repeat split; try reflexivity. intros [H | H]; discriminate.
  - unfold setItem. destruct (accepts st _); [| discriminate].
    intros [= <-]. unfold getHistory. rewrite Hitem.
    repeat split; try reflexivity. intros _ H. now contradiction H.
  - unfold setItem. destruct (accepts st _); [| discriminate].
    intros [= <-]. unfold getHistory. rewrite Hitem.
    repeat split; try reflexivity. intros H. now contradiction H.
Qed.

Lemma initialize_keeps_the_history_witness :
  (exists st',
      initialize Examples.emptyStore = Some st'
      /\ getHistory st' = JArr [])
  /\ (exists st',
         initialize Examples.blankStore = Some st'
         /\ item st' = Some (JSON_stringify (JArr []))).
Proof.
  split; eexists; (split; [reflexivity |]).
  - apply (initialize_keeps_the_history Examples.emptyStore). reflexivity.
  - apply (initialize_keeps_the_history Examples.blankStore);
      [reflexivity | right; reflexivity].
Defined.

(** *** Unreadable and cleared stores *)

(** X21.  A store with no entry or with an entry that does not parse (the
    empty text included) reads as an empty history, and so does a store
    that [clearHistory] has just cleared: the statistics are all 0, the
    skills are the five fields at 0, the chart has no point and no
    identifier is found. *)
Theorem unreadable_or_cleared_store_reads_as_empty :
  forall toLocaleDateString st,
    item st = None \/ item st = Some Malformed \/ item st = Some Empty
    \/ (exists before, clearHistory before = (st, true)) ->
    getHistory st = JArr []
    /\ getStats st = Returns noStats
    /\ getSkillData st = Returns noSkills
    /\ getProgressData toLocaleDateString st = Some ([], [])
    /\ (forall id, getInterview st id = Some None).
Proof.
  intros toLocaleDateString st H.
  assert (Hh : getHistory st = JArr []).
  { destruct H as [H | [H | [H | [before H]]]].
    - unfold getHistory. now rewrite H.
    - unfold getHistory. now rewrite H.
    - unfold getHistory. now rewrite H.
    - unfold clearHistory in H.
      destruct (setItem before (JSON_stringify (JArr []))) as [st'' |] eqn:E;
        [| discriminate].
      injection H as <-.
      exact (StoreFacts.getHistory_after_setItem _ _ _ E). }
  unfold getStats, getSkillData, getProgressData, getInterview.
  rewrite Hh. repeat split; reflexivity.
Qed.

Lemma unreadable_or_cleared_store_reads_as_empty_witness :
  getStats (fst (clearHistory (Examples.storeOf Examples.tenRecords)))
  = Returns noStats.
Proof.
  apply (unreadable_or_cleared_store_reads_as_empty Examples.showDate).
  right. right. right.
  exists (Examples.storeOf Examples.tenRecords). reflexivity.
Defined.

(** *** Statistics *)

Lemma Qmax_cases (x y : Q) :
  (Qmax x y = x /\ y <= x) \/ (Qmax x y = y /\ x <= y).
Proof.
  unfold Qmax, GenericMinMax.gmax.
  destruct (Qcompare x y) eqn:C.
  - left. split; [reflexivity |]. apply Qeq_alt in C.
    rewrite C. apply Qle_refl.
  - right. split; [reflexivity |]. apply Qlt_alt in C.
    now apply Qlt_le_weak.
  - left. split; [reflexivity |]. apply Qgt_alt in C.
    now apply Qlt_le_weak.
Qed.

Lemma fold_max_spec (r : list Q) :
  forall q,
    (fold_left Qmax r q = q \/ In (fold_left Qmax r q) r)
    /\ q <= fold_left Qmax r q
    /\ Forall (fun x => x <= fold_left Qmax r q) r.
Proof.
  induction r as [| y r IH]; intros q; simpl.
  - split; [now left |]. split; [apply Qle_refl | constructor].
  - destruct (IH (Qmax q y)) as [Hin [Hle Hall]].
    destruct (Qmax_cases q y) as [[E Hyq] | [E Hqy]]; rewrite E in *.
    + split; [tauto |]. split; [exact Hle |].
      constructor; [| exact Hall]. eapply Qle_trans; eassumption.
    + split; [destruct Hin as [Hin | Hin];
              [right; left; now symmetry | right; right; exact Hin] |].
      split; [eapply Qle_trans; eassumption |].
      constructor; [exact Hle | exact Hall].
Qed.

Lemma sumQ_bounds (l : list Q) :
  Forall (fun q => 0 <= q <= 100) l ->
  forall acc,
    acc <= fold_left Qplus l acc
    /\ fold_left Qplus l acc <= acc + 100 * Qnat (List.length l).
Proof.
  induction 1 as [| q l [Hlo Hhi] _ IH]; intros acc; simpl fold_left.
  - split; [apply Qle_refl |].
    change (Qnat (Datatypes.length (@nil Q))) with 0.
    rewrite Qmult_0_r, Qplus_0_r. apply Qle_refl.
  - destruct (IH (acc + q)) as [H1 H2]. split.
    + eapply Qle_trans; [| exact H1].
      rewrite <- (Qplus_0_r acc) at 1. now apply Qplus_le_r.
    + eapply Qle_trans; [exact H2 |].
      change (Datatypes.length (q :: l)) with (S (Datatypes.length l)).
      unfold Qnat. rewrite Nat2Z.inj_succ. unfold Z.succ.
      rewrite inject_Z_plus.
      setoid_replace (acc + 100 * (inject_Z (Z.of_nat (Datatypes.length l))
                                   + inject_Z 1))
        with (acc + 100 + 100 * inject_Z (Z.of_nat (Datatypes.length l)))
        by ring.
      apply Qplus_le_l. now apply Qplus_le_r.
Qed.

(** X22.  For a history of at least one record with numeric scores,
    [getStats] counts every record, reports as best score one of the scores,
    which no score exceeds, and, when all scores lie between 0 and 100,
    reports an average that is a whole number between 0 and 100. *)
Theorem stats_count_best_and_average :
  forall st history scores,
    getHistory st = JArr history ->
    history <> [] ->
    scoresOf history = Returns scores ->
    exists s,
      getStats st = Returns s
      /\ totalInterviews s = List.length history
      /\ (exists best,
             bestScore s = Fin best
             /\ In best scores
             /\ Forall (fun q => q <= best) scores)
      /\ (Forall (fun q => 0 <= q <= 100) scores ->
          exists z,
            averageScore s = Fin (inject_Z z) /\ (0 <= z <= 100)%Z).
Proof.
  intros st history scores Hh Hne Hs.
  pose proof (StoreFacts.scoresOf_length history scores Hs) as Hlen.
  exists (statsOf scores). split.
  - unfold getStats. rewrite Hh.
    destruct history as [| i r]; [contradiction |]. now rewrite Hs.
  - destruct scores as [| q r];
      [destruct history; [contradiction | discriminate] |].
    split; [exact Hlen |]. split.
    + exists (fold_left Qmax r q). split; [reflexivity |].
      destruct (fold_max_spec r q) as [Hin [Hle Hall]].
      split; [| constructor; assumption].
      destruct Hin as [Hin | Hin]; [left; now symmetry | right; exact Hin].
    + intros Hrange. unfold statsOf. cbn [averageScore].
      change (Datatypes.length (q :: r)) with (S (Datatypes.length r)).
      unfold div. rewrite ReportFacts.Qnat_succ_nonzero. cbn [round].
      eexists. split; [reflexivity |].
      destruct (sumQ_bounds (q :: r) Hrange 0) as [Hlo Hhi].
      change (Datatypes.length (q :: r)) with (S (Datatypes.length r)) in Hhi.
      rewrite Qplus_0_l in Hhi.
      assert (Hpos : 0 < Qnat (S (Datatypes.length r))).
      { unfold Qnat. change 0 with (inject_Z 0). rewrite <- Zlt_Qlt. lia. }
      split.
      * apply ScorerFacts.Math_round_nonneg, ScorerFacts.Qdiv_nonneg;
          [exact Hlo | now apply Qlt_le_weak].
      * apply ScorerMore.Math_round_le.
        apply Qle_shift_div_r; [exact Hpos | exact Hhi].
Qed.

Lemma stats_count_best_and_average_witness :
  exists s,
    getStats (Examples.storeOf Examples.tenRecords) = Returns s
    /\ totalInterviews s = 10%nat.
Proof.
  destruct (stats_count_best_and_average
              (Examples.storeOf Examples.tenRecords) Examples.tenRecords
              [90; 80; 85; 75; 70; 60; 65; 55; 50; 70] eq_refl)
    as [s [Hs [Hn _]]].
  - discriminate.
  - reflexivity.
  - exists s. split; [exact Hs | exact Hn].
Defined.

End StoreMore.

(* ================================================================== *)
(** ** The chart series of the dashboard *)

Module ChartFacts.

Import JS StorageService.

(** *** The progress chart *)





(** *** The skills chart *)

Lemma put_other {A} k k' (v : A) fields :
  k <> k' -> assoc k (put k' v fields) = assoc k fields.
Proof.
  intros Hne. apply String.eqb_neq in Hne.
  induction fields as [| [k'' v''] r IH]; simpl.
  - now rewrite Hne.
  - destruct (String.eqb k' k'') eqn:E; simpl.
    + apply String.eqb_eq in E. subst k''. now rewrite Hne.
    + destruct (String.eqb k k''); [reflexivity | exact IH].
Qed.

Lemma assoc_None_keys {A} k (fields : list (string * A)) :
  assoc k fields = None -> Forall (fun kv => fst kv <> k) fields.
Proof.
  induction fields as [| [k' v] r IH]; simpl; [constructor |].
  destruct (String.eqb k k') eqn:E; [discriminate |].
  intros H. constructor; [| now apply IH].
  simpl. apply String.eqb_neq in E. congruence.
Qed.

Lemma addSkill_keeps_absent k acc kv :
  fst kv <> k ->
  (forall sums, acc = Returns sums -> assoc k sums = None) ->
  forall sums, addSkill acc kv = Returns sums -> assoc k sums = None.
Proof.
  intros Hne Hacc sums. unfold addSkill.
  destruct acc as [fields | |]; try discriminate.
  destruct (existsb _ _); [discriminate |].
  destruct (skillNumber (snd kv)); try discriminate.
  intros [= <-]. rewrite put_other by congruence. now apply Hacc.
Qed.

Lemma addSkills_keep_absent k fields :
  Forall (fun kv => fst kv <> k) fields ->
  forall acc,
    (forall sums, acc = Returns sums -> assoc k sums = None) ->
    forall sums,
      fold_left addSkill fields acc = Returns sums -> assoc k sums = None.
Proof.
  induction 1 as [| kv r Hkv _ IH]; intros acc Hacc; simpl.
  - exact Hacc.
  - apply IH. now apply addSkill_keeps_absent.
Qed.

Lemma addSkillsOf_keeps_absent k acc curr :
  (forall fields,
      get "skills" curr = Some (Some (JObj fields)) ->
      assoc k fields = None) ->
  (forall sums, acc = Returns sums -> assoc k sums = None) ->
  forall sums, addSkillsOf acc curr = Returns sums -> assoc k sums = None.
Proof.
  intros Hcurr Hacc sums. unfold addSkillsOf.
  destruct (get "skills" curr) as [skills |]; [| discriminate].
  destruct (truthy skills); [| apply Hacc].
  destruct skills as [[| b | q | s | [| x items] | fields] |];
    try (apply Hacc);
    try (destruct acc; discriminate).
  apply addSkills_keep_absent; [| exact Hacc].
  apply assoc_None_keys. now apply Hcurr.
Qed.

Lemma reduce_keeps_absent k recent :
  (forall entry fields,
      In entry recent ->
      get "skills" entry = Some (Some (JObj fields)) ->
      assoc k fields = None) ->
  forall acc,
    (forall sums, acc = Returns sums -> assoc k sums = None) ->
    forall sums,
      fold_left addSkillsOf recent acc = Returns sums -> assoc k sums = None.
Proof.
  induction recent as [| curr r IH]; intros Hrecent acc Hacc; simpl.
  - exact Hacc.
  - apply IH.
    + intros entry fields Hin. apply Hrecent. now right.
    + apply addSkillsOf_keeps_absent; [| exact Hacc].
      intros fields. apply Hrecent. now left.
Qed.

Lemma assoc_map_values {A B} (f : string * A -> B) k
      (fields : list (string * A)) :
  assoc k fields = None ->
  assoc k (map (fun kv => (fst kv, f kv)) fields) = None.
Proof.
  induction fields as [| [k' v] r IH]; simpl; [reflexivity |].
  destruct (String.eqb k k'); [discriminate | exact IH].
Qed.

(** X24.  The skill averages are taken over the five newest records only:
    older records change nothing.  For a history of at least one record, a
    skill that none of the five newest records carries is absent from the
    result; so the chart shows nothing for it. *)
Theorem skills_come_from_the_five_newest_records :
  (forall st1 st2 recent older,
      List.length recent = 5%nat ->
      getHistory st1 = JArr (recent ++ older) ->
      getHistory st2 = JArr recent ->
      getSkillData st1 = getSkillData st2)
  /\ (forall st history skills k,
         getHistory st = JArr history ->
         history <> [] ->
         getSkillData st = Returns skills ->
         (forall entry fields,
             In entry (firstn 5 history) ->
             get "skills" entry = Some (Some (JObj fields)) ->
             assoc k fields = None) ->
         assoc k skills = None).
Proof.
  split.
  - intros st1 st2 recent older Hlen H1 H2.
    unfold getSkillData. rewrite H1, H2.
    destruct recent as [| e r]; [discriminate |].
    cbn [app]. unfold skillsOf. rewrite !StoreFacts.slice_from_start.
    change (e :: r ++ older)%list with ((e :: r) ++ older)%list.
    rewrite firstn_app, Hlen, Nat.sub_diag. cbn [firstn].
    rewrite app_nil_r. reflexivity.
  - intros st history skills k Hh Hne Hs Hrecent.
    unfold getSkillData in Hs. rewrite Hh in Hs.
    destruct history as [| e r]; [contradiction |].
    unfold skillsOf in Hs. rewrite StoreFacts.slice_from_start in Hs.
    destruct (existsb isNull (firstn 5 (e :: r))); [discriminate |].
    destruct (fold_left addSkillsOf (firstn 5 (e :: r)) (Returns []))
      as [sums | |] eqn:Hfold; try discriminate.
    injection Hs as <-.
    apply (assoc_map_values
             (fun kv => Math_round
                          (snd kv / Qnat (Datatypes.length
                                            (firstn 5 (e :: r)))))).
    apply (reduce_keeps_absent k (firstn 5 (e :: r)) Hrecent (Returns []));
      [| exact Hfold].
    intros sums' [= <-]. reflexivity.
Qed.

Lemma skills_come_from_the_five_newest_records_witness :
  exists skills,
    getSkillData (Examples.storeOf Examples.skilledRecords) = Returns skills
    /\ assoc "culture" skills = None.
Proof.
  eexists. split; [reflexivity |].
  apply (proj2 skills_come_from_the_five_newest_records
           (Examples.storeOf Examples.skilledRecords)
           Examples.skilledRecords _ "culture" eq_refl).
  - discriminate.
  - reflexivity.
  - intros entry fields Hin Hskills. simpl in Hin.
    destruct Hin as [<- | [<- | [<- | []]]];
      injection Hskills as <-; reflexivity.
Defined.

End ChartFacts.

(* ================================================================== *)
(** ** Persisting a finished session, end to end *)

Module EngineMore.

Import JS InterviewEngine.

(** X25.  When the session data carries its questions and the store holds
    a list and accepts the write, [saveInterviewResult] puts one new record
    at the front of the history, before the 49 newest older ones.  The
    record carries the overall score of the evaluation (or [null] when that
    is not a finite number), the role and the difficulty of the engine's
    state, the time of saving, and the session identifier when it is
    truthy, a generated one otherwise. *)
Theorem finished_session_is_stored_first :
  forall st history state evaluation sessionData questions r dateNow dateIso
         generatedId savedAt,
    StorageService.getHistory st = JArr history ->
    (forall t, StorageService.accepts st t = true) ->
    AIService.sd_questions sessionData = Some questions ->
    exists st' fields,
      saveInterviewResult st state evaluation sessionData r dateNow dateIso
        generatedId savedAt = Some st'
      /\ StorageService.getHistory st'
         = JArr (JObj fields :: firstn 49 history)
      /\ assoc "score" fields
         = Some (json_of_number (AIService.overallScore evaluation))
      /\ assoc "role" fields = Some (role state)
      /\ assoc "difficulty" fields = Some (difficulty state)
      /\ assoc "date" fields = Some (JStr dateIso)
      /\ assoc "savedAt" fields = Some (JStr savedAt)
      /\ assoc "id" fields
         = Some (or_value (Some (sessionId state)) (JStr generatedId)).
Proof.
  intros st history state evaluation sessionData questions r dateNow dateIso
         generatedId savedAt Hh Hacc Hq.
  unfold saveInterviewResult, interviewData. rewrite Hq.
  match goal with
  | |- context [StorageService.saveInterview st ?d _ _] => set (data := d)
  end.
  destruct (StoreMore.save_result st history data generatedId savedAt Hh Hacc)
    as [_ Hhist].
  eexists. eexists. split; [reflexivity |]. split; [exact Hhist |].
  split; [| split; [| split; [| split; [| split]]]].
  - rewrite !StoreMore.assoc_set_other by discriminate. reflexivity.
  - rewrite !StoreMore.assoc_set_other by discriminate. reflexivity.
  - rewrite !StoreMore.assoc_set_other by discriminate. reflexivity.
  - rewrite !StoreMore.assoc_set_other by discriminate. reflexivity.
  - apply StoreMore.assoc_set_same.
  - rewrite StoreMore.assoc_set_other by discriminate.
    apply StoreMore.assoc_set_same.
Qed.

Lemma finished_session_is_stored_first_witness :
  exists st' fields,
    saveInterviewResult (Examples.storeOf Examples.twoRecords)
      Examples.engineState Examples.finishedReport Examples.finishedSession
      Examples.halfDraws 61000 "2024-01-01T00:01:01.000Z" "int_0"
      "2024-01-01T00:01:01.000Z" = Some st'
    /\ StorageService.getHistory st'
       = JArr (JObj fields :: Examples.twoRecords)
    /\ assoc "score" fields = Some (JNum 62).
Proof.
  destruct (finished_session_is_stored_first
              (Examples.storeOf Examples.twoRecords) Examples.twoRecords
              Examples.engineState Examples.finishedReport
              Examples.finishedSession _ Examples.halfDraws 61000
              "2024-01-01T00:01:01.000Z" "int_0" "2024-01-01T00:01:01.000Z"
              eq_refl (fun _ => eq_refl) eq_refl)
    as [st' [fields [Hsave [Hhist [Hscore _]]]]].
  exists st', fields. split; [exact Hsave |]. split; [exact Hhist |].
  rewrite Hscore. vm_compute. reflexivity.
Defined.

End EngineMore.

(* ================================================================== *)
(** ** Formatting a duration *)

Module UIFacts.

Import JS UIService.

Lemma readZ_string_of_Z (z : Z) : readZ (string_of_Z z) = Some z.
Proof.
  unfold readZ, string_of_Z.
  rewrite NilZero.isi.
  - simpl. now rewrite DecimalZ.of_to.
  - destruct z; simpl; try discriminate.
    intros [= H]. now apply DecimalPos.Unsigned.to_uint_nonnil in H.
  - destruct z; simpl; try discriminate.
    intros [= H]. now apply DecimalPos.Unsigned.to_uint_nonnil in H.
Qed.

Lemma two_digits (n : nat) :
  (n < 60)%nat ->
  String.length (padStart 2 "0" (string_of_Z (Z.of_nat n))) = 2%nat
  /\ readZ (padStart 2 "0" (string_of_Z (Z.of_nat n))) = Some (Z.of_nat n).
Proof.
  intros H.
  do 60 (destruct n as [| n]; [split; vm_compute; reflexivity |]).
  lia.
Qed.

(** X26.  For a duration of a whole number [ms] of milliseconds, from 0
    to below [2^53], [formatTime] writes the whole minutes, a colon and the
    remaining seconds on exactly two digits: read back as numbers, the two
    fields are [ms / 60000] and [(ms / 1000) mod 60].  Neither quotient
    computed in double precision reaches the next whole number. *)
Theorem formatTime_writes_minutes_and_two_digit_seconds :
  forall ms,
    (0 <= ms < 2 ^ 53)%Z ->
    exists minutes seconds,
      formatTime (inject_Z ms) = Some (minutes ++ ":" ++ seconds)
      /\ String.length seconds = 2%nat
      /\ readZ minutes = Some (ms / 60000)%Z
      /\ readZ seconds = Some ((ms / 1000) mod 60)%Z.
Proof.
  intros ms Hms. unfold formatTime.
  assert (Hs : (0 <= ms / 1000 < 2 ^ 44)%Z).
  { split; [apply Z.div_pos; lia |].
    apply Z.div_lt_upper_bound; lia. }
  assert (Hseconds :
            Qfloor (Double.nearest (inject_Z ms / 1000)) = (ms / 1000)%Z).
  { change 1000 with (inject_Z 1000).
    apply (DoubleFacts.floor_nearest_quotient ms 1000 44);
      try lia; try reflexivity.
    rewrite DoubleFacts.pow2_whole by lia.
    apply Qlt_shift_div_r; [reflexivity |].
    rewrite <- inject_Z_mult. apply DoubleFacts.inject_Z_lt. lia. }
  rewrite Hseconds.
  assert (Hminutes :
            Qfloor (Double.nearest (inject_Z (ms / 1000) / 60))
            = (ms / 1000 / 60)%Z).
  { change 60 with (inject_Z 60).
    apply (DoubleFacts.floor_nearest_quotient (ms / 1000) 60 44);
      try lia; try reflexivity.
    rewrite DoubleFacts.pow2_whole by lia.
    apply Qlt_shift_div_r; [reflexivity |].
    rewrite <- inject_Z_mult. apply DoubleFacts.inject_Z_lt. lia. }
  rewrite Hminutes.
  assert (Hm : (0 <= ms / 1000 / 60 < 2 ^ 53)%Z).
  { split; [apply Z.div_pos; lia |].
    apply Z.div_lt_upper_bound; lia. }
  assert (Hsmall : (Z.abs (ms / 1000 / 60) <? 2 ^ 53)%Z = true).
  { apply Z.ltb_lt. rewrite Z.abs_eq by lia. lia. }
  rewrite Hsmall.
  eexists. eexists. split; [reflexivity |].
  rewrite Z.rem_mod_nonneg by lia.
  pose proof (Z.mod_pos_bound (ms / 1000) 60 ltac:(lia)) as Hr.
  rewrite <- (Z2Nat.id ((ms / 1000) mod 60)) by lia.
  destruct (two_digits (Z.to_nat ((ms / 1000) mod 60)) ltac:(lia))
    as [Hlen Hread].
  split; [exact Hlen |]. split; [| exact Hread].
  rewrite readZ_string_of_Z, Zdiv_Zdiv by lia. reflexivity.
Qed.

Lemma formatTime_writes_minutes_and_two_digit_seconds_witness :
  (0 <= 125000 < 2 ^ 53)%Z
  /\ exists minutes seconds,
       formatTime (inject_Z 125000) = Some (minutes ++ ":" ++ seconds)
       /\ String.length seconds = 2%nat
       /\ readZ minutes = Some (125000 / 60000)%Z
       /\ readZ seconds = Some ((125000 / 1000) mod 60)%Z.
Proof.
  split; [split; [lia | reflexivity] |].
  apply (formatTime_writes_minutes_and_two_digit_seconds 125000).
  split; [lia | reflexivity].
Defined.

(** Beyond [2^53] the rounding shows: the quotient of 144115188075856992
    by 1000 is rounded up to a whole number of seconds, one more than the
    exact quotient has. *)
Lemma formatTime_rounds_its_quotients :
  formatTime (inject_Z 144115188075856992) = Some "2401919801264:17"
  /\ ((144115188075856992 / 1000) mod 60 = 16)%Z.
Proof. split; vm_compute; reflexivity. Qed.

End UIFacts.
